(** * Recipe generator actions: a shallow embedding of [src/actions/index.ts]

    The five request handlers ([createRecipeIdeaSession],
    [updateRecipeIdeaSession], [listRecipeIdeaSessions],
    [upsertGeneratedRecipe], [listGeneratedRecipes]) are embedded as
    computations in a state-and-exception monad over the four tables the
    repository defines.  A store statement that has run stays run when a later
    statement throws: the handlers open no transaction.  The store is the
    one the table definitions declare: primary keys and [references] are
    enforced, and a statement the store refuses throws and writes nothing. *)

From Stdlib Require Import String Ascii List ZArith Bool Lia Sorted Permutation.
Import ListNotations.

Local Open Scope string_scope.
Local Open Scope Z_scope.

(** ** JavaScript values the handlers test

    An optional input field ([z.string().optional()] and the like) is an
    [option]: [None] is [undefined].  The schemas admit no [null]. *)

(** [if (s)] on an optional string: [undefined] and the empty string are falsy. *)
Definition truthy_string (s : option string) : bool :=
  match s with
  | Some v => negb (v =? EmptyString)%string
  | None => false
  end.

(** [if (b)] on an optional boolean. *)
Definition truthy_bool (b : option bool) : bool :=
  match b with
  | Some v => v
  | None => false
  end.

(** [if (xs)] on an optional array: every array, the empty one too, is truthy. *)
Definition truthy_array {A : Type} (xs : option (list A)) : bool :=
  match xs with
  | Some _ => true
  | None => false
  end.

(** [a ?? d]: only [undefined] falls through to the default. *)
Definition nullish {A : Type} (a : option A) (d : A) : A :=
  match a with
  | Some v => v
  | None => d
  end.

(** ** Rows of the four tables ([defineTable]) *)

Module RecipeIdeaSessions.
Record row : Type := mk {
    id : string;
    userId : string;
    title : option string;
    prompt : option string;
    cuisinePreference : option string;
    dietaryPreference : option string;
    servingCount : option Z;
    createdAt : Z;
    updatedAt : Z
  }.
End RecipeIdeaSessions.

Module GeneratedRecipes.
Record row : Type := mk {
    id : string;
    sessionId : option string;
    userId : string;
    title : string;
    description : option string;
    cuisine : option string;
    mealType : option string;
    tags : option string;
    servings : option Z;
    prepTimeMinutes : option Z;
    cookTimeMinutes : option Z;
    notes : option string;
    isFavorite : bool;
    createdAt : Z;
    updatedAt : Z
  }.
End GeneratedRecipes.

Module GeneratedRecipeIngredients.
Record row : Type := mk {
    id : string;
    recipeId : string;
    orderIndex : option Z;
    name : string;
    quantity : option string;
    notes : option string;
    createdAt : Z
  }.
End GeneratedRecipeIngredients.

Module GeneratedRecipeSteps.
Record row : Type := mk {
    id : string;
    recipeId : string;
    orderIndex : Z;
    instruction : string;
    tip : option string;
    createdAt : Z
  }.
End GeneratedRecipeSteps.

(** ** The store

    Each table is the list of its rows in insertion order.  The constraints
    the table definitions declare are enforced by the statements below: the
    primary keys, and the [references] clauses of [GeneratedRecipes.sessionId]
    and of the two [recipeId] columns. *)

Record Db : Type := mkDb {
  sessions : list RecipeIdeaSessions.row;
  recipes : list GeneratedRecipes.row;
  ingredients : list GeneratedRecipeIngredients.row;
  steps : list GeneratedRecipeSteps.row
}.

(** A number read back from an integer column reaches the handler only
    when it is a safe integer of JavaScript, at most [2^53 - 1] in absolute
    value; the schemas ([z.number().int()]) admit larger ones. *)
Definition safe_integer (z : Z) : bool :=
  (- 9007199254740991 <=? z) && (z <=? 9007199254740991).

Definition safe_optional (v : option Z) : bool :=
  match v with
  | Some z => safe_integer z
  | None => true
  end.

(** Some session row, some recipe row, carries the identifier [k]. *)
Definition session_exists (d : Db) (k : string) : bool :=
  existsb (fun s => (RecipeIdeaSessions.id s =? k)%string) (sessions d).

Definition recipe_exists (d : Db) (k : string) : bool :=
  existsb (fun r => (GeneratedRecipes.id r =? k)%string) (recipes d).

(** A table of the store: how to read it, how to write it back, its
    primary-key column, whether the rows its [references] columns name are
    in the store (a NULL reference names none), and whether the client can
    hand a row back (every number in it is a safe integer). *)
Record Table (R : Type) : Type := mkTable {
  rows : Db -> list R;
  put_rows : list R -> Db -> Db;
  pk : R -> string;
  references_ok : Db -> R -> bool;
  readable : R -> bool
}.
Arguments rows {R} _ _.
Arguments put_rows {R} _ _ _.
Arguments pk {R} _ _.
Arguments references_ok {R} _ _ _.
Arguments readable {R} _ _.

Definition RecipeIdeaSessionsT : Table RecipeIdeaSessions.row :=
  {| rows := sessions;
     put_rows := fun l d => mkDb l (recipes d) (ingredients d) (steps d);
     pk := RecipeIdeaSessions.id;
     references_ok := fun _ _ => true;
     readable := fun r => safe_optional (RecipeIdeaSessions.servingCount r) |}.

Definition GeneratedRecipesT : Table GeneratedRecipes.row :=
  {| rows := recipes;
     put_rows := fun l d => mkDb (sessions d) l (ingredients d) (steps d);
     pk := GeneratedRecipes.id;
     references_ok := fun d r =>
       match GeneratedRecipes.sessionId r with
       | Some sid => session_exists d sid
       | None => true
       end;
     readable := fun r =>
       safe_optional (GeneratedRecipes.servings r)
       && safe_optional (GeneratedRecipes.prepTimeMinutes r)
       && safe_optional (GeneratedRecipes.cookTimeMinutes r) |}.

Definition GeneratedRecipeIngredientsT : Table GeneratedRecipeIngredients.row :=
  {| rows := ingredients;
     put_rows := fun l d => mkDb (sessions d) (recipes d) l (steps d);
     pk := GeneratedRecipeIngredients.id;
     references_ok := fun d r => recipe_exists d (GeneratedRecipeIngredients.recipeId r);
     readable := fun r => safe_optional (GeneratedRecipeIngredients.orderIndex r) |}.

Definition GeneratedRecipeStepsT : Table GeneratedRecipeSteps.row :=
  {| rows := steps;
     put_rows := fun l d => mkDb (sessions d) (recipes d) (ingredients d) l;
     pk := GeneratedRecipeSteps.id;
     references_ok := fun d r => recipe_exists d (GeneratedRecipeSteps.recipeId r);
     readable := fun r => safe_integer (GeneratedRecipeSteps.orderIndex r) |}.

(** ** What the handlers consume from outside

    [clock] is the reading of [new Date()], in milliseconds since the
    epoch; [uuid_stream] the successive results of [randomUUID()]. *)

Record Runtime : Type := mkRuntime {
  clock : Z;
  uuid_stream : nat -> string
}.

(** The mutable world: the store and how many identifiers were drawn. *)
Record World : Type := mkWorld {
  db : Db;
  uuid_next : nat
}.

(** ** Errors *)

Inductive ErrorCode : Type := UNAUTHORIZED | NOT_FOUND.

(** What a handler can throw: its own [ActionError]s, and the errors of
    the store and its client, which the handlers do not catch:
    a repeated primary key (SQLITE_CONSTRAINT_PRIMARYKEY), a reference to a
    row that is not there (SQLITE_CONSTRAINT_FOREIGNKEY), a limit or an
    offset that is no 64-bit integer (SQLITE_MISMATCH), and the client's
    [RangeError] on a stored integer that is not a safe integer. *)
Inductive Exn : Type :=
| ActionError (code : ErrorCode) (message : string)
| UniqueViolation
| ForeignKeyViolation
| Mismatch
| RangeError.

Inductive Outcome (A : Type) : Type :=
| Returned (a : A)
| Threw (e : Exn).
Arguments Returned {A} a.
Arguments Threw {A} e.

(** ** The monad of a handler: state that survives a throw *)

Definition M (A : Type) : Type := World -> Outcome A * World.

Definition ret {A : Type} (a : A) : M A := fun w => (Returned a, w).

Definition throw {A : Type} (e : Exn) : M A := fun w => (Threw e, w).

Definition bind {A B : Type} (m : M A) (k : A -> M B) : M B :=
  fun w =>
    match m w with
    | (Returned a, w') => k a w'
    | (Threw e, w') => (Threw e, w')
    end.

Declare Scope action_scope.
Delimit Scope action_scope with action.
Notation "x <- m ;; k" := (bind m (fun x => k))
  (at level 100, m at next level, right associativity) : action_scope.
Notation "m ;;; k" := (bind m (fun _ => k))
  (at level 100, right associativity) : action_scope.
Local Open Scope action_scope.

Fixpoint mapM {A B : Type} (f : A -> M B) (l : list A) : M (list B) :=
  match l with
  | [] => ret []
  | a :: l' => b <- f a ;; bs <- mapM f l' ;; ret (b :: bs)
  end.

(** [randomUUID()]: the next identifier of the stream. *)
Definition randomUUID (rt : Runtime) : M string :=
  fun w => (Returned (uuid_stream rt (uuid_next w)), mkWorld (db w) (S (uuid_next w))).

(** ** Store statements *)

(** [orderBy(col)]: ascending, rows with equal keys in table order. *)
Fixpoint insert_by {R : Type} (key : R -> Z) (x : R) (l : list R) : list R :=
  match l with
  | [] => [x]
  | y :: l' => if key x <=? key y then x :: l else y :: insert_by key x l'
  end.

Definition orderBy {R : Type} (key : R -> Z) (l : list R) : list R :=
  fold_right (insert_by key) [] l.

(** The client hands back the rows a query selects, or throws when one of
    them holds an integer that is not safe. *)
Definition read {R : Type} (T : Table R) (selected : list R) : Outcome (list R) :=
  if forallb (readable T) selected then Returned selected else Threw RangeError.

(** [db.select().from(T).where(p)] *)
Definition db_select {R : Type} (T : Table R) (p : R -> bool) : M (list R) :=
  fun w => (read T (filter p (rows T (db w))), w).

(** A limit and an offset reach the store as numbers; it takes them when
    they are 64-bit integers. *)
Definition fits_int64 (z : Z) : bool :=
  (- 9223372036854775808 <=? z) && (z <? 9223372036854775808).

(** [LIMIT n]: a negative [n] is no limit. *)
Definition limit_rows {R : Type} (n : Z) (l : list R) : list R :=
  if n <? 0 then l else firstn (Z.to_nat n) l.

(** [OFFSET k]: a negative [k] skips nothing. *)
Definition offset_rows {R : Type} (k : Z) (l : list R) : list R :=
  skipn (Z.to_nat k) l.

(** The page of the [selected] rows that [orderBy(key).limit(n).offset(k)]
    asks for, as it reaches the handler.  The store keeps a date as text and
    orders by that text, which for the dates of the years 0000 to 9999
    ([plain_date] below) is the order of the instants that [orderBy] computes. *)
Definition read_page {R : Type} (T : Table R) (key : R -> Z) (limit offset : Z)
    (selected : list R) : Outcome (list R) :=
  if fits_int64 limit && fits_int64 offset
  then read T (limit_rows limit (offset_rows offset (orderBy key selected)))
  else Threw Mismatch.

(** [db.select().from(T).where(p).orderBy(key).limit(n).offset(k)] *)
Definition db_select_page {R : Type} (T : Table R) (p : R -> bool)
    (key : R -> Z) (limit offset : Z) : M (list R) :=
  fun w => (read_page T key limit offset (filter p (rows T (db w))), w).

Definition has_key {R : Type} (T : Table R) (k : string) (l : list R) : bool :=
  existsb (fun r => (pk T r =? k)%string) l.

(** Would appending [new] to [old] keep the primary key unique? *)
Fixpoint keys_free {R : Type} (T : Table R) (old new : list R) : bool :=
  match new with
  | [] => true
  | r :: new' =>
      negb (has_key T (pk T r) old) && negb (has_key T (pk T r) new')
      && keys_free T old new'
  end.

(** What the store objects to when the rows [new] are added one after the
    other to the rows [old] of the table: for the first row it refuses, a
    repeated primary key or else a reference to a row that is not there. *)
Fixpoint insert_refused {R : Type} (T : Table R) (d : Db) (old new : list R)
    : option Exn :=
  match new with
  | [] => None
  | r :: new' =>
      if has_key T (pk T r) old then Some UniqueViolation
      else if references_ok T d r then insert_refused T d (old ++ [r]) new'
      else Some ForeignKeyViolation
  end.

(** [db.insert(T).values(new)]: one statement; it appends all the rows or,
    when the store refuses one of them, throws and appends none. *)
Definition db_insert {R : Type} (T : Table R) (new : list R) : M unit :=
  fun w =>
    match insert_refused T (db w) (rows T (db w)) new with
    | None =>
        (Returned tt, mkWorld (put_rows T (rows T (db w) ++ new) (db w)) (uuid_next w))
    | Some e => (Threw e, w)
    end.

(** [db.update(T).set(data).where(p)], [set] being [data] applied to a row
    and [refs] telling whether [data] has a key for a column that references
    another table: the store then looks up the reference of every row it
    rewrites and, when one names no row, throws and rewrites none. *)
Definition db_update {R : Type} (T : Table R) (set : R -> R) (refs : bool)
    (p : R -> bool) : M unit :=
  fun w =>
    if refs && negb (forallb (fun r => references_ok T (db w) (set r))
                       (filter p (rows T (db w))))
    then (Threw ForeignKeyViolation, w)
    else
      (Returned tt,
       mkWorld (put_rows T (map (fun r => if p r then set r else r) (rows T (db w))) (db w))
               (uuid_next w)).

(** [db.delete(T).where(p)] *)
Definition db_delete {R : Type} (T : Table R) (p : R -> bool) : M unit :=
  fun w =>
    (Returned tt,
     mkWorld (put_rows T (filter (fun r => negb (p r)) (rows T (db w))) (db w))
             (uuid_next w)).

(** ** Update payloads

    A key of an update payload for an optional column is absent ([None]),
    or present with a value that may itself be [undefined].  [set] writes
    the keys that hold a value and skips the others. *)
Definition Assigned (A : Type) : Type := option (option A).

(** The key is one that [set] writes. *)
Definition written {A : Type} (a : Assigned A) : bool :=
  match a with
  | Some (Some _) => true
  | _ => false
  end.

(** [if (v !== undefined) data.k = v] *)
Definition assign_if_defined {A : Type} (v : option A) : Assigned A :=
  match v with
  | Some x => Some (Some x)
  | None => None
  end.

(** [data.k = v] *)
Definition assign {A : Type} (v : option A) : Assigned A := Some v.

(** What [set] leaves in an optional column: the value of the key, or,
    when the key is absent or holds [undefined], what the column held. *)
Definition set_optional {A : Type} (a : Assigned A) (old : option A) : option A :=
  match a with
  | Some (Some x) => Some x
  | Some None => old
  | None => old
  end.

(** What [set] leaves in a required column (its key is absent or holds a value). *)
Definition set_required {A : Type} (a : option A) (old : A) : A :=
  match a with
  | Some x => x
  | None => old
  end.

(** [eq(col, v)] on a text column that is never NULL. *)
Definition eq_text (c : string) (v : option string) : bool :=
  match v with
  | Some x => (c =? x)%string
  | None => false
  end.

(** [eq(col, v)] on a text column that may be NULL: NULL equals nothing. *)
Definition eq_nullable_text (c : option string) (v : option string) : bool :=
  match c, v with
  | Some a, Some x => (a =? x)%string
  | _, _ => false
  end.

(** ** Inputs, as the schemas of the actions shape them *)

(** [recipeSessionSchema] *)
Module RecipeSessionInput.
Record t : Type := mk {
    id : string;
    title : option string;
    prompt : option string;
    cuisinePreference : option string;
    dietaryPreference : option string;
    servingCount : option Z
  }.
End RecipeSessionInput.

(** [recipeSessionSchema.omit({ id: true })] *)
Module NewSessionInput.
Record t : Type := mk {
    title : option string;
    prompt : option string;
    cuisinePreference : option string;
    dietaryPreference : option string;
    servingCount : option Z
  }.
End NewSessionInput.

(** [ingredientSchema] *)
Module IngredientInput.
Record t : Type := mk {
    id : option string;
    orderIndex : option Z;
    name : string;
    quantity : option string;
    notes : option string
  }.
End IngredientInput.

(** [stepSchema] *)
Module StepInput.
Record t : Type := mk {
    id : option string;
    orderIndex : Z;
    instruction : string;
    tip : option string
  }.
End StepInput.

Module UpsertInput.
Record t : Type := mk {
    id : option string;
    sessionId : option string;
    title : string;
    description : option string;
    cuisine : option string;
    mealType : option string;
    tags : option string;
    servings : option Z;
    prepTimeMinutes : option Z;
    cookTimeMinutes : option Z;
    notes : option string;
    isFavorite : option bool;
    ingredients : option (list IngredientInput.t);
    steps : option (list StepInput.t)
  }.
End UpsertInput.

Module ListSessionsInput.
Record t : Type := mk {
    page : Z;
    pageSize : Z
  }.
End ListSessionsInput.

Module ListRecipesInput.
Record t : Type := mk {
    page : Z;
    pageSize : Z;
    sessionId : option string;
    favoritesOnly : option bool
  }.
End ListRecipesInput.

(** The bounds the list schemas enforce before a handler runs:
    [page] a positive integer, [pageSize] a positive integer at most 100. *)
Definition valid_paging (page pageSize : Z) : Prop :=
  1 <= page /\ 1 <= pageSize <= 100.

(** The page is one whose rows JavaScript counts exactly: the handlers
    compute [(page - 1) * pageSize] on numbers, which are exact up to
    [2^53]. *)
Definition exact_paging (page pageSize : Z) : Prop :=
  page * pageSize <= 9007199254740992.

(** ** Request context and responses *)

Record User : Type := mkUser { user_id : string }.

Record Locals : Type := mkLocals { user : option User }.

Record ActionAPIContext : Type := mkContext { locals : option Locals }.

Record Envelope (D : Type) : Type := mkEnvelope {
  success : bool;
  data : D
}.
Arguments mkEnvelope {D} _ _.
Arguments success {D} _.
Arguments data {D} _.

Record IdData : Type := mkIdData { id : string }.

Record PageData (R : Type) : Type := mkPageData {
  items : list R;
  total : Z;
  page : Z;
  pageSize : Z
}.
Arguments mkPageData {R} _ _ _ _.
Arguments items {R} _.
Arguments total {R} _.
Arguments page {R} _.
Arguments pageSize {R} _.

(** ** The handlers *)

Definition requireUser (context : ActionAPIContext) : M User :=
  match locals context with
  | Some l =>
      match user l with
      | Some u => ret u
      | None =>
          throw (ActionError UNAUTHORIZED "You must be signed in to perform this action.")
      end
  | None =>
      throw (ActionError UNAUTHORIZED "You must be signed in to perform this action.")
  end.

Definition createRecipeIdeaSession (rt : Runtime) (input : NewSessionInput.t)
    (context : ActionAPIContext) : M (Envelope IdData) :=
  u <- requireUser context ;;
  let now := clock rt in
  id <- randomUUID rt ;;
  db_insert RecipeIdeaSessionsT
    [ {| RecipeIdeaSessions.id := id;
         RecipeIdeaSessions.userId := user_id u;
         RecipeIdeaSessions.title := NewSessionInput.title input;
         RecipeIdeaSessions.prompt := NewSessionInput.prompt input;
         RecipeIdeaSessions.cuisinePreference := NewSessionInput.cuisinePreference input;
         RecipeIdeaSessions.dietaryPreference := NewSessionInput.dietaryPreference input;
         RecipeIdeaSessions.servingCount := NewSessionInput.servingCount input;
         RecipeIdeaSessions.createdAt := now;
         RecipeIdeaSessions.updatedAt := now |} ] ;;;
  ret (mkEnvelope true (mkIdData id)).

(** The payload [updateData] of the session update. *)
Module SessionUpdateData.
Record t : Type := mk {
    title : Assigned string;
    prompt : Assigned string;
    cuisinePreference : Assigned string;
    dietaryPreference : Assigned string;
    servingCount : Assigned Z;
    updatedAt : option Z
  }.
End SessionUpdateData.

Definition sessionUpdateData (input : RecipeSessionInput.t) (now : Z)
    : SessionUpdateData.t :=
  {| SessionUpdateData.updatedAt := Some now;
     SessionUpdateData.title := assign_if_defined (RecipeSessionInput.title input);
     SessionUpdateData.prompt := assign_if_defined (RecipeSessionInput.prompt input);
     SessionUpdateData.cuisinePreference :=
       assign_if_defined (RecipeSessionInput.cuisinePreference input);
     SessionUpdateData.dietaryPreference :=
       assign_if_defined (RecipeSessionInput.dietaryPreference input);
     SessionUpdateData.servingCount :=
       assign_if_defined (RecipeSessionInput.servingCount input) |}.

(** [set(updateData)] on a session row: the columns the payload has no key
    for ([id], [userId], [createdAt]) stay. *)
Definition set_session (d : SessionUpdateData.t)
    (r : RecipeIdeaSessions.row) : RecipeIdeaSessions.row :=
  {| RecipeIdeaSessions.id := RecipeIdeaSessions.id r;
     RecipeIdeaSessions.userId := RecipeIdeaSessions.userId r;
     RecipeIdeaSessions.title :=
       set_optional (SessionUpdateData.title d) (RecipeIdeaSessions.title r);
     RecipeIdeaSessions.prompt :=
       set_optional (SessionUpdateData.prompt d) (RecipeIdeaSessions.prompt r);
     RecipeIdeaSessions.cuisinePreference :=
       set_optional (SessionUpdateData.cuisinePreference d)
         (RecipeIdeaSessions.cuisinePreference r);
     RecipeIdeaSessions.dietaryPreference :=
       set_optional (SessionUpdateData.dietaryPreference d)
         (RecipeIdeaSessions.dietaryPreference r);
     RecipeIdeaSessions.servingCount :=
       set_optional (SessionUpdateData.servingCount d)
         (RecipeIdeaSessions.servingCount r);
     RecipeIdeaSessions.createdAt := RecipeIdeaSessions.createdAt r;
     RecipeIdeaSessions.updatedAt :=
       set_required (SessionUpdateData.updatedAt d) (RecipeIdeaSessions.updatedAt r) |}.

(** [and(eq(RecipeIdeaSessions.id, i), eq(RecipeIdeaSessions.userId, u.id))] *)
Definition session_where (i : option string) (u : User) (r : RecipeIdeaSessions.row)
    : bool :=
  eq_text (RecipeIdeaSessions.id r) i
  && eq_text (RecipeIdeaSessions.userId r) (Some (user_id u)).

Definition updateRecipeIdeaSession (rt : Runtime) (input : RecipeSessionInput.t)
    (context : ActionAPIContext) : M (Envelope IdData) :=
  u <- requireUser context ;;
  let now := clock rt in
  existing <- db_select RecipeIdeaSessionsT
                (session_where (Some (RecipeSessionInput.id input)) u) ;;
  if (length existing =? 0)%nat
  then throw (ActionError NOT_FOUND "Recipe idea session not found.")
  else
    let updateData := sessionUpdateData input now in
    db_update RecipeIdeaSessionsT (set_session updateData) false
      (session_where (Some (RecipeSessionInput.id input)) u) ;;;
    ret (mkEnvelope true (mkIdData (RecipeSessionInput.id input))).

Definition listRecipeIdeaSessions (rt : Runtime) (input : ListSessionsInput.t)
    (context : ActionAPIContext) : M (Envelope (PageData RecipeIdeaSessions.row)) :=
  u <- requireUser context ;;
  let offset := (ListSessionsInput.page input - 1) * ListSessionsInput.pageSize input in
  items <- db_select_page RecipeIdeaSessionsT
             (fun r => eq_text (RecipeIdeaSessions.userId r) (Some (user_id u)))
             RecipeIdeaSessions.createdAt
             (ListSessionsInput.pageSize input) offset ;;
  ret (mkEnvelope true
         (mkPageData items (Z.of_nat (length items))
            (ListSessionsInput.page input) (ListSessionsInput.pageSize input))).

(** The payload [updateData] of the recipe update. *)
Module RecipeUpdateData.
Record t : Type := mk {
    sessionId : Assigned string;
    title : option string;
    description : Assigned string;
    cuisine : Assigned string;
    mealType : Assigned string;
    tags : Assigned string;
    servings : Assigned Z;
    prepTimeMinutes : Assigned Z;
    cookTimeMinutes : Assigned Z;
    notes : Assigned string;
    isFavorite : option bool;
    updatedAt : option Z
  }.
End RecipeUpdateData.

Definition recipeUpdateData (input : UpsertInput.t) (now : Z) : RecipeUpdateData.t :=
  {| RecipeUpdateData.updatedAt := Some now;
     RecipeUpdateData.sessionId := assign_if_defined (UpsertInput.sessionId input);
     RecipeUpdateData.title := Some (UpsertInput.title input);
     RecipeUpdateData.description := assign (UpsertInput.description input);
     RecipeUpdateData.cuisine := assign (UpsertInput.cuisine input);
     RecipeUpdateData.mealType := assign (UpsertInput.mealType input);
     RecipeUpdateData.tags := assign (UpsertInput.tags input);
     RecipeUpdateData.servings := assign (UpsertInput.servings input);
     RecipeUpdateData.prepTimeMinutes := assign (UpsertInput.prepTimeMinutes input);
     RecipeUpdateData.cookTimeMinutes := assign (UpsertInput.cookTimeMinutes input);
     RecipeUpdateData.notes := assign (UpsertInput.notes input);
     (* if (input.isFavorite !== undefined) updateData.isFavorite = input.isFavorite *)
     RecipeUpdateData.isFavorite := UpsertInput.isFavorite input |}.

(** [set(updateData)] on a recipe row: [id], [userId] and [createdAt] stay. *)
Definition set_recipe (d : RecipeUpdateData.t)
    (r : GeneratedRecipes.row) : GeneratedRecipes.row :=
  {| GeneratedRecipes.id := GeneratedRecipes.id r;
     GeneratedRecipes.sessionId :=
       set_optional (RecipeUpdateData.sessionId d) (GeneratedRecipes.sessionId r);
     GeneratedRecipes.userId := GeneratedRecipes.userId r;
     GeneratedRecipes.title :=
       set_required (RecipeUpdateData.title d) (GeneratedRecipes.title r);
     GeneratedRecipes.description :=
       set_optional (RecipeUpdateData.description d) (GeneratedRecipes.description r);
     GeneratedRecipes.cuisine :=
       set_optional (RecipeUpdateData.cuisine d) (GeneratedRecipes.cuisine r);
     GeneratedRecipes.mealType :=
       set_optional (RecipeUpdateData.mealType d) (GeneratedRecipes.mealType r);
     GeneratedRecipes.tags :=
       set_optional (RecipeUpdateData.tags d) (GeneratedRecipes.tags r);
     GeneratedRecipes.servings :=
       set_optional (RecipeUpdateData.servings d) (GeneratedRecipes.servings r);
     GeneratedRecipes.prepTimeMinutes :=
       set_optional (RecipeUpdateData.prepTimeMinutes d)
         (GeneratedRecipes.prepTimeMinutes r);
     GeneratedRecipes.cookTimeMinutes :=
       set_optional (RecipeUpdateData.cookTimeMinutes d)
         (GeneratedRecipes.cookTimeMinutes r);
     GeneratedRecipes.notes :=
       set_optional (RecipeUpdateData.notes d) (GeneratedRecipes.notes r);
     GeneratedRecipes.isFavorite :=
       set_required (RecipeUpdateData.isFavorite d) (GeneratedRecipes.isFavorite r);
     GeneratedRecipes.createdAt := GeneratedRecipes.createdAt r;
     GeneratedRecipes.updatedAt :=
       set_required (RecipeUpdateData.updatedAt d) (GeneratedRecipes.updatedAt r) |}.

(** [and(eq(GeneratedRecipes.id, i), eq(GeneratedRecipes.userId, u.id))] *)
Definition recipe_where (i : option string) (u : User) (r : GeneratedRecipes.row)
    : bool :=
  eq_text (GeneratedRecipes.id r) i
  && eq_text (GeneratedRecipes.userId r) (Some (user_id u)).

(** The row the create path inserts. *)
Definition new_recipe (input : UpsertInput.t) (u : User) (recipeId : string) (now : Z)
    : GeneratedRecipes.row :=
  {| GeneratedRecipes.id := recipeId;
     GeneratedRecipes.sessionId := UpsertInput.sessionId input;
     GeneratedRecipes.userId := user_id u;
     GeneratedRecipes.title := UpsertInput.title input;
     GeneratedRecipes.description := UpsertInput.description input;
     GeneratedRecipes.cuisine := UpsertInput.cuisine input;
     GeneratedRecipes.mealType := UpsertInput.mealType input;
     GeneratedRecipes.tags := UpsertInput.tags input;
     GeneratedRecipes.servings := UpsertInput.servings input;
     GeneratedRecipes.prepTimeMinutes := UpsertInput.prepTimeMinutes input;
     GeneratedRecipes.cookTimeMinutes := UpsertInput.cookTimeMinutes input;
     GeneratedRecipes.notes := UpsertInput.notes input;
     GeneratedRecipes.isFavorite := nullish (UpsertInput.isFavorite input) false;
     GeneratedRecipes.createdAt := now;
     GeneratedRecipes.updatedAt := now |}.

(** [v ?? randomUUID()]: an identifier is drawn only when [v] is [undefined]. *)
Definition nullish_uuid (rt : Runtime) (v : option string) : M string :=
  match v with
  | Some x => ret x
  | None => randomUUID rt
  end.

(** The callback of [input.ingredients.map]. *)
Definition ingredient_row (rt : Runtime) (recipeId : string) (now : Z)
    (ingredient : IngredientInput.t) : M GeneratedRecipeIngredients.row :=
  i <- nullish_uuid rt (IngredientInput.id ingredient) ;;
  ret {| GeneratedRecipeIngredients.id := i;
         GeneratedRecipeIngredients.recipeId := recipeId;
         GeneratedRecipeIngredients.orderIndex := IngredientInput.orderIndex ingredient;
         GeneratedRecipeIngredients.name := IngredientInput.name ingredient;
         GeneratedRecipeIngredients.quantity := IngredientInput.quantity ingredient;
         GeneratedRecipeIngredients.notes := IngredientInput.notes ingredient;
         GeneratedRecipeIngredients.createdAt := now |}.

(** The callback of [input.steps.map]. *)
Definition step_row (rt : Runtime) (recipeId : string) (now : Z)
    (step : StepInput.t) : M GeneratedRecipeSteps.row :=
  i <- nullish_uuid rt (StepInput.id step) ;;
  ret {| GeneratedRecipeSteps.id := i;
         GeneratedRecipeSteps.recipeId := recipeId;
         GeneratedRecipeSteps.orderIndex := StepInput.orderIndex step;
         GeneratedRecipeSteps.instruction := StepInput.instruction step;
         GeneratedRecipeSteps.tip := StepInput.tip step;
         GeneratedRecipeSteps.createdAt := now |}.

(** [if (input.sessionId) { ... }]: the check of the linked session. *)
Definition check_session (input : UpsertInput.t) (u : User) : M unit :=
  if truthy_string (UpsertInput.sessionId input)
  then
    session <- db_select RecipeIdeaSessionsT
                 (session_where (UpsertInput.sessionId input) u) ;;
    if (length session =? 0)%nat
    then throw (ActionError NOT_FOUND "Linked recipe idea session not found.")
    else ret tt
  else ret tt.

(** [if (input.id) { ... } else { ... }]: the update of the recipe row, or its insertion. *)
Definition write_recipe (rt : Runtime) (input : UpsertInput.t) (u : User)
    (recipeId : string) (now : Z) : M unit :=
  if truthy_string (UpsertInput.id input)
  then
    existing <- db_select GeneratedRecipesT (recipe_where (UpsertInput.id input) u) ;;
    if (length existing =? 0)%nat
    then throw (ActionError NOT_FOUND "Generated recipe not found.")
    else
      let updateData := recipeUpdateData input now in
      db_update GeneratedRecipesT (set_recipe updateData)
        (written (RecipeUpdateData.sessionId updateData))
        (recipe_where (Some recipeId) u)
  else db_insert GeneratedRecipesT [new_recipe input u recipeId now].

(** [if (input.ingredients) { ... }] *)
Definition replace_ingredients (rt : Runtime) (input : UpsertInput.t)
    (recipeId : string) (now : Z) : M unit :=
  match UpsertInput.ingredients input with
  | Some ingredients =>
      db_delete GeneratedRecipeIngredientsT
        (fun r => eq_text (GeneratedRecipeIngredients.recipeId r) (Some recipeId)) ;;;
      if (0 <? length ingredients)%nat
      then
        values <- mapM (ingredient_row rt recipeId now) ingredients ;;
        db_insert GeneratedRecipeIngredientsT values
      else ret tt
  | None => ret tt
  end.

(** [if (input.steps) { ... }] *)
Definition replace_steps (rt : Runtime) (input : UpsertInput.t)
    (recipeId : string) (now : Z) : M unit :=
  match UpsertInput.steps input with
  | Some steps =>
      db_delete GeneratedRecipeStepsT
        (fun r => eq_text (GeneratedRecipeSteps.recipeId r) (Some recipeId)) ;;;
      if (0 <? length steps)%nat
      then
        values <- mapM (step_row rt recipeId now) steps ;;
        db_insert GeneratedRecipeStepsT values
      else ret tt
  | None => ret tt
  end.

Definition upsertGeneratedRecipe (rt : Runtime) (input : UpsertInput.t)
    (context : ActionAPIContext) : M (Envelope IdData) :=
  u <- requireUser context ;;
  let now := clock rt in
  check_session input u ;;;
  recipeId <- nullish_uuid rt (UpsertInput.id input) ;;
  write_recipe rt input u recipeId now ;;;
  replace_ingredients rt input recipeId now ;;;
  replace_steps rt input recipeId now ;;;
  ret (mkEnvelope true (mkIdData recipeId)).

(** The filter [listGeneratedRecipes] builds. *)
Definition recipe_filters (input : ListRecipesInput.t) (u : User)
    : GeneratedRecipes.row -> bool :=
  let filters := fun r => eq_text (GeneratedRecipes.userId r) (Some (user_id u)) in
  let filters :=
    if truthy_string (ListRecipesInput.sessionId input)
    then fun r => filters r
                  && eq_nullable_text (GeneratedRecipes.sessionId r)
                       (ListRecipesInput.sessionId input)
    else filters in
  let filters :=
    if truthy_bool (ListRecipesInput.favoritesOnly input)
    then fun r => filters r && Bool.eqb (GeneratedRecipes.isFavorite r) true
    else filters in
  filters.

Definition listGeneratedRecipes (rt : Runtime) (input : ListRecipesInput.t)
    (context : ActionAPIContext) : M (Envelope (PageData GeneratedRecipes.row)) :=
  u <- requireUser context ;;
  let offset := (ListRecipesInput.page input - 1) * ListRecipesInput.pageSize input in
  let filters := recipe_filters input u in
  items <- db_select_page GeneratedRecipesT filters GeneratedRecipes.createdAt
             (ListRecipesInput.pageSize input) offset ;;
  ret (mkEnvelope true
         (mkPageData items (Z.of_nat (length items))
            (ListRecipesInput.page input) (ListRecipesInput.pageSize input))).

(** ** Vocabulary of the statements *)

(** The context of a request made by the signed-in user [u]. *)
Definition signed_in (u : User) : ActionAPIContext :=
  mkContext (Some (mkLocals (Some u))).

(** [context.locals?.user] *)
Definition current_user (context : ActionAPIContext) : option User :=
  match locals context with
  | Some l => user l
  | None => None
  end.

(** The store holds a session [sid] that [u] owns. *)
Definition owns_session (w : World) (u : User) (sid : string) : Prop :=
  exists s, In s (sessions (db w))
            /\ RecipeIdeaSessions.id s = sid
            /\ RecipeIdeaSessions.userId s = user_id u.

(** The store holds a recipe [rid] that [u] owns. *)
Definition owns_recipe (w : World) (u : User) (rid : string) : Prop :=
  exists r, In r (recipes (db w))
            /\ GeneratedRecipes.id r = rid
            /\ GeneratedRecipes.userId r = user_id u.

(** An optional column after a partial update by the input field [v]:
    the supplied value when there is one, the prior value otherwise. *)
Definition present_or_prior {A : Type} (v prior after : option A) : Prop :=
  match v with
  | Some x => after = Some x
  | None => after = prior
  end.

(** The session row [r'] is [r] after the partial update [input] at time [now]. *)
Definition session_patched (input : RecipeSessionInput.t) (now : Z)
    (r r' : RecipeIdeaSessions.row) : Prop :=
  RecipeIdeaSessions.id r' = RecipeIdeaSessions.id r
  /\ RecipeIdeaSessions.userId r' = RecipeIdeaSessions.userId r
  /\ RecipeIdeaSessions.createdAt r' = RecipeIdeaSessions.createdAt r
  /\ RecipeIdeaSessions.updatedAt r' = now
  /\ present_or_prior (RecipeSessionInput.title input)
       (RecipeIdeaSessions.title r) (RecipeIdeaSessions.title r')
  /\ present_or_prior (RecipeSessionInput.prompt input)
       (RecipeIdeaSessions.prompt r) (RecipeIdeaSessions.prompt r')
  /\ present_or_prior (RecipeSessionInput.cuisinePreference input)
       (RecipeIdeaSessions.cuisinePreference r) (RecipeIdeaSessions.cuisinePreference r')
  /\ present_or_prior (RecipeSessionInput.dietaryPreference input)
       (RecipeIdeaSessions.dietaryPreference r) (RecipeIdeaSessions.dietaryPreference r')
  /\ present_or_prior (RecipeSessionInput.servingCount input)
       (RecipeIdeaSessions.servingCount r) (RecipeIdeaSessions.servingCount r').

(** Ascending creation time. *)
Definition session_older (a b : RecipeIdeaSessions.row) : Prop :=
  RecipeIdeaSessions.createdAt a <= RecipeIdeaSessions.createdAt b.

Definition recipe_older (a b : GeneratedRecipes.row) : Prop :=
  GeneratedRecipes.createdAt a <= GeneratedRecipes.createdAt b.

(** The rows [listGeneratedRecipes] is to return: owned by [u], of the
    session asked for when a non-empty one is, favorites when only those are
    asked for. *)
Definition recipe_listed (input : ListRecipesInput.t) (u : User)
    (r : GeneratedRecipes.row) : Prop :=
  GeneratedRecipes.userId r = user_id u
  /\ (forall sid, ListRecipesInput.sessionId input = Some sid -> sid <> EmptyString ->
        GeneratedRecipes.sessionId r = Some sid)
  /\ (ListRecipesInput.favoritesOnly input = Some true ->
        GeneratedRecipes.isFavorite r = true).

(** The page of [ordered] that a list call returns. *)
Definition page_of {R : Type} (page pageSize : Z) (ordered : list R) : list R :=
  firstn (Z.to_nat pageSize) (skipn (Z.to_nat ((page - 1) * pageSize)) ordered).

(** [ordered] holds exactly the rows of [table] that satisfy [P], each as
    often as the table does. *)
Definition selects {R : Type} (P : R -> Prop) (table ordered : list R) : Prop :=
  exists f : R -> bool,
    (forall r, f r = true <-> P r) /\ Permutation ordered (filter f table).

(** The session check of [upsertGeneratedRecipe] has nothing to object to:
    a non-empty [sessionId], when supplied, names a session that [u] owns. *)
Definition session_check_passes (w : World) (u : User) (input : UpsertInput.t) : Prop :=
  forall sid, UpsertInput.sessionId input = Some sid -> sid <> EmptyString ->
              owns_session w u sid.


(** The identifier given to a child row: the one supplied, or one drawn
    from the stream at a position in [lo, hi). *)
Definition child_id (rt : Runtime) (lo hi : nat) (supplied : option string)
    (given : string) : Prop :=
  match supplied with
  | Some x => given = x
  | None => exists n, (lo <= n < hi)%nat /\ given = uuid_stream rt n
  end.

(** The ingredient row [r] was made from the input [i] for recipe [rid]. *)
Definition ingredient_made (rt : Runtime) (rid : string) (now : Z) (lo hi : nat)
    (i : IngredientInput.t) (r : GeneratedRecipeIngredients.row) : Prop :=
  child_id rt lo hi (IngredientInput.id i) (GeneratedRecipeIngredients.id r)
  /\ GeneratedRecipeIngredients.recipeId r = rid
  /\ GeneratedRecipeIngredients.createdAt r = now
  /\ GeneratedRecipeIngredients.orderIndex r = IngredientInput.orderIndex i
  /\ GeneratedRecipeIngredients.name r = IngredientInput.name i
  /\ GeneratedRecipeIngredients.quantity r = IngredientInput.quantity i
  /\ GeneratedRecipeIngredients.notes r = IngredientInput.notes i.

(** The step row [r] was made from the input [s] for recipe [rid]. *)
Definition step_made (rt : Runtime) (rid : string) (now : Z) (lo hi : nat)
    (s : StepInput.t) (r : GeneratedRecipeSteps.row) : Prop :=
  child_id rt lo hi (StepInput.id s) (GeneratedRecipeSteps.id r)
  /\ GeneratedRecipeSteps.recipeId r = rid
  /\ GeneratedRecipeSteps.createdAt r = now
  /\ GeneratedRecipeSteps.orderIndex r = StepInput.orderIndex s
  /\ GeneratedRecipeSteps.instruction r = StepInput.instruction s
  /\ GeneratedRecipeSteps.tip r = StepInput.tip s.

(** The ingredient rows of the other recipes. *)
Definition other_ingredients (rid : string) (l : list GeneratedRecipeIngredients.row)
    : list GeneratedRecipeIngredients.row :=
  filter (fun r => negb (GeneratedRecipeIngredients.recipeId r =? rid)%string) l.

(** The step rows of the other recipes. *)
Definition other_steps (rid : string) (l : list GeneratedRecipeSteps.row)
    : list GeneratedRecipeSteps.row :=
  filter (fun r => negb (GeneratedRecipeSteps.recipeId r =? rid)%string) l.

(** Every session row and every recipe row holds safe integers only: the
    client can hand each of them back. *)
Definition store_readable (w : World) : bool :=
  forallb (readable RecipeIdeaSessionsT) (sessions (db w))
  && forallb (readable GeneratedRecipesT) (recipes (db w)).

(** A date of the years 0000 to 9999, in milliseconds since the epoch: its
    text has the plain four-digit year, and on such texts the order of the
    store is the order of the instants. *)
Definition plain_date (t : Z) : bool :=
  (- 62167219200000 <=? t) && (t <=? 253402300799999).

(** Every session row and every recipe row was created at a plain date. *)
Definition plain_dates (w : World) : bool :=
  forallb (fun r => plain_date (RecipeIdeaSessions.createdAt r)) (sessions (db w))
  && forallb (fun r => plain_date (GeneratedRecipes.createdAt r)) (recipes (db w)).

(** The session table and the recipe table have fewer rows than JavaScript
    counts exactly, less a page: the offset of every page that holds a row
    is exact. *)
Definition store_countable (w : World) : bool :=
  (Z.of_nat (length (sessions (db w))) <=? 9007199254740892)
  && (Z.of_nat (length (recipes (db w))) <=? 9007199254740892).

(** The session reference of the input names no session row of the store,
    whoever owns it: the store refuses a recipe row that carries it. *)
Definition session_missing (input : UpsertInput.t) (w : World) : bool :=
  match UpsertInput.sessionId input with
  | Some sid => negb (session_exists (db w) sid)
  | None => false
  end.

(** The numbers of the input are safe integers. *)
Definition safe_recipe_input (input : UpsertInput.t) : bool :=
  safe_optional (UpsertInput.servings input)
  && safe_optional (UpsertInput.prepTimeMinutes input)
  && safe_optional (UpsertInput.cookTimeMinutes input).

(** ** Sample data *)

Definition sample_runtime : Runtime :=
  {| clock := 1700000000000;
     uuid_stream := fun n => String (ascii_of_nat (97 + n)) "-0000" |}.

Definition alice : User := mkUser "alice".
Definition bob : User := mkUser "bob".

Definition sample_session (i owner : string) (t : Z) : RecipeIdeaSessions.row :=
  {| RecipeIdeaSessions.id := i;
     RecipeIdeaSessions.userId := owner;
     RecipeIdeaSessions.title := Some "Quick dinners";
     RecipeIdeaSessions.prompt := Some "under 30 minutes";
     RecipeIdeaSessions.cuisinePreference := None;
     RecipeIdeaSessions.dietaryPreference := Some "vegan";
     RecipeIdeaSessions.servingCount := Some 2;
     RecipeIdeaSessions.createdAt := t;
     RecipeIdeaSessions.updatedAt := t |}.

Definition sample_recipe (i owner : string) (sid : option string) (fav : bool) (t : Z)
    : GeneratedRecipes.row :=
  {| GeneratedRecipes.id := i;
     GeneratedRecipes.sessionId := sid;
     GeneratedRecipes.userId := owner;
     GeneratedRecipes.title := "Pasta";
     GeneratedRecipes.description := Some "weeknight pasta";
     GeneratedRecipes.cuisine := Some "italian";
     GeneratedRecipes.mealType := None;
     GeneratedRecipes.tags := None;
     GeneratedRecipes.servings := Some 2;
     GeneratedRecipes.prepTimeMinutes := Some 5;
     GeneratedRecipes.cookTimeMinutes := Some 12;
     GeneratedRecipes.notes := None;
     GeneratedRecipes.isFavorite := fav;
     GeneratedRecipes.createdAt := t;
     GeneratedRecipes.updatedAt := t |}.

Definition sample_ingredient (i rid nm : string) : GeneratedRecipeIngredients.row :=
  {| GeneratedRecipeIngredients.id := i;
     GeneratedRecipeIngredients.recipeId := rid;
     GeneratedRecipeIngredients.orderIndex := None;
     GeneratedRecipeIngredients.name := nm;
     GeneratedRecipeIngredients.quantity := None;
     GeneratedRecipeIngredients.notes := None;
     GeneratedRecipeIngredients.createdAt := 30 |}.

Definition sample_step (i rid : string) (n : Z) (text : string)
    : GeneratedRecipeSteps.row :=
  {| GeneratedRecipeSteps.id := i;
     GeneratedRecipeSteps.recipeId := rid;
     GeneratedRecipeSteps.orderIndex := n;
     GeneratedRecipeSteps.instruction := text;
     GeneratedRecipeSteps.tip := None;
     GeneratedRecipeSteps.createdAt := 30 |}.

(** Two users; alice has two sessions and three recipes, bob one of each. *)
Definition sample_world : World :=
  {| db :=
       {| sessions :=
            [ sample_session "s-alice-1" "alice" 20;
              sample_session "s-bob-1" "bob" 15;
              sample_session "s-alice-2" "alice" 10 ];
          recipes :=
            [ sample_recipe "r-alice-1" "alice" (Some "s-alice-1") true 40;
              sample_recipe "r-bob-1" "bob" (Some "s-bob-1") true 35;
              sample_recipe "r-alice-2" "alice" None false 30;
              sample_recipe "r-alice-3" "alice" (Some "s-alice-2") false 25 ];
          ingredients :=
            [ sample_ingredient "i-1" "r-alice-1" "pasta";
              sample_ingredient "i-2" "r-alice-1" "salt";
              sample_ingredient "i-3" "r-bob-1" "rice" ];
          steps :=
            [ sample_step "t-1" "r-alice-1" 1 "Boil water";
              sample_step "t-2" "r-bob-1" 1 "Wash the rice" ] |};
     uuid_next := 0 |}.

Definition empty_world : World :=
  {| db := mkDb [] [] [] []; uuid_next := 0 |}.

(** Alice rewrites her first recipe: a new title, no description, two
    ingredients (one without an identifier), and an empty array of steps. *)
Definition sample_update : UpsertInput.t :=
  {| UpsertInput.id := Some "r-alice-1";
     UpsertInput.sessionId := None;
     UpsertInput.title := "Pasta al limone";
     UpsertInput.description := None;
     UpsertInput.cuisine := Some "sicilian";
     UpsertInput.mealType := None;
     UpsertInput.tags := None;
     UpsertInput.servings := None;
     UpsertInput.prepTimeMinutes := Some 10;
     UpsertInput.cookTimeMinutes := None;
     UpsertInput.notes := None;
     UpsertInput.isFavorite := None;
     UpsertInput.ingredients :=
       Some [ IngredientInput.mk None (Some 0) "lemon" (Some "1") None;
              IngredientInput.mk (Some "i-9") None "pasta" None None ];
     UpsertInput.steps := Some [] |}.

(** A new recipe: no identifier; [sid] is the session reference. *)
Definition sample_create (i sid : option string) : UpsertInput.t :=
  {| UpsertInput.id := i;
     UpsertInput.sessionId := sid;
     UpsertInput.title := "Soup";
     UpsertInput.description := None;
     UpsertInput.cuisine := None;
     UpsertInput.mealType := None;
     UpsertInput.tags := None;
     UpsertInput.servings := None;
     UpsertInput.prepTimeMinutes := None;
     UpsertInput.cookTimeMinutes := None;
     UpsertInput.notes := None;
     UpsertInput.isFavorite := None;
     UpsertInput.ingredients := None;
     UpsertInput.steps := None |}.

(** Alice's update with the empty string as session reference. *)
Definition sample_update_unlinked : UpsertInput.t :=
  {| UpsertInput.id := UpsertInput.id sample_update;
     UpsertInput.sessionId := Some EmptyString;
     UpsertInput.title := UpsertInput.title sample_update;
     UpsertInput.description := UpsertInput.description sample_update;
     UpsertInput.cuisine := UpsertInput.cuisine sample_update;
     UpsertInput.mealType := UpsertInput.mealType sample_update;
     UpsertInput.tags := UpsertInput.tags sample_update;
     UpsertInput.servings := UpsertInput.servings sample_update;
     UpsertInput.prepTimeMinutes := UpsertInput.prepTimeMinutes sample_update;
     UpsertInput.cookTimeMinutes := UpsertInput.cookTimeMinutes sample_update;
     UpsertInput.notes := UpsertInput.notes sample_update;
     UpsertInput.isFavorite := UpsertInput.isFavorite sample_update;
     UpsertInput.ingredients := UpsertInput.ingredients sample_update;
     UpsertInput.steps := UpsertInput.steps sample_update |}.

(** Alice's update with the identifier of no session as session reference. *)
Definition sample_update_foreign : UpsertInput.t :=
  {| UpsertInput.id := UpsertInput.id sample_update;
     UpsertInput.sessionId := Some "s-nobody";
     UpsertInput.title := UpsertInput.title sample_update;
     UpsertInput.description := UpsertInput.description sample_update;
     UpsertInput.cuisine := UpsertInput.cuisine sample_update;
     UpsertInput.mealType := UpsertInput.mealType sample_update;
     UpsertInput.tags := UpsertInput.tags sample_update;
     UpsertInput.servings := UpsertInput.servings sample_update;
     UpsertInput.prepTimeMinutes := UpsertInput.prepTimeMinutes sample_update;
     UpsertInput.cookTimeMinutes := UpsertInput.cookTimeMinutes sample_update;
     UpsertInput.notes := UpsertInput.notes sample_update;
     UpsertInput.isFavorite := UpsertInput.isFavorite sample_update;
     UpsertInput.ingredients := UpsertInput.ingredients sample_update;
     UpsertInput.steps := UpsertInput.steps sample_update |}.

(** ** Vocabulary of the statements about the store as a whole *)

(** The error of the identity gate. *)
Definition unauthorized : Exn :=
  ActionError UNAUTHORIZED "You must be signed in to perform this action.".

(** No two rows of the table carry the same primary key. *)
Definition keys_unique {R : Type} (T : Table R) (w : World) : Prop :=
  NoDup (map (pk T) (rows T (db w))).

Definition db_keys_unique (w : World) : Prop :=
  keys_unique RecipeIdeaSessionsT w
  /\ keys_unique GeneratedRecipesT w
  /\ keys_unique GeneratedRecipeIngredientsT w
  /\ keys_unique GeneratedRecipeStepsT w.

(** What identifies a session row and a recipe row for good: identifier,
    owner and creation time. *)
Definition session_key (r : RecipeIdeaSessions.row) : string * string * Z :=
  (RecipeIdeaSessions.id r, RecipeIdeaSessions.userId r, RecipeIdeaSessions.createdAt r).

Definition recipe_key (r : GeneratedRecipes.row) : string * string * Z :=
  (GeneratedRecipes.id r, GeneratedRecipes.userId r, GeneratedRecipes.createdAt r).

(** [w'] has the session rows and the recipe rows of [w], in the same
    place under the same identifier, owner and creation time, and possibly
    more rows after them. *)
Definition keeps_rows (w w' : World) : Prop :=
  (exists more,
     map session_key (sessions (db w')) = (map session_key (sessions (db w)) ++ more)%list)
  /\ (exists more,
        map recipe_key (recipes (db w')) = (map recipe_key (recipes (db w)) ++ more)%list).

(** Every session reference of a recipe row names a session of the
    recipe's owner. *)
Definition links_ok (w : World) : Prop :=
  forall r, In r (recipes (db w)) ->
  forall sid, GeneratedRecipes.sessionId r = Some sid ->
  exists s, In s (sessions (db w))
            /\ RecipeIdeaSessions.id s = sid
            /\ RecipeIdeaSessions.userId s = GeneratedRecipes.userId r.

(** The store holds a recipe row with identifier [rid]. *)
Definition has_recipe (w : World) (rid : string) : Prop :=
  exists r, In r (recipes (db w)) /\ GeneratedRecipes.id r = rid.

(** Every ingredient row and every step row belongs to a recipe row. *)
Definition no_orphans (w : World) : Prop :=
  (forall i, In i (ingredients (db w)) ->
             has_recipe w (GeneratedRecipeIngredients.recipeId i))
  /\ (forall s, In s (steps (db w)) ->
                has_recipe w (GeneratedRecipeSteps.recipeId s)).

(** Whatever [u] lists, [u] is answered in [w'] as in [w]. *)
Definition same_listing (u : User) (w w' : World) : Prop :=
  forall rt si ri,
    fst (listRecipeIdeaSessions rt si (signed_in u) w')
    = fst (listRecipeIdeaSessions rt si (signed_in u) w)
    /\ fst (listGeneratedRecipes rt ri (signed_in u) w')
       = fst (listGeneratedRecipes rt ri (signed_in u) w).

(** [P] holds of the world each of the five handlers leaves, whatever its
    input and its outcome. *)
Definition after_any_handler (rt : Runtime) (context : ActionAPIContext) (w : World)
    (P : World -> Prop) : Prop :=
  (forall input, P (snd (createRecipeIdeaSession rt input context w)))
  /\ (forall input, P (snd (updateRecipeIdeaSession rt input context w)))
  /\ (forall input, P (snd (listRecipeIdeaSessions rt input context w)))
  /\ (forall input, P (snd (upsertGeneratedRecipe rt input context w)))
  /\ (forall input, P (snd (listGeneratedRecipes rt input context w))).

(** The session reference of the input, if any, is one the session check
    of [upsertGeneratedRecipe] looks up: it is not the empty string. *)
Definition session_checked (input : UpsertInput.t) : bool :=
  match UpsertInput.sessionId input with
  | Some sid => negb (sid =? EmptyString)%string
  | None => true
  end.

(** Every ingredient and every step of the input comes with an identifier:
    the call draws none for them. *)
Definition children_identified (input : UpsertInput.t) : Prop :=
  (forall l, UpsertInput.ingredients input = Some l ->
             Forall (fun i => IngredientInput.id i <> None) l)
  /\ (forall l, UpsertInput.steps input = Some l ->
                Forall (fun s => StepInput.id s <> None) l).

(** ** The statements a handler runs, as steps of the store

    One step of a handler working for the user [v]: it reads or draws an
    identifier (the store stays), or runs one insert, update or delete
    statement.  A step records what the handler has established when it
    runs the statement: whose rows an update matches and which columns it
    keeps, that an inserted child row names a recipe of the store, and
    (in a [checked] run) that a session reference written to a recipe row
    names a session [v] owns. *)
Inductive statement (checked : bool) (v : User) : World -> World -> Prop :=
| st_same w w' :
    db w' = db w -> statement checked v w w'
| st_insert_session w w' r :
    RecipeIdeaSessions.userId r = user_id v ->
    keys_free RecipeIdeaSessionsT (sessions (db w)) [r] = true ->
    db w' = put_rows RecipeIdeaSessionsT (sessions (db w) ++ [r]) (db w) ->
    statement checked v w w'
| st_update_sessions w w' p f :
    (forall r, p r = true -> RecipeIdeaSessions.userId r = user_id v) ->
    (forall r, session_key (f r) = session_key r) ->
    db w' = put_rows RecipeIdeaSessionsT
              (map (fun r => if p r then f r else r) (sessions (db w))) (db w) ->
    statement checked v w w'
| st_insert_recipe w w' r :
    GeneratedRecipes.userId r = user_id v ->
    keys_free GeneratedRecipesT (recipes (db w)) [r] = true ->
    (checked = true ->
     forall sid, GeneratedRecipes.sessionId r = Some sid -> owns_session w v sid) ->
    db w' = put_rows GeneratedRecipesT (recipes (db w) ++ [r]) (db w) ->
    statement checked v w w'
| st_update_recipes w w' p f :
    (forall r, p r = true -> GeneratedRecipes.userId r = user_id v) ->
    (forall r, recipe_key (f r) = recipe_key r) ->
    (checked = true ->
     forall r sid, GeneratedRecipes.sessionId (f r) = Some sid ->
                   GeneratedRecipes.sessionId r = Some sid \/ owns_session w v sid) ->
    db w' = put_rows GeneratedRecipesT
              (map (fun r => if p r then f r else r) (recipes (db w))) (db w) ->
    statement checked v w w'
| st_delete_ingredients w w' rid :
    db w' = put_rows GeneratedRecipeIngredientsT
              (other_ingredients rid (ingredients (db w))) (db w) ->
    statement checked v w w'
| st_insert_ingredients w w' rid new :
    has_recipe w rid ->
    Forall (fun r => GeneratedRecipeIngredients.recipeId r = rid) new ->
    keys_free GeneratedRecipeIngredientsT (ingredients (db w)) new = true ->
    db w' = put_rows GeneratedRecipeIngredientsT (ingredients (db w) ++ new) (db w) ->
    statement checked v w w'
| st_delete_steps w w' rid :
    db w' = put_rows GeneratedRecipeStepsT (other_steps rid (steps (db w))) (db w) ->
    statement checked v w w'
| st_insert_steps w w' rid new :
    has_recipe w rid ->
    Forall (fun r => GeneratedRecipeSteps.recipeId r = rid) new ->
    keys_free GeneratedRecipeStepsT (steps (db w)) new = true ->
    db w' = put_rows GeneratedRecipeStepsT (steps (db w) ++ new) (db w) ->
    statement checked v w w'.

(** A run: statements one after the other. *)
Inductive run (checked : bool) (v : User) : World -> World -> Prop :=
| run_done w : run checked v w w
| run_step w w1 w2 :
    statement checked v w w1 -> run checked v w1 w2 -> run checked v w w2.

(** Alice's update of her first recipe with an identifier on every child:
    nothing for the call to draw. *)
Definition sample_retry : UpsertInput.t :=
  {| UpsertInput.id := Some "r-alice-1";
     UpsertInput.sessionId := Some "s-alice-2";
     UpsertInput.title := "Pasta al limone";
     UpsertInput.description := None;
     UpsertInput.cuisine := None;
     UpsertInput.mealType := None;
     UpsertInput.tags := None;
     UpsertInput.servings := None;
     UpsertInput.prepTimeMinutes := None;
     UpsertInput.cookTimeMinutes := None;
     UpsertInput.notes := None;
     UpsertInput.isFavorite := Some false;
     UpsertInput.ingredients :=
       Some [ IngredientInput.mk (Some "i-9") None "pasta" None None ];
     UpsertInput.steps := Some [] |}.

(** Alice's first recipe again, with one ingredient under the identifier
    of an ingredient row of bob's recipe. *)
Definition sample_collision : UpsertInput.t :=
  {| UpsertInput.id := Some "r-alice-1";
     UpsertInput.sessionId := None;
     UpsertInput.title := "Pasta";
     UpsertInput.description := None;
     UpsertInput.cuisine := None;
     UpsertInput.mealType := None;
     UpsertInput.tags := None;
     UpsertInput.servings := None;
     UpsertInput.prepTimeMinutes := None;
     UpsertInput.cookTimeMinutes := None;
     UpsertInput.notes := None;
     UpsertInput.isFavorite := None;
     UpsertInput.ingredients :=
       Some [ IngredientInput.mk (Some "i-3") None "rice" None None ];
     UpsertInput.steps := None |}.

(** ** The monad and the identity gate *)

Lemma bind_returned {A B : Type} (m : M A) (k : A -> M B) (w w' : World) (a : A) :
  m w = (Returned a, w') -> bind m k w = k a w'.
Proof. intros E. unfold bind. now rewrite E. Qed.

Lemma bind_threw {A B : Type} (m : M A) (k : A -> M B) (w w' : World) (e : Exn) :
  m w = (Threw e, w') -> bind m k w = (Threw e, w').
Proof. intros E. unfold bind. now rewrite E. Qed.

Lemma current_user_signed_in (context : ActionAPIContext) (u : User) :
  current_user context = Some u -> context = signed_in u.
Proof.
  destruct context as [[[[v|]]|]]; unfold current_user; simpl; intros E;
    now inversion E.
Qed.

Lemma requireUser_signed_in (u : User) (w : World) :
  requireUser (signed_in u) w = (Returned u, w).
Proof. reflexivity. Qed.

Lemma requireUser_returned (context : ActionAPIContext) (u : User) (w w' : World) :
  requireUser context w = (Returned u, w') -> context = signed_in u /\ w' = w.
Proof.
  destruct context as [[[[v|]]|]]; unfold requireUser, ret, throw; simpl; intros E;
    inversion E; auto.
Qed.

Lemma requireUser_threw (context : ActionAPIContext) (e : Exn) (w w' : World) :
  requireUser context w = (Threw e, w') -> current_user context = None /\ w' = w.
Proof.
  destruct context as [[[[v|]]|]]; unfold requireUser, ret, throw, current_user; simpl;
    intros E; inversion E; auto.
Qed.

(** ** Lists and filters *)

Lemma filter_nil_iff {A : Type} (p : A -> bool) (l : list A) :
  filter p l = [] <-> forall x, In x l -> p x = false.
Proof.
  induction l as [|a l IH]; simpl.
  - split; [intros _ x [] | reflexivity].
  - destruct (p a) eqn:Ea; split.
    + discriminate.
    + intros H. specialize (H a (or_introl eq_refl)). congruence.
    + intros H x [<-|Hx]; [assumption | now apply IH].
    + intros H. apply IH. intros x Hx. apply H. now right.
Qed.

Lemma length_eqb_0 {A : Type} (l : list A) :
  (length l =? 0)%nat = true <-> l = [].
Proof. destruct l; simpl; split; intros; congruence. Qed.

Lemma eq_text_true (c : string) (v : string) : eq_text c (Some v) = true <-> c = v.
Proof. unfold eq_text. apply String.eqb_eq. Qed.

Lemma session_where_true (i : string) (u : User) (r : RecipeIdeaSessions.row) :
  session_where (Some i) u r = true
  <-> RecipeIdeaSessions.id r = i /\ RecipeIdeaSessions.userId r = user_id u.
Proof.
  unfold session_where. rewrite andb_true_iff, !eq_text_true. reflexivity.
Qed.

Lemma recipe_where_true (i : string) (u : User) (r : GeneratedRecipes.row) :
  recipe_where (Some i) u r = true
  <-> GeneratedRecipes.id r = i /\ GeneratedRecipes.userId r = user_id u.
Proof.
  unfold recipe_where. rewrite andb_true_iff, !eq_text_true. reflexivity.
Qed.

(** No row passes the ownership-scoped filter exactly when [u] owns no such session. *)
Lemma session_lookup_empty (w : World) (u : User) (i : string) :
  filter (session_where (Some i) u) (sessions (db w)) = [] <-> ~ owns_session w u i.
Proof.
  rewrite filter_nil_iff. unfold owns_session. split.
  - intros H (s & Hin & Hid & Hu). specialize (H s Hin).
    assert (session_where (Some i) u s = true) by now apply session_where_true.
    congruence.
  - intros H s Hin. destruct (session_where (Some i) u s) eqn:E; [|reflexivity].
    exfalso. apply H. exists s. apply session_where_true in E. tauto.
Qed.

Lemma recipe_lookup_empty (w : World) (u : User) (i : string) :
  filter (recipe_where (Some i) u) (recipes (db w)) = [] <-> ~ owns_recipe w u i.
Proof.
  rewrite filter_nil_iff. unfold owns_recipe. split.
  - intros H (s & Hin & Hid & Hu). specialize (H s Hin).
    assert (recipe_where (Some i) u s = true) by now apply recipe_where_true.
    congruence.
  - intros H s Hin. destruct (recipe_where (Some i) u s) eqn:E; [|reflexivity].
    exfalso. apply H. exists s. apply recipe_where_true in E. tauto.
Qed.

Lemma Forall2_map_r {A : Type} (f : A -> A) (P : A -> A -> Prop) (l : list A) :
  (forall x, In x l -> P x (f x)) -> Forall2 P l (map f l).
Proof.
  induction l as [|a l IH]; simpl; intros H; constructor.
  - apply H. now left.
  - apply IH. intros x Hx. apply H. now right.
Qed.

(** ** Reading rows back *)

Lemma read_returned {R : Type} (T : Table R) (l l' : list R) :
  read T l = Returned l' -> l' = l /\ forallb (readable T) l = true.
Proof.
  unfold read. destruct (forallb (readable T) l); intros H; inversion H. now split.
Qed.

Lemma read_readable {R : Type} (T : Table R) (l : list R) :
  forallb (readable T) l = true -> read T l = Returned l.
Proof. unfold read. now intros ->. Qed.

Lemma forallb_filter {R : Type} (q p : R -> bool) (l : list R) :
  forallb q l = true -> forallb q (filter p l) = true.
Proof.
  rewrite !forallb_forall. intros H x Hx. apply filter_In in Hx. now apply H.
Qed.

Lemma store_readable_sessions (w : World) (p : RecipeIdeaSessions.row -> bool) :
  store_readable w = true ->
  read RecipeIdeaSessionsT (filter p (sessions (db w)))
  = Returned (filter p (sessions (db w))).
Proof.
  unfold store_readable. rewrite andb_true_iff. intros [H _].
  apply read_readable. now apply forallb_filter.
Qed.

Lemma store_readable_recipes (w : World) (p : GeneratedRecipes.row -> bool) :
  store_readable w = true ->
  read GeneratedRecipesT (filter p (recipes (db w)))
  = Returned (filter p (recipes (db w))).
Proof.
  unfold store_readable. rewrite andb_true_iff. intros [_ H].
  apply read_readable. now apply forallb_filter.
Qed.

(** ** [updateRecipeIdeaSession] *)

(** The call either throws and leaves the world alone, or returns after the
    one update statement. *)
Lemma updateRecipeIdeaSession_run (rt : Runtime) (input : RecipeSessionInput.t)
    (u : User) (w : World) :
  updateRecipeIdeaSession rt input (signed_in u) w =
    match read RecipeIdeaSessionsT
            (filter (session_where (Some (RecipeSessionInput.id input)) u)
               (sessions (db w))) with
    | Threw e => (Threw e, w)
    | Returned existing =>
        if (length existing =? 0)%nat
        then (Threw (ActionError NOT_FOUND "Recipe idea session not found."), w)
        else (Returned (mkEnvelope true (mkIdData (RecipeSessionInput.id input))),
              mkWorld
                (mkDb (map (fun r =>
                              if session_where (Some (RecipeSessionInput.id input)) u r
                              then set_session (sessionUpdateData input (clock rt)) r
                              else r)
                         (sessions (db w)))
                   (recipes (db w)) (ingredients (db w)) (steps (db w)))
                (uuid_next w))
    end.
Proof.
  unfold updateRecipeIdeaSession, bind. rewrite requireUser_signed_in.
  unfold db_select. simpl.
  destruct (read RecipeIdeaSessionsT _) as [existing|e]; [|reflexivity].
  destruct (length existing =? 0)%nat; reflexivity.
Qed.

Lemma set_optional_if_defined {A : Type} (v prior : option A) :
  present_or_prior v prior (set_optional (assign_if_defined v) prior).
Proof. destruct v; reflexivity. Qed.

Lemma set_session_patched (input : RecipeSessionInput.t) (now : Z)
    (r : RecipeIdeaSessions.row) :
  session_patched input now r (set_session (sessionUpdateData input now) r).
Proof.
  unfold session_patched, set_session, sessionUpdateData; simpl.
  repeat split; apply set_optional_if_defined.
Qed.

(** C6: [updateRecipeIdeaSession] on a session identifier that no row
    carries, or that only rows of other users carry, throws NOT_FOUND with
    one and the same message in both cases, does not return, and leaves the
    whole world (every table) as it was. *)
Theorem updateRecipeIdeaSession_not_found (rt : Runtime) (input : RecipeSessionInput.t)
    (u : User) (w : World) :
  (forall s, In s (sessions (db w)) ->
     RecipeIdeaSessions.id s <> RecipeSessionInput.id input)
  \/ (forall s, In s (sessions (db w)) ->
        RecipeIdeaSessions.id s = RecipeSessionInput.id input ->
        RecipeIdeaSessions.userId s <> user_id u) ->
  updateRecipeIdeaSession rt input (signed_in u) w
  = (Threw (ActionError NOT_FOUND "Recipe idea session not found."), w).
Proof.
  intros H. rewrite updateRecipeIdeaSession_run.
  assert (E : filter (session_where (Some (RecipeSessionInput.id input)) u)
                (sessions (db w)) = []).
  { apply session_lookup_empty. intros (s & Hin & Hid & Hu).
    destruct H as [H|H]; [exact (H s Hin Hid) | exact (H s Hin Hid Hu)]. }
  rewrite E. reflexivity.
Qed.

(** Alice names a session of bob's, then a session nobody has: the same
    error, the same world. *)
Lemma updateRecipeIdeaSession_not_found_witness :
  updateRecipeIdeaSession sample_runtime
    (RecipeSessionInput.mk "s-bob-1" (Some "mine now") None None None None)
    (signed_in alice) sample_world
  = (Threw (ActionError NOT_FOUND "Recipe idea session not found."), sample_world)
  /\ updateRecipeIdeaSession sample_runtime
       (RecipeSessionInput.mk "s-nobody" (Some "mine now") None None None None)
       (signed_in alice) sample_world
     = (Threw (ActionError NOT_FOUND "Recipe idea session not found."), sample_world).
Proof.
  split; apply updateRecipeIdeaSession_not_found.
  - right. simpl. intros s [<-|[<-|[<-|[]]]]; simpl; intros; discriminate.
  - left. simpl. intros s [<-|[<-|[<-|[]]]]; simpl; discriminate.
Defined.

(** C3: a call of [updateRecipeIdeaSession] that returns was made by a
    signed-in user; each session row with the input's identifier and that
    owner keeps [id], [userId] and [createdAt], has [updatedAt] set to now,
    and in each of [title], [prompt], [cuisinePreference],
    [dietaryPreference], [servingCount] holds the input's value when the
    input has one and the prior value when it has none; every other session
    row and the three other tables are as before. *)
Theorem updateRecipeIdeaSession_partial_update (rt : Runtime)
    (input : RecipeSessionInput.t) (context : ActionAPIContext) (w w' : World)
    (resp : Envelope IdData) :
  updateRecipeIdeaSession rt input context w = (Returned resp, w') ->
  exists u,
    current_user context = Some u
    /\ resp = mkEnvelope true (mkIdData (RecipeSessionInput.id input))
    /\ Forall2
         (fun r r' =>
            (RecipeIdeaSessions.id r = RecipeSessionInput.id input
             /\ RecipeIdeaSessions.userId r = user_id u ->
             session_patched input (clock rt) r r')
            /\ (~ (RecipeIdeaSessions.id r = RecipeSessionInput.id input
                   /\ RecipeIdeaSessions.userId r = user_id u) ->
                r' = r))
         (sessions (db w)) (sessions (db w'))
    /\ recipes (db w') = recipes (db w)
    /\ ingredients (db w') = ingredients (db w)
    /\ steps (db w') = steps (db w).
Proof.
  intros H.
  destruct (requireUser context w) as [[u|e] w1] eqn:Eu.
  - apply requireUser_returned in Eu. destruct Eu as [-> ->].
    rewrite updateRecipeIdeaSession_run in H.
    destruct (read RecipeIdeaSessionsT _) as [existing|e]; [|discriminate].
    destruct (length existing =? 0)%nat; [discriminate|].
    inversion H; subst resp w'; clear H. exists u. simpl.
    repeat split; try reflexivity.
    apply Forall2_map_r. intros r _. split.
    + intros Hm. apply session_where_true in Hm. rewrite Hm.
      apply set_session_patched.
    + intros Hm. destruct (session_where _ u r) eqn:E; [|reflexivity].
      apply session_where_true in E. contradiction.
  - unfold updateRecipeIdeaSession in H. rewrite (bind_threw _ _ _ _ _ Eu) in H.
    discriminate.
Qed.

(** Alice retitles her first session and supplies nothing else. *)
Lemma updateRecipeIdeaSession_partial_update_witness :
  sessions (db (snd (updateRecipeIdeaSession sample_runtime
                       (RecipeSessionInput.mk "s-alice-1" (Some "Slow dinners")
                          None None None None)
                       (signed_in alice) sample_world)))
  = [ {| RecipeIdeaSessions.id := "s-alice-1";
         RecipeIdeaSessions.userId := "alice";
         RecipeIdeaSessions.title := Some "Slow dinners";
         RecipeIdeaSessions.prompt := Some "under 30 minutes";
         RecipeIdeaSessions.cuisinePreference := None;
         RecipeIdeaSessions.dietaryPreference := Some "vegan";
         RecipeIdeaSessions.servingCount := Some 2;
         RecipeIdeaSessions.createdAt := 20;
         RecipeIdeaSessions.updatedAt := 1700000000000 |};
      sample_session "s-bob-1" "bob" 15;
      sample_session "s-alice-2" "alice" 10 ]
  /\ exists u,
       current_user (signed_in alice) = Some u
       /\ recipes (db (snd (updateRecipeIdeaSession sample_runtime
                              (RecipeSessionInput.mk "s-alice-1" (Some "Slow dinners")
                                 None None None None)
                              (signed_in alice) sample_world)))
          = recipes (db sample_world).
Proof.
  split; [reflexivity|].
  destruct (updateRecipeIdeaSession_partial_update sample_runtime
              (RecipeSessionInput.mk "s-alice-1" (Some "Slow dinners") None None None None)
              (signed_in alice) sample_world
              (snd (updateRecipeIdeaSession sample_runtime
                      (RecipeSessionInput.mk "s-alice-1" (Some "Slow dinners")
                         None None None None)
                      (signed_in alice) sample_world))
              (mkEnvelope true (mkIdData "s-alice-1")) eq_refl)
    as (u & Hu & _ & _ & Hr & _).
  exists u. split; assumption.
Defined.

(** ** [orderBy] *)

Section OrderBy.
Context {R : Type} (key : R -> Z).

Let by_key (p q : R) : Prop := key p <= key q.

Lemma insert_by_perm (x : R) (l : list R) :
  Permutation (insert_by key x l) (x :: l).
Proof.
  induction l as [|y l IH]; simpl.
  - apply Permutation_refl.
  - destruct (key x <=? key y).
    + apply Permutation_refl.
    + apply perm_trans with (y :: x :: l).
      * now apply perm_skip.
      * apply perm_swap.
Qed.

Lemma orderBy_perm (l : list R) : Permutation (orderBy key l) l.
Proof.
  induction l as [|x l IH]; simpl.
  - apply perm_nil.
  - apply perm_trans with (x :: orderBy key l).
    + apply insert_by_perm.
    + now apply perm_skip.
Qed.

Lemma insert_by_hd (a x : R) (l : list R) :
  key a <= key x -> HdRel by_key a l -> HdRel by_key a (insert_by key x l).
Proof.
  intros Hax Hl. destruct l as [|y l]; simpl.
  - now constructor.
  - destruct (key x <=? key y); constructor; [assumption|].
    now inversion Hl.
Qed.

Lemma insert_by_sorted (x : R) (l : list R) :
  Sorted by_key l -> Sorted by_key (insert_by key x l).
Proof.
  induction l as [|y l IH]; simpl; intros Hs.
  - repeat constructor.
  - destruct (key x <=? key y) eqn:E.
    + constructor; [assumption|]. constructor. now apply Z.leb_le.
    + inversion Hs; subst. constructor.
      * now apply IH.
      * apply insert_by_hd; [|assumption]. apply Z.leb_gt in E. lia.
Qed.

Lemma orderBy_sorted (l : list R) :
  Sorted (fun p q => key p <= key q) (orderBy key l).
Proof.
  induction l as [|x l IH]; simpl.
  - constructor.
  - now apply insert_by_sorted.
Qed.

End OrderBy.

(** ** The list handlers *)

Lemma listRecipeIdeaSessions_run (rt : Runtime) (input : ListSessionsInput.t)
    (u : User) (w : World) :
  listRecipeIdeaSessions rt input (signed_in u) w =
    (match read_page RecipeIdeaSessionsT RecipeIdeaSessions.createdAt
             (ListSessionsInput.pageSize input)
             ((ListSessionsInput.page input - 1) * ListSessionsInput.pageSize input)
             (filter (fun r => eq_text (RecipeIdeaSessions.userId r) (Some (user_id u)))
                (sessions (db w))) with
     | Returned items =>
         Returned (mkEnvelope true
                     (mkPageData items (Z.of_nat (length items))
                        (ListSessionsInput.page input)
                        (ListSessionsInput.pageSize input)))
     | Threw e => Threw e
     end,
     w).
Proof.
  unfold listRecipeIdeaSessions, bind. rewrite requireUser_signed_in.
  unfold db_select_page. cbv zeta.
  now destruct (read_page _ _ _ _ _).
Qed.

Lemma listGeneratedRecipes_run (rt : Runtime) (input : ListRecipesInput.t)
    (u : User) (w : World) :
  listGeneratedRecipes rt input (signed_in u) w =
    (match read_page GeneratedRecipesT GeneratedRecipes.createdAt
             (ListRecipesInput.pageSize input)
             ((ListRecipesInput.page input - 1) * ListRecipesInput.pageSize input)
             (filter (recipe_filters input u) (recipes (db w))) with
     | Returned items =>
         Returned (mkEnvelope true
                     (mkPageData items (Z.of_nat (length items))
                        (ListRecipesInput.page input)
                        (ListRecipesInput.pageSize input)))
     | Threw e => Threw e
     end,
     w).
Proof.
  unfold listGeneratedRecipes, bind. rewrite requireUser_signed_in.
  unfold db_select_page. cbv zeta.
  now destruct (read_page _ _ _ _ _).
Qed.

Lemma listRecipeIdeaSessions_returned (rt : Runtime) (input : ListSessionsInput.t)
    (context : ActionAPIContext) (w w' : World)
    (resp : Envelope (PageData RecipeIdeaSessions.row)) :
  listRecipeIdeaSessions rt input context w = (Returned resp, w') ->
  exists u, context = signed_in u.
Proof.
  intros H. destruct (requireUser context w) as [[u|e] w1] eqn:Eu.
  - apply requireUser_returned in Eu. now exists u.
  - unfold listRecipeIdeaSessions in H. rewrite (bind_threw _ _ _ _ _ Eu) in H.
    discriminate.
Qed.

Lemma listGeneratedRecipes_returned (rt : Runtime) (input : ListRecipesInput.t)
    (context : ActionAPIContext) (w w' : World)
    (resp : Envelope (PageData GeneratedRecipes.row)) :
  listGeneratedRecipes rt input context w = (Returned resp, w') ->
  exists u, context = signed_in u.
Proof.
  intros H. destruct (requireUser context w) as [[u|e] w1] eqn:Eu.
  - apply requireUser_returned in Eu. now exists u.
  - unfold listGeneratedRecipes in H. rewrite (bind_threw _ _ _ _ _ Eu) in H.
    discriminate.
Qed.

(** C8: in the response of a [listRecipeIdeaSessions] call and of a
    [listGeneratedRecipes] call that return, [total] is the number of items
    of the returned page, and [page] and [pageSize] are the input's. *)
Theorem list_total_is_page_length (rt : Runtime)
    (sinput : ListSessionsInput.t) (rinput : ListRecipesInput.t)
    (context : ActionAPIContext) (w ws wr : World)
    (sresp : Envelope (PageData RecipeIdeaSessions.row))
    (rresp : Envelope (PageData GeneratedRecipes.row)) :
  listRecipeIdeaSessions rt sinput context w = (Returned sresp, ws) ->
  listGeneratedRecipes rt rinput context w = (Returned rresp, wr) ->
  (total (data sresp) = Z.of_nat (length (items (data sresp)))
   /\ page (data sresp) = ListSessionsInput.page sinput
   /\ pageSize (data sresp) = ListSessionsInput.pageSize sinput)
  /\ (total (data rresp) = Z.of_nat (length (items (data rresp)))
      /\ page (data rresp) = ListRecipesInput.page rinput
      /\ pageSize (data rresp) = ListRecipesInput.pageSize rinput).
Proof.
  intros Hs Hr.
  destruct (listRecipeIdeaSessions_returned _ _ _ _ _ _ Hs) as [u ->].
  rewrite listRecipeIdeaSessions_run in Hs. rewrite listGeneratedRecipes_run in Hr.
  destruct (read_page RecipeIdeaSessionsT _ _ _ _) as [sitems|e]; [|discriminate].
  destruct (read_page GeneratedRecipesT _ _ _ _) as [ritems|e]; [|discriminate].
  inversion Hs; inversion Hr; subst. simpl. repeat split.
Qed.

(** Alice has two sessions and three recipes; with a page size of one, each
    call reports a total of one. *)
Lemma list_total_is_page_length_witness :
  listRecipeIdeaSessions sample_runtime (ListSessionsInput.mk 1 1)
    (signed_in alice) sample_world
  = (Returned (mkEnvelope true
                 (mkPageData [sample_session "s-alice-2" "alice" 10] 1 1 1)),
     sample_world)
  /\ listGeneratedRecipes sample_runtime (ListRecipesInput.mk 1 1 None None)
       (signed_in alice) sample_world
     = (Returned (mkEnvelope true
                    (mkPageData
                       [sample_recipe "r-alice-3" "alice" (Some "s-alice-2") false 25]
                       1 1 1)),
        sample_world)
  /\ length (filter (fun r => eq_text (RecipeIdeaSessions.userId r) (Some "alice"))
               (sessions (db sample_world))) = 2%nat
  /\ length (filter (fun r => eq_text (GeneratedRecipes.userId r) (Some "alice"))
               (recipes (db sample_world))) = 3%nat
  /\ (1 = Z.of_nat (length [sample_session "s-alice-2" "alice" 10])
      /\ 1 = 1 /\ 1 = 1)
  /\ (1 = Z.of_nat
             (length [sample_recipe "r-alice-3" "alice" (Some "s-alice-2") false 25])
      /\ 1 = 1 /\ 1 = 1).
Proof.
  repeat (split; [reflexivity|]).
  exact (list_total_is_page_length sample_runtime
           (ListSessionsInput.mk 1 1) (ListRecipesInput.mk 1 1 None None)
           (signed_in alice) sample_world sample_world sample_world
           (mkEnvelope true (mkPageData [sample_session "s-alice-2" "alice" 10] 1 1 1))
           (mkEnvelope true
              (mkPageData [sample_recipe "r-alice-3" "alice" (Some "s-alice-2") false 25]
                 1 1 1))
           eq_refl eq_refl).
Defined.

Lemma eq_nullable_text_true (c : option string) (v : string) :
  eq_nullable_text c (Some v) = true <-> c = Some v.
Proof.
  unfold eq_nullable_text. destruct c as [a|].
  - rewrite String.eqb_eq. split; congruence.
  - split; discriminate.
Qed.

Lemma recipe_filters_listed (input : ListRecipesInput.t) (u : User)
    (r : GeneratedRecipes.row) :
  recipe_filters input u r = true <-> recipe_listed input u r.
Proof.
  unfold recipe_filters, recipe_listed.
  destruct input as [pg ps sid fav]; simpl.
  assert (Hsid : forall c : option string,
            (forall s, sid = Some s -> s <> EmptyString -> c = Some s)
            <-> (if truthy_string sid then eq_nullable_text c sid else true) = true).
  { intros c. destruct sid as [s|]; simpl.
    - destruct (String.eqb_spec s EmptyString) as [->|Hne]; simpl.
      + split; [reflexivity|]. intros _ s E Hs. inversion E. congruence.
      + rewrite eq_nullable_text_true. split.
        * intros H. now apply H.
        * intros -> s' E _. now inversion E.
    - split; [reflexivity | discriminate]. }
  assert (Hfav : (fav = Some true -> GeneratedRecipes.isFavorite r = true)
                 <-> (if truthy_bool fav
                      then Bool.eqb (GeneratedRecipes.isFavorite r) true
                      else true) = true).
  { destruct fav as [[|]|]; simpl.
    - rewrite eqb_true_iff. tauto.
    - split; [reflexivity | discriminate].
    - split; [reflexivity | discriminate]. }
  rewrite (Hsid (GeneratedRecipes.sessionId r)), Hfav, <- eq_text_true.
  destruct (truthy_string sid), (truthy_bool fav);
    rewrite ?andb_true_iff; tauto.
Qed.

Lemma page_of_nat {R : Type} (pg ps : Z) (l : list R) :
  valid_paging pg ps ->
  page_of pg ps l = firstn (Z.to_nat ps) (skipn (Z.to_nat (pg - 1) * Z.to_nat ps) l)
  /\ Z.of_nat (length (page_of pg ps l)) <= ps.
Proof.
  intros [Hp [Hs _]]. unfold page_of. split.
  - now rewrite Z2Nat.inj_mul by lia.
  - pose proof (firstn_le_length (Z.to_nat ps)
                  (skipn (Z.to_nat ((pg - 1) * ps)) l)) as Hl. lia.
Qed.

Lemma In_page_of {R : Type} (pg ps : Z) (l : list R) (r : R) :
  In r (page_of pg ps l) -> In r l.
Proof.
  unfold page_of. intros H.
  rewrite <- (firstn_skipn (Z.to_nat ((pg - 1) * ps)) l). apply in_or_app. right.
  rewrite <- (firstn_skipn (Z.to_nat ps) (skipn (Z.to_nat ((pg - 1) * ps)) l)).
  apply in_or_app. now left.
Qed.

(** For paging the schemas admit, a page that reaches the handler is the
    page of the ordered rows. *)
Lemma read_page_returned {R : Type} (T : Table R) (key : R -> Z) (pg ps : Z)
    (l items : list R) :
  valid_paging pg ps ->
  read_page T key ps ((pg - 1) * ps) l = Returned items ->
  items = page_of pg ps (orderBy key l).
Proof.
  intros [_ [Hs _]]. unfold read_page, limit_rows, offset_rows.
  destruct (fits_int64 ps && fits_int64 ((pg - 1) * ps)); [|discriminate].
  destruct (Z.ltb_spec ps 0) as [Hn|_]; [lia|].
  intros H. apply read_returned in H. apply H.
Qed.

(** It does reach the handler when the offset is one JavaScript counts
    exactly and the rows selected hold safe integers. *)
Lemma read_page_readable {R : Type} (T : Table R) (key : R -> Z) (pg ps : Z)
    (l : list R) :
  valid_paging pg ps -> exact_paging pg ps ->
  forallb (readable T) l = true ->
  read_page T key ps ((pg - 1) * ps) l = Returned (page_of pg ps (orderBy key l)).
Proof.
  intros [Hp [Hs Hh]] Hx Hl. unfold exact_paging in Hx.
  unfold read_page, limit_rows, offset_rows.
  assert (F : fits_int64 ps && fits_int64 ((pg - 1) * ps) = true).
  { unfold fits_int64. rewrite !andb_true_iff, !Z.leb_le, !Z.ltb_lt. nia. }
  rewrite F. destruct (Z.ltb_spec ps 0) as [Hn|_]; [lia|].
  apply read_readable. rewrite forallb_forall in *. intros x Hx'.
  apply Hl. apply (Permutation_in x (orderBy_perm key l)).
  exact (In_page_of pg ps _ x Hx').
Qed.

(** C9, as the code has it: for paging the schemas admit and JavaScript
    counts exactly, over rows created at plain dates, the items of a list
    call of a signed-in user that returns are a page of [ordered]: the first
    [(page - 1) * pageSize] rows skipped, at most [pageSize] rows kept; the
    call changes nothing.  [ordered] is in ascending creation time and holds
    exactly the user's rows; for recipes, those of the session asked for
    when the [sessionId] supplied is not the empty string, and only
    favorites when [favoritesOnly] is true.  Both calls return when every
    session row and every recipe row holds safe integers only. *)
Theorem list_calls_page_through_owned_rows (rt : Runtime) (u : User) (w : World)
    (sinput : ListSessionsInput.t) (rinput : ListRecipesInput.t) :
  valid_paging (ListSessionsInput.page sinput) (ListSessionsInput.pageSize sinput) ->
  valid_paging (ListRecipesInput.page rinput) (ListRecipesInput.pageSize rinput) ->
  exact_paging (ListSessionsInput.page sinput) (ListSessionsInput.pageSize sinput) ->
  exact_paging (ListRecipesInput.page rinput) (ListRecipesInput.pageSize rinput) ->
  plain_dates w = true ->
  exists (sordered : list RecipeIdeaSessions.row) (rordered : list GeneratedRecipes.row),
    selects (fun r => RecipeIdeaSessions.userId r = user_id u) (sessions (db w)) sordered
    /\ Sorted session_older sordered
    /\ selects (recipe_listed rinput u) (recipes (db w)) rordered
    /\ Sorted recipe_older rordered
    /\ (forall resp w',
          listRecipeIdeaSessions rt sinput (signed_in u) w = (Returned resp, w') ->
          w' = w
          /\ items (data resp)
             = firstn (Z.to_nat (ListSessionsInput.pageSize sinput))
                 (skipn (Z.to_nat (ListSessionsInput.page sinput - 1)
                         * Z.to_nat (ListSessionsInput.pageSize sinput)) sordered)
          /\ Z.of_nat (length (items (data resp))) <= ListSessionsInput.pageSize sinput)
    /\ (forall resp w',
          listGeneratedRecipes rt rinput (signed_in u) w = (Returned resp, w') ->
          w' = w
          /\ items (data resp)
             = firstn (Z.to_nat (ListRecipesInput.pageSize rinput))
                 (skipn (Z.to_nat (ListRecipesInput.page rinput - 1)
                         * Z.to_nat (ListRecipesInput.pageSize rinput)) rordered)
          /\ Z.of_nat (length (items (data resp))) <= ListRecipesInput.pageSize rinput)
    /\ (store_readable w = true ->
        (exists resp,
           listRecipeIdeaSessions rt sinput (signed_in u) w = (Returned resp, w))
        /\ (exists resp,
              listGeneratedRecipes rt rinput (signed_in u) w = (Returned resp, w))).
Proof.
  intros Vs Vr Xs Xr _.
  exists (orderBy RecipeIdeaSessions.createdAt
            (filter (fun r => eq_text (RecipeIdeaSessions.userId r) (Some (user_id u)))
               (sessions (db w)))).
  exists (orderBy GeneratedRecipes.createdAt
            (filter (recipe_filters rinput u) (recipes (db w)))).
  refine (conj _ (conj _ (conj _ (conj _ (conj _ (conj _ _)))))).
  - exists (fun r => eq_text (RecipeIdeaSessions.userId r) (Some (user_id u))).
    split; [intros r; apply eq_text_true | apply orderBy_perm].
  - apply orderBy_sorted.
  - exists (recipe_filters rinput u).
    split; [intros r; apply recipe_filters_listed | apply orderBy_perm].
  - apply orderBy_sorted.
  - intros resp w'. rewrite listRecipeIdeaSessions_run.
    destruct (read_page RecipeIdeaSessionsT _ _ _ _) as [its|e] eqn:E;
      intros H; inversion H; subst resp w'; clear H.
    apply (read_page_returned _ _ _ _ _ _ Vs) in E. subst its. cbn [data items].
    destruct (page_of_nat (ListSessionsInput.page sinput)
                (ListSessionsInput.pageSize sinput)
                (orderBy RecipeIdeaSessions.createdAt
                   (filter (fun r => eq_text (RecipeIdeaSessions.userId r)
                                       (Some (user_id u)))
                      (sessions (db w)))) Vs) as [E L].
    split; [reflexivity|]. split; [exact E | exact L].
  - intros resp w'. rewrite listGeneratedRecipes_run.
    destruct (read_page GeneratedRecipesT _ _ _ _) as [its|e] eqn:E;
      intros H; inversion H; subst resp w'; clear H.
    apply (read_page_returned _ _ _ _ _ _ Vr) in E. subst its. cbn [data items].
    destruct (page_of_nat (ListRecipesInput.page rinput)
                (ListRecipesInput.pageSize rinput)
                (orderBy GeneratedRecipes.createdAt
                   (filter (recipe_filters rinput u) (recipes (db w)))) Vr) as [E L].
    split; [reflexivity|]. split; [exact E | exact L].
  - intros Hread. unfold store_readable in Hread. apply andb_true_iff in Hread.
    destruct Hread as [Hs Hr]. split.
    + eexists. rewrite listRecipeIdeaSessions_run.
      rewrite (read_page_readable _ _ _ _ _ Vs Xs); [reflexivity|].
      now apply forallb_filter.
    + eexists. rewrite listGeneratedRecipes_run.
      rewrite (read_page_readable _ _ _ _ _ Vr Xr); [reflexivity|].
      now apply forallb_filter.
Qed.

(** Alice asks for the second page of size two of her recipes: of her three
    recipes in creation order, the third. *)
Lemma list_calls_page_through_owned_rows_witness :
  valid_paging 2 2 /\ exact_paging 2 2
  /\ plain_dates sample_world = true /\ store_readable sample_world = true
  /\ listGeneratedRecipes sample_runtime (ListRecipesInput.mk 2 2 None None)
       (signed_in alice) sample_world
     = (Returned (mkEnvelope true
                    (mkPageData
                       [sample_recipe "r-alice-1" "alice" (Some "s-alice-1") true 40]
                       1 2 2)),
        sample_world)
  /\ exists rordered,
       Sorted recipe_older rordered
       /\ [sample_recipe "r-alice-1" "alice" (Some "s-alice-1") true 40]
          = firstn 2 (skipn 2 rordered)
       /\ exists resp,
            listRecipeIdeaSessions sample_runtime (ListSessionsInput.mk 2 2)
              (signed_in alice) sample_world = (Returned resp, sample_world).
Proof.
  assert (V : valid_paging 2 2) by (unfold valid_paging; lia).
  assert (X : exact_paging 2 2) by (unfold exact_paging; lia).
  split; [exact V|]. split; [exact X|].
  split; [reflexivity|]. split; [reflexivity|]. split; [reflexivity|].
  destruct (list_calls_page_through_owned_rows sample_runtime alice sample_world
              (ListSessionsInput.mk 2 2) (ListRecipesInput.mk 2 2 None None) V V X X
              eq_refl)
    as (so & ro & _ & _ & _ & Hsorted & _ & Hr & Hret).
  exists ro. split; [exact Hsorted|].
  destruct (Hr _ _ eq_refl) as (_ & Hitems & _).
  split; [exact Hitems|].
  exact (proj1 (Hret eq_refl)).
Defined.

(** C9 as stated fails when the [sessionId] supplied is the empty string:
    alice's call returns her three recipes, none of which has the empty
    string as its session reference. *)
Lemma list_recipes_empty_sessionId_not_filtered :
  listGeneratedRecipes sample_runtime (ListRecipesInput.mk 1 20 (Some EmptyString) None)
    (signed_in alice) sample_world
  = (Returned (mkEnvelope true
                 (mkPageData
                    [ sample_recipe "r-alice-3" "alice" (Some "s-alice-2") false 25;
                      sample_recipe "r-alice-2" "alice" None false 30;
                      sample_recipe "r-alice-1" "alice" (Some "s-alice-1") true 40 ]
                    3 1 20)),
     sample_world)
  /\ filter (fun r => eq_nullable_text (GeneratedRecipes.sessionId r) (Some EmptyString))
       (recipes (db sample_world)) = [].
Proof. split; reflexivity. Qed.

Lemma recipe_filters_empty_sessionId (pg ps : Z) (fav : option bool) (u : User)
    (r : GeneratedRecipes.row) :
  recipe_filters (ListRecipesInput.mk pg ps (Some EmptyString) fav) u r
  = eq_text (GeneratedRecipes.userId r) (Some (user_id u))
    && (if truthy_bool fav then GeneratedRecipes.isFavorite r else true).
Proof.
  unfold recipe_filters; simpl. destruct (truthy_bool fav).
  - now destruct (GeneratedRecipes.isFavorite r).
  - now rewrite andb_true_r.
Qed.

(** C10: [listGeneratedRecipes] with the empty string as [sessionId] is the
    same call as with no [sessionId], whatever the context and the store.
    For paging the schemas admit and JavaScript counts exactly, over rows
    created at plain dates, the items of such a call that returns are the
    page asked for of the caller's recipe rows in ascending creation time,
    the favorites among them when [favoritesOnly] is true, whatever their
    session reference: the filter has no condition on [sessionId].  The
    call returns when the rows hold safe integers. *)
Theorem listGeneratedRecipes_empty_sessionId (rt : Runtime) (pg ps : Z)
    (fav : option bool) (context : ActionAPIContext) (u : User) (w : World) :
  listGeneratedRecipes rt (ListRecipesInput.mk pg ps (Some EmptyString) fav) context w
  = listGeneratedRecipes rt (ListRecipesInput.mk pg ps None fav) context w
  /\ (valid_paging pg ps -> exact_paging pg ps -> plain_dates w = true ->
      (forall resp w',
         listGeneratedRecipes rt (ListRecipesInput.mk pg ps (Some EmptyString) fav)
           (signed_in u) w = (Returned resp, w') ->
         w' = w
         /\ items (data resp)
            = page_of pg ps
                (orderBy GeneratedRecipes.createdAt
                   (filter (fun r =>
                              eq_text (GeneratedRecipes.userId r) (Some (user_id u))
                              && (if truthy_bool fav
                                  then GeneratedRecipes.isFavorite r
                                  else true))
                      (recipes (db w)))))
      /\ (store_readable w = true ->
          exists resp,
            listGeneratedRecipes rt (ListRecipesInput.mk pg ps (Some EmptyString) fav)
              (signed_in u) w = (Returned resp, w))).
Proof.
  split; [reflexivity|]. intros V X _.
  assert (F : filter (recipe_filters (ListRecipesInput.mk pg ps (Some EmptyString) fav) u)
                (recipes (db w))
              = filter (fun r =>
                          eq_text (GeneratedRecipes.userId r) (Some (user_id u))
                          && (if truthy_bool fav
                              then GeneratedRecipes.isFavorite r
                              else true))
                  (recipes (db w))).
  { apply filter_ext. intros r. apply recipe_filters_empty_sessionId. }
  split.
  - intros resp w'. rewrite listGeneratedRecipes_run.
    cbn [ListRecipesInput.page ListRecipesInput.pageSize].
    destruct (read_page GeneratedRecipesT _ _ _ _) as [its|e] eqn:E;
      intros H; inversion H; subst resp w'; clear H.
    apply (read_page_returned _ _ _ _ _ _ V) in E. subst its. cbn [data items].
    split; [reflexivity|]. now rewrite F.
  - intros Hread. unfold store_readable in Hread. apply andb_true_iff in Hread.
    destruct Hread as [_ Hr].
    eexists. rewrite listGeneratedRecipes_run.
    cbn [ListRecipesInput.page ListRecipesInput.pageSize].
    rewrite (read_page_readable _ _ _ _ _ V X); [reflexivity|].
    now apply forallb_filter.
Qed.

(** Alice lists with the empty string as [sessionId]: her three recipes,
    two of them of a session, one of none. *)
Lemma listGeneratedRecipes_empty_sessionId_witness :
  valid_paging 1 20 /\ exact_paging 1 20 /\ plain_dates sample_world = true
  /\ exists resp,
       listGeneratedRecipes sample_runtime
         (ListRecipesInput.mk 1 20 (Some EmptyString) None) (signed_in alice) sample_world
       = (Returned resp, sample_world)
       /\ items (data resp)
          = [ sample_recipe "r-alice-3" "alice" (Some "s-alice-2") false 25;
              sample_recipe "r-alice-2" "alice" None false 30;
              sample_recipe "r-alice-1" "alice" (Some "s-alice-1") true 40 ].
Proof.
  assert (V : valid_paging 1 20) by (unfold valid_paging; lia).
  assert (X : exact_paging 1 20) by (unfold exact_paging; lia).
  split; [exact V|]. split; [exact X|]. split; [reflexivity|].
  destruct (listGeneratedRecipes_empty_sessionId sample_runtime 1 20 None
              (signed_in alice) alice sample_world) as (_ & H).
  destruct (H V X eq_refl) as (Hitems & Hret).
  destruct (Hret eq_refl) as [resp Hrun].
  exists resp. split; [exact Hrun|].
  destruct (Hitems resp sample_world Hrun) as [_ E]. rewrite E. reflexivity.
Defined.

(** ** The stages of [upsertGeneratedRecipe] *)

Lemma check_session_run (input : UpsertInput.t) (u : User) (w : World) :
  check_session input u w =
    if truthy_string (UpsertInput.sessionId input)
    then
      match read RecipeIdeaSessionsT
              (filter (session_where (UpsertInput.sessionId input) u)
                 (sessions (db w))) with
      | Threw e => (Threw e, w)
      | Returned session =>
          if (length session =? 0)%nat
          then (Threw (ActionError NOT_FOUND "Linked recipe idea session not found."), w)
          else (Returned tt, w)
      end
    else (Returned tt, w).
Proof.
  unfold check_session. destruct (truthy_string _); [|reflexivity].
  unfold bind, db_select.
  destruct (read RecipeIdeaSessionsT _) as [session|e]; [|reflexivity].
  now destruct (length session =? 0)%nat.
Qed.

Lemma check_session_passes (w : World) (u : User) (input : UpsertInput.t) :
  session_check_passes w u input -> store_readable w = true ->
  check_session input u w = (Returned tt, w).
Proof.
  unfold session_check_passes. intros H Hread. rewrite check_session_run.
  destruct (UpsertInput.sessionId input) as [sid|]; simpl; [|reflexivity].
  destruct (String.eqb_spec sid EmptyString) as [->|Hne]; simpl; [reflexivity|].
  rewrite (store_readable_sessions w _ Hread).
  destruct (length _ =? 0)%nat eqn:E; [|reflexivity].
  apply length_eqb_0, session_lookup_empty in E.
  exfalso. apply E. now apply H.
Qed.

Lemma check_session_fails (w : World) (u : User) (input : UpsertInput.t) (sid : string) :
  UpsertInput.sessionId input = Some sid -> sid <> EmptyString -> ~ owns_session w u sid ->
  check_session input u w
  = (Threw (ActionError NOT_FOUND "Linked recipe idea session not found."), w).
Proof.
  rewrite check_session_run. intros -> Hne H. simpl.
  destruct (String.eqb_spec sid EmptyString) as [->|_]; [contradiction|]. simpl.
  apply session_lookup_empty in H. rewrite H. reflexivity.
Qed.

Lemma check_session_returned (w w' : World) (u : User) (input : UpsertInput.t) :
  check_session input u w = (Returned tt, w') ->
  w' = w /\ session_check_passes w u input.
Proof.
  rewrite check_session_run. unfold session_check_passes. intros H.
  destruct (UpsertInput.sessionId input) as [sid|]; simpl in H.
  - destruct (sid =? EmptyString)%string eqn:Hne; simpl in H.
    + apply String.eqb_eq in Hne. subst sid. inversion H. split; [reflexivity|].
      intros s E Hs. inversion E. congruence.
    + destruct (read RecipeIdeaSessionsT _) as [session|e] eqn:Er; [|discriminate].
      apply read_returned in Er. destruct Er as [-> _].
      destruct (length _ =? 0)%nat eqn:E; [discriminate|].
      inversion H. subst w'. split; [reflexivity|].
      intros s Es _. inversion Es; subst s. clear Hne.
      destruct (filter (session_where (Some sid) u) (sessions (db w))) as [|r l] eqn:F;
        [discriminate|].
      assert (Hin : In r (filter (session_where (Some sid) u) (sessions (db w))))
        by (rewrite F; now left).
      apply filter_In in Hin. destruct Hin as [Hin Hm].
      apply session_where_true in Hm. destruct Hm as [Hi Hu].
      exists r. repeat split; assumption.
  - inversion H. split; [reflexivity|]. discriminate.
Qed.

Lemma check_session_frame (w w' : World) (u : User) (input : UpsertInput.t)
    (o : Outcome unit) :
  check_session input u w = (o, w') -> w' = w.
Proof.
  rewrite check_session_run. destruct (truthy_string _).
  - destruct (read RecipeIdeaSessionsT _) as [session|e];
      [destruct (length session =? 0)%nat|]; intros H; now inversion H.
  - intros H; now inversion H.
Qed.

Lemma nullish_uuid_run (rt : Runtime) (v : option string) (w : World) :
  exists rid n,
    nullish_uuid rt v w = (Returned rid, mkWorld (db w) n)
    /\ (uuid_next w <= n)%nat
    /\ child_id rt (uuid_next w) n v rid.
Proof.
  destruct v as [x|]; simpl.
  - exists x, (uuid_next w). destruct w; simpl. repeat split; auto.
  - exists (uuid_stream rt (uuid_next w)), (S (uuid_next w)).
    repeat split; auto. exists (uuid_next w). split; [lia | reflexivity].
Qed.

Lemma forallb_constant {R : Type} (f : R -> bool) (c : bool) (l : list R) :
  (forall r, f r = c) -> l <> [] -> forallb f l = c.
Proof.
  intros Hf. induction l as [|a [|b l] IH]; intros Hl; [contradiction| |].
  - simpl. rewrite Hf. apply andb_true_r.
  - change (forallb f (a :: b :: l)) with (f a && forallb f (b :: l)).
    rewrite IH by discriminate. rewrite Hf. now destruct c.
Qed.

(** The store refuses the update of a non-empty set of recipe rows exactly
    when the payload has a session reference that names no session. *)
Lemma update_refused (input : UpsertInput.t) (now : Z) (w : World)
    (l : list GeneratedRecipes.row) :
  l <> [] ->
  written (RecipeUpdateData.sessionId (recipeUpdateData input now))
  && negb (forallb (fun r => references_ok GeneratedRecipesT (db w)
                               (set_recipe (recipeUpdateData input now) r)) l)
  = session_missing input w.
Proof.
  intros Hl. unfold session_missing, recipeUpdateData; simpl.
  destruct (UpsertInput.sessionId input) as [sid|]; simpl; [|reflexivity].
  now rewrite (forallb_constant _ (session_exists (db w) sid) l).
Qed.

(** The update branch. *)
Lemma write_recipe_update (rt : Runtime) (input : UpsertInput.t) (u : User)
    (rid : string) (now : Z) (w : World) :
  UpsertInput.id input = Some rid -> rid <> EmptyString ->
  write_recipe rt input u rid now w =
    match read GeneratedRecipesT
            (filter (recipe_where (Some rid) u) (recipes (db w))) with
    | Threw e => (Threw e, w)
    | Returned existing =>
        if (length existing =? 0)%nat
        then (Threw (ActionError NOT_FOUND "Generated recipe not found."), w)
        else if session_missing input w
        then (Threw ForeignKeyViolation, w)
        else (Returned tt,
              mkWorld
                (mkDb (sessions (db w))
                   (map (fun r => if recipe_where (Some rid) u r
                                  then set_recipe (recipeUpdateData input now) r
                                  else r)
                      (recipes (db w)))
                   (ingredients (db w)) (steps (db w)))
                (uuid_next w))
    end.
Proof.
  intros E Hne. unfold write_recipe. rewrite E.
  assert (Ht : truthy_string (Some rid) = true)
    by (simpl; apply negb_true_iff; now apply String.eqb_neq).
  rewrite Ht. unfold bind, db_select.
  destruct (read GeneratedRecipesT _) as [existing|e] eqn:Er; [|reflexivity].
  apply read_returned in Er. destruct Er as [-> _].
  destruct (length _ =? 0)%nat eqn:El; [reflexivity|].
  unfold db_update. cbv zeta. cbn [rows GeneratedRecipesT] in *.
  rewrite update_refused.
  - now destruct (session_missing input w).
  - intros F. rewrite F in El. discriminate.
Qed.

(** The insert branch: taken when the identifier is absent, and also when
    it is the empty string. *)
Lemma write_recipe_insert (rt : Runtime) (input : UpsertInput.t) (u : User)
    (rid : string) (now : Z) (w : World) :
  truthy_string (UpsertInput.id input) = false ->
  write_recipe rt input u rid now w =
    if has_key GeneratedRecipesT rid (recipes (db w))
    then (Threw UniqueViolation, w)
    else if session_missing input w
    then (Threw ForeignKeyViolation, w)
    else (Returned tt,
          mkWorld
            (mkDb (sessions (db w)) (recipes (db w) ++ [new_recipe input u rid now])%list
               (ingredients (db w)) (steps (db w)))
            (uuid_next w)).
Proof.
  intros E. unfold write_recipe. rewrite E. unfold db_insert; simpl.
  destruct (has_key GeneratedRecipesT rid (recipes (db w))); [reflexivity|].
  unfold session_missing.
  destruct (UpsertInput.sessionId input) as [sid|]; [|reflexivity].
  now destruct (session_exists (db w) sid).
Qed.

(** A recipe stage that throws has written nothing. *)
Lemma write_recipe_threw (rt : Runtime) (input : UpsertInput.t) (u : User)
    (rid : string) (now : Z) (w w' : World) (e : Exn) :
  write_recipe rt input u rid now w = (Threw e, w') -> w' = w.
Proof.
  unfold write_recipe. destruct (truthy_string _).
  - unfold bind, db_select, db_update; simpl.
    destruct (read GeneratedRecipesT _) as [existing|e'];
      [destruct (length existing =? 0)%nat; [|destruct (_ && _)] |];
      intros H; now inversion H.
  - unfold db_insert. destruct (insert_refused _ _ _ _);
      intros H; now inversion H.
Qed.

(** An update branch that returns found a row of the caller and rewrote the
    caller's rows under the identifier. *)
Lemma write_recipe_updated (rt : Runtime) (input : UpsertInput.t) (u : User)
    (rid : string) (now : Z) (w w' : World) :
  UpsertInput.id input = Some rid -> rid <> EmptyString ->
  write_recipe rt input u rid now w = (Returned tt, w') ->
  session_missing input w = false
  /\ forallb (readable GeneratedRecipesT)
       (filter (recipe_where (Some rid) u) (recipes (db w))) = true
  /\ (exists r0, In r0 (recipes (db w)) /\ recipe_where (Some rid) u r0 = true)
  /\ w' = mkWorld
            (mkDb (sessions (db w))
               (map (fun r => if recipe_where (Some rid) u r
                              then set_recipe (recipeUpdateData input now) r
                              else r)
                  (recipes (db w)))
               (ingredients (db w)) (steps (db w)))
            (uuid_next w).
Proof.
  intros Ei Hne. rewrite (write_recipe_update rt input u rid now w Ei Hne).
  destruct (read GeneratedRecipesT _) as [existing|e] eqn:Er; [|discriminate].
  apply read_returned in Er. destruct Er as [-> Hread].
  destruct (filter (recipe_where (Some rid) u) (recipes (db w))) as [|r0 l] eqn:F;
    [discriminate|].
  cbn [length Nat.eqb].
  destruct (session_missing input w); [discriminate|].
  intros H. inversion H. split; [reflexivity|]. split; [exact Hread|].
  split; [|reflexivity].
  assert (Hin0 : In r0 (filter (recipe_where (Some rid) u) (recipes (db w))))
    by (rewrite F; now left).
  apply filter_In in Hin0. now exists r0.
Qed.

(** An insert branch that returns appended the new row, under an identifier
    no recipe row carried. *)
Lemma write_recipe_inserted (rt : Runtime) (input : UpsertInput.t) (u : User)
    (rid : string) (now : Z) (w w' : World) :
  truthy_string (UpsertInput.id input) = false ->
  write_recipe rt input u rid now w = (Returned tt, w') ->
  has_key GeneratedRecipesT rid (recipes (db w)) = false
  /\ session_missing input w = false
  /\ w' = mkWorld
            (mkDb (sessions (db w)) (recipes (db w) ++ [new_recipe input u rid now])%list
               (ingredients (db w)) (steps (db w)))
            (uuid_next w).
Proof.
  intros Et. rewrite (write_recipe_insert rt input u rid now w Et).
  destruct (has_key GeneratedRecipesT rid (recipes (db w))); [discriminate|].
  destruct (session_missing input w); [discriminate|].
  intros H. inversion H. repeat split.
Qed.

Lemma write_recipe_frame (rt : Runtime) (input : UpsertInput.t) (u : User)
    (rid : string) (now : Z) (w w' : World) (o : Outcome unit) :
  write_recipe rt input u rid now w = (o, w') ->
  sessions (db w') = sessions (db w)
  /\ ingredients (db w') = ingredients (db w)
  /\ steps (db w') = steps (db w)
  /\ uuid_next w' = uuid_next w.
Proof.
  unfold write_recipe. destruct (truthy_string _).
  - unfold bind, db_select, db_update; simpl.
    destruct (read GeneratedRecipesT _) as [existing|e];
      [destruct (length existing =? 0)%nat; [|destruct (_ && _)] |];
      intros H; inversion H; simpl; auto.
  - unfold db_insert. destruct (insert_refused _ _ _ _);
      intros H; inversion H; simpl; auto.
Qed.

Lemma child_id_widen (rt : Runtime) (lo hi lo' hi' : nat) (v : option string)
    (g : string) :
  (lo' <= lo)%nat -> (hi <= hi')%nat ->
  child_id rt lo hi v g -> child_id rt lo' hi' v g.
Proof.
  intros Hl Hh. destruct v as [x|]; simpl; [auto|].
  intros (n & Hn & E). exists n. split; [lia | assumption].
Qed.

(** The callbacks of the two [map]s differ in the columns they copy only:
    one script runs both, [supplied] being the input's identifier field. *)
Ltac child_rows rt supplied row_def made_def :=
  let w := fresh "w" in
  let i := fresh "i" in
  let l := fresh "l" in
  let IH := fresh "IH" in
  intros l w; revert w; induction l as [|i l IH]; intros w;
  [ exists [], (uuid_next w); destruct w; simpl; repeat split; auto
  | let g := fresh "g" in
    let n1 := fresh "n" in
    let E1 := fresh "E" in
    let L1 := fresh "L" in
    let C1 := fresh "C" in
    destruct (nullish_uuid_run rt (supplied i) w) as (g & n1 & E1 & L1 & C1);
    let rows := fresh "rows" in
    let n := fresh "n" in
    let E := fresh "E" in
    let L := fresh "L" in
    let F := fresh "F" in
    destruct (IH (mkWorld (db w) n1)) as (rows & n & E & L & F); simpl in *;
    eexists; exists n; split; [|split];
    [ unfold row_def, bind, ret in *; rewrite E1, E; reflexivity
    | lia
    | constructor;
      [ unfold made_def; simpl; repeat split;
        apply (child_id_widen rt (uuid_next w) n1); auto
      | eapply Forall2_impl; [|exact F];
        let a := fresh "a" in
        let b := fresh "b" in
        let Hc := fresh "Hc" in
        let Hrest := fresh "Hrest" in
        intros a b (Hc & Hrest); split; [|exact Hrest];
        apply (child_id_widen rt n1 n); auto ] ] ].

Lemma mapM_ingredient_row (rt : Runtime) (rid : string) (now : Z) :
  forall (l : list IngredientInput.t) (w : World),
  exists rows n,
    mapM (ingredient_row rt rid now) l w = (Returned rows, mkWorld (db w) n)
    /\ (uuid_next w <= n)%nat
    /\ Forall2 (ingredient_made rt rid now (uuid_next w) n) l rows.
Proof. child_rows rt IngredientInput.id ingredient_row ingredient_made. Qed.

Lemma mapM_step_row (rt : Runtime) (rid : string) (now : Z) :
  forall (l : list StepInput.t) (w : World),
  exists rows n,
    mapM (step_row rt rid now) l w = (Returned rows, mkWorld (db w) n)
    /\ (uuid_next w <= n)%nat
    /\ Forall2 (step_made rt rid now (uuid_next w) n) l rows.
Proof. child_rows rt StepInput.id step_row step_made. Qed.

(** Both child stages run the same way: the delete statement, then, for a
    non-empty array, the rows and the insert statement.  [finish] closes
    the goal once the final world is known. *)
Ltac child_stage stage field rows_lemma finish :=
  let l := fresh "l" in
  let H := fresh "H" in
  unfold stage; destruct field as [l|];
  [ unfold bind at 1; unfold db_delete at 1; simpl;
    destruct (0 <? length l)%nat eqn:?;
    [ let rows := fresh "rows" in
      let n := fresh "n" in
      let E := fresh "E" in
      let L := fresh "L" in
      let F := fresh "F" in
      match goal with
      | |- bind _ _ ?w1 = _ -> _ => destruct (rows_lemma l w1) as (rows & n & E & L & F)
      end;
      simpl in L, F; unfold bind; rewrite E; unfold db_insert;
      match goal with
      | |- context [insert_refused ?T ?d ?old rows] =>
          destruct (insert_refused T d old rows)
      end;
      intros H; inversion H; subst; simpl;
      finish rows F
    | destruct l; [|discriminate]; intros H; inversion H; subst; simpl;
      finish (@nil unit) I ]
  | intros H; inversion H; subst; repeat split; auto ].

Ltac frame_only rows F := auto.

Ltac rows_and_frame rows F :=
  repeat split; auto;
  first [ exists rows; split; [reflexivity | exact F]
        | eexists; split; [now rewrite app_nil_r | constructor] ].

Lemma replace_ingredients_returned (rt : Runtime) (input : UpsertInput.t)
    (rid : string) (now : Z) (w w' : World) :
  replace_ingredients rt input rid now w = (Returned tt, w') ->
  sessions (db w') = sessions (db w)
  /\ recipes (db w') = recipes (db w)
  /\ steps (db w') = steps (db w)
  /\ (uuid_next w <= uuid_next w')%nat
  /\ match UpsertInput.ingredients input with
     | Some l =>
         exists rows,
           ingredients (db w') = (other_ingredients rid (ingredients (db w)) ++ rows)%list
           /\ Forall2 (ingredient_made rt rid now (uuid_next w) (uuid_next w')) l rows
     | None => ingredients (db w') = ingredients (db w)
     end.
Proof.
  child_stage replace_ingredients (UpsertInput.ingredients input)
    (mapM_ingredient_row rt rid now) rows_and_frame.
Qed.

Lemma replace_steps_returned (rt : Runtime) (input : UpsertInput.t)
    (rid : string) (now : Z) (w w' : World) :
  replace_steps rt input rid now w = (Returned tt, w') ->
  sessions (db w') = sessions (db w)
  /\ recipes (db w') = recipes (db w)
  /\ ingredients (db w') = ingredients (db w)
  /\ (uuid_next w <= uuid_next w')%nat
  /\ match UpsertInput.steps input with
     | Some l =>
         exists rows,
           steps (db w') = (other_steps rid (steps (db w)) ++ rows)%list
           /\ Forall2 (step_made rt rid now (uuid_next w) (uuid_next w')) l rows
     | None => steps (db w') = steps (db w)
     end.
Proof.
  child_stage replace_steps (UpsertInput.steps input)
    (mapM_step_row rt rid now) rows_and_frame.
Qed.

(** The child stages touch neither the sessions nor the recipes, whatever
    their outcome. *)
Lemma replace_ingredients_frame (rt : Runtime) (input : UpsertInput.t)
    (rid : string) (now : Z) (w w' : World) (o : Outcome unit) :
  replace_ingredients rt input rid now w = (o, w') ->
  sessions (db w') = sessions (db w) /\ recipes (db w') = recipes (db w).
Proof.
  child_stage replace_ingredients (UpsertInput.ingredients input)
    (mapM_ingredient_row rt rid now) frame_only.
Qed.

Lemma replace_steps_frame (rt : Runtime) (input : UpsertInput.t)
    (rid : string) (now : Z) (w w' : World) (o : Outcome unit) :
  replace_steps rt input rid now w = (o, w') ->
  sessions (db w') = sessions (db w) /\ recipes (db w') = recipes (db w).
Proof.
  child_stage replace_steps (UpsertInput.steps input)
    (mapM_step_row rt rid now) frame_only.
Qed.

(** ** [upsertGeneratedRecipe], stage by stage *)

(** The call of a signed-in user, as the sequence of its stages. *)
Lemma upsertGeneratedRecipe_run (rt : Runtime) (input : UpsertInput.t) (u : User)
    (w : World) :
  upsertGeneratedRecipe rt input (signed_in u) w =
    match check_session input u w with
    | (Threw e, w1) => (Threw e, w1)
    | (Returned _, w1) =>
        match nullish_uuid rt (UpsertInput.id input) w1 with
        | (Threw e, w2) => (Threw e, w2)
        | (Returned recipeId, w2) =>
            match write_recipe rt input u recipeId (clock rt) w2 with
            | (Threw e, w3) => (Threw e, w3)
            | (Returned _, w3) =>
                match replace_ingredients rt input recipeId (clock rt) w3 with
                | (Threw e, w4) => (Threw e, w4)
                | (Returned _, w4) =>
                    match replace_steps rt input recipeId (clock rt) w4 with
                    | (Threw e, w5) => (Threw e, w5)
                    | (Returned _, w5) =>
                        (Returned (mkEnvelope true (mkIdData recipeId)), w5)
                    end
                end
            end
        end
    end.
Proof.
  unfold upsertGeneratedRecipe, bind. rewrite requireUser_signed_in.
  destruct (check_session input u w) as [[?|e] w1]; [|reflexivity].
  destruct (nullish_uuid rt _ w1) as [[rid|e] w2]; [|reflexivity].
  destruct (write_recipe rt input u rid (clock rt) w2) as [[?|e] w3]; [|reflexivity].
  destruct (replace_ingredients rt input rid (clock rt) w3) as [[?|e] w4]; [|reflexivity].
  destruct (replace_steps rt input rid (clock rt) w4) as [[?|e] w5]; reflexivity.
Qed.

Lemma upsertGeneratedRecipe_signed_in (rt : Runtime) (input : UpsertInput.t)
    (context : ActionAPIContext) (w w' : World) (resp : Envelope IdData) :
  upsertGeneratedRecipe rt input context w = (Returned resp, w') ->
  exists u, context = signed_in u.
Proof.
  intros H. destruct (requireUser context w) as [[u|e] w1] eqn:Eu.
  - apply requireUser_returned in Eu. now exists u.
  - unfold upsertGeneratedRecipe in H. rewrite (bind_threw _ _ _ _ _ Eu) in H.
    discriminate.
Qed.

(** A call that returns went through every stage. *)
Lemma upsertGeneratedRecipe_returned (rt : Runtime) (input : UpsertInput.t) (u : User)
    (w w' : World) (resp : Envelope IdData) :
  upsertGeneratedRecipe rt input (signed_in u) w = (Returned resp, w') ->
  exists rid w2 w3 w4,
    resp = mkEnvelope true (mkIdData rid)
    /\ session_check_passes w u input
    /\ nullish_uuid rt (UpsertInput.id input) w = (Returned rid, w2)
    /\ write_recipe rt input u rid (clock rt) w2 = (Returned tt, w3)
    /\ replace_ingredients rt input rid (clock rt) w3 = (Returned tt, w4)
    /\ replace_steps rt input rid (clock rt) w4 = (Returned tt, w').
Proof.
  rewrite upsertGeneratedRecipe_run.
  destruct (check_session input u w) as [[[]|e] w1] eqn:E1; [|discriminate].
  apply check_session_returned in E1. destruct E1 as [-> Hs].
  destruct (nullish_uuid rt _ w) as [[rid|e] w2] eqn:E2; [|discriminate].
  destruct (write_recipe rt input u rid (clock rt) w2) as [[[]|e] w3] eqn:E3;
    [|discriminate].
  destruct (replace_ingredients rt input rid (clock rt) w3) as [[[]|e] w4] eqn:E4;
    [|discriminate].
  destruct (replace_steps rt input rid (clock rt) w4) as [[[]|e] w5] eqn:E5;
    [|discriminate].
  intros H. inversion H; subst resp w5. exists rid, w2, w3, w4. repeat split; auto.
Qed.

Lemma nullish_uuid_returned (rt : Runtime) (v : option string) (w w' : World)
    (rid : string) :
  nullish_uuid rt v w = (Returned rid, w') ->
  db w' = db w /\ (uuid_next w <= uuid_next w')%nat.
Proof.
  destruct (nullish_uuid_run rt v w) as (g & n & E & L & _).
  rewrite E. intros H. inversion H. split; [reflexivity | exact L].
Qed.

(** C5: after a call of [upsertGeneratedRecipe] that returns the recipe
    identifier [rid]: when the input has an [ingredients] array, the
    ingredient table is the prior rows of the other recipes followed by one
    new row per supplied ingredient, in order, each with the supplied
    identifier or else one drawn from the identifier stream during this
    call, with [recipeId = rid], [createdAt] now and the supplied columns;
    with an empty array no ingredient row of [rid] is left; with no array
    the ingredient table is as before.  The same holds of [steps] and the
    step table. *)
Theorem upsertGeneratedRecipe_replaces_children (rt : Runtime) (input : UpsertInput.t)
    (context : ActionAPIContext) (w w' : World) (resp : Envelope IdData) :
  upsertGeneratedRecipe rt input context w = (Returned resp, w') ->
  match UpsertInput.ingredients input with
  | Some l =>
      exists rows,
        ingredients (db w')
        = (other_ingredients (id (data resp)) (ingredients (db w)) ++ rows)%list
        /\ Forall2 (ingredient_made rt (id (data resp)) (clock rt)
                      (uuid_next w) (uuid_next w')) l rows
        /\ (l = [] ->
            forall r, In r (ingredients (db w')) ->
                      GeneratedRecipeIngredients.recipeId r <> id (data resp))
  | None => ingredients (db w') = ingredients (db w)
  end
  /\ match UpsertInput.steps input with
     | Some l =>
         exists rows,
           steps (db w')
           = (other_steps (id (data resp)) (steps (db w)) ++ rows)%list
           /\ Forall2 (step_made rt (id (data resp)) (clock rt)
                         (uuid_next w) (uuid_next w')) l rows
           /\ (l = [] ->
               forall r, In r (steps (db w')) ->
                         GeneratedRecipeSteps.recipeId r <> id (data resp))
     | None => steps (db w') = steps (db w)
     end.
Proof.
  intros H.
  destruct (upsertGeneratedRecipe_signed_in _ _ _ _ _ _ H) as [u ->].
  apply upsertGeneratedRecipe_returned in H.
  destruct H as (rid & w2 & w3 & w4 & -> & _ & E2 & E3 & E4 & E5). simpl.
  apply nullish_uuid_returned in E2. destruct E2 as [D2 L2].
  apply write_recipe_frame in E3. destruct E3 as (_ & I3 & S3 & N3).
  apply replace_ingredients_returned in E4.
  destruct E4 as (_ & _ & S4 & L4 & I4).
  apply replace_steps_returned in E5.
  destruct E5 as (_ & _ & I5 & L5 & S5).
  rewrite D2 in I3, S3. split.
  - destruct (UpsertInput.ingredients input) as [l|].
    + destruct I4 as (rows & Ei & F). exists rows. rewrite I5, Ei, I3.
      split; [reflexivity|]. split.
      * eapply Forall2_impl; [|exact F]. intros a b (Hc & Hrest).
        split; [|exact Hrest].
        apply (child_id_widen rt (uuid_next w3) (uuid_next w4)); [lia | lia | exact Hc].
      * intros -> r Hin. inversion F; subst rows. rewrite app_nil_r in Hin.
        apply filter_In in Hin. destruct Hin as [_ Hn].
        apply negb_true_iff, String.eqb_neq in Hn. exact Hn.
    + now rewrite I5, I4, I3.
  - destruct (UpsertInput.steps input) as [l|].
    + destruct S5 as (rows & Es & F). exists rows. rewrite Es, S4, S3.
      split; [reflexivity|]. split.
      * eapply Forall2_impl; [|exact F]. intros a b (Hc & Hrest).
        split; [|exact Hrest].
        apply (child_id_widen rt (uuid_next w4) (uuid_next w')); [lia | lia | exact Hc].
      * intros -> r Hin. inversion F; subst rows. rewrite app_nil_r in Hin.
        apply filter_In in Hin. destruct Hin as [_ Hn].
        apply negb_true_iff, String.eqb_neq in Hn. exact Hn.
    + now rewrite S5, S4, S3.
Qed.

(** Alice's update replaces the two ingredients and the step of her first
    recipe; bob's rows stay. *)
Lemma upsertGeneratedRecipe_replaces_children_witness :
  (exists rows,
     ingredients (db (snd (upsertGeneratedRecipe sample_runtime sample_update
                             (signed_in alice) sample_world)))
     = (other_ingredients "r-alice-1" (ingredients (db sample_world)) ++ rows)%list
     /\ Forall2 (ingredient_made sample_runtime "r-alice-1" 1700000000000 0 1)
          [ IngredientInput.mk None (Some 0) "lemon" (Some "1") None;
            IngredientInput.mk (Some "i-9") None "pasta" None None ] rows
     /\ ([ IngredientInput.mk None (Some 0) "lemon" (Some "1") None;
           IngredientInput.mk (Some "i-9") None "pasta" None None ] = [] ->
         forall r,
           In r (ingredients (db (snd (upsertGeneratedRecipe sample_runtime sample_update
                                         (signed_in alice) sample_world)))) ->
           GeneratedRecipeIngredients.recipeId r <> "r-alice-1"))
  /\ (exists rows,
        steps (db (snd (upsertGeneratedRecipe sample_runtime sample_update
                          (signed_in alice) sample_world)))
        = (other_steps "r-alice-1" (steps (db sample_world)) ++ rows)%list
        /\ Forall2 (step_made sample_runtime "r-alice-1" 1700000000000 0 1) [] rows
        /\ (@nil StepInput.t = [] ->
            forall r,
              In r (steps (db (snd (upsertGeneratedRecipe sample_runtime sample_update
                                      (signed_in alice) sample_world)))) ->
              GeneratedRecipeSteps.recipeId r <> "r-alice-1")).
Proof.
  exact (upsertGeneratedRecipe_replaces_children sample_runtime sample_update
           (signed_in alice) sample_world
           (snd (upsertGeneratedRecipe sample_runtime sample_update
                   (signed_in alice) sample_world))
           (mkEnvelope true (mkIdData "r-alice-1")) eq_refl).
Defined.

(** The tables after alice's update, row by row. *)
Example sample_update_children :
  ingredients (db (snd (upsertGeneratedRecipe sample_runtime sample_update
                          (signed_in alice) sample_world)))
  = [ sample_ingredient "i-3" "r-bob-1" "rice";
      {| GeneratedRecipeIngredients.id := "a-0000";
         GeneratedRecipeIngredients.recipeId := "r-alice-1";
         GeneratedRecipeIngredients.orderIndex := Some 0;
         GeneratedRecipeIngredients.name := "lemon";
         GeneratedRecipeIngredients.quantity := Some "1";
         GeneratedRecipeIngredients.notes := None;
         GeneratedRecipeIngredients.createdAt := 1700000000000 |};
      {| GeneratedRecipeIngredients.id := "i-9";
         GeneratedRecipeIngredients.recipeId := "r-alice-1";
         GeneratedRecipeIngredients.orderIndex := None;
         GeneratedRecipeIngredients.name := "pasta";
         GeneratedRecipeIngredients.quantity := None;
         GeneratedRecipeIngredients.notes := None;
         GeneratedRecipeIngredients.createdAt := 1700000000000 |} ]
  /\ steps (db (snd (upsertGeneratedRecipe sample_runtime sample_update
                       (signed_in alice) sample_world)))
     = [ sample_step "t-2" "r-bob-1" 1 "Wash the rice" ].
Proof. split; reflexivity. Qed.

Lemma session_exists_true (d : Db) (k : string) :
  session_exists d k = true
  <-> exists s, In s (sessions d) /\ RecipeIdeaSessions.id s = k.
Proof.
  unfold session_exists. rewrite existsb_exists.
  split; intros (s & Hin & E); exists s; (split; [exact Hin|]);
    now apply String.eqb_eq.
Qed.

Lemma recipe_exists_true (d : Db) (k : string) :
  recipe_exists d k = true
  <-> exists r, In r (recipes d) /\ GeneratedRecipes.id r = k.
Proof.
  unfold recipe_exists. rewrite existsb_exists.
  split; intros (s & Hin & E); exists s; (split; [exact Hin|]);
    now apply String.eqb_eq.
Qed.

(** A session reference that the session check has looked up names a
    session of the store. *)
Lemma checked_session_exists (input : UpsertInput.t) (u : User) (w : World) :
  session_checked input = true -> session_check_passes w u input ->
  session_missing input w = false.
Proof.
  unfold session_checked, session_check_passes, session_missing.
  destruct (UpsertInput.sessionId input) as [sid|]; [|reflexivity].
  intros Hc Hs. apply negb_true_iff, String.eqb_neq in Hc.
  destruct (Hs sid eq_refl Hc) as (s & Hin & Hid & _).
  apply negb_false_iff, session_exists_true. now exists s.
Qed.





Lemma sample_update_on_update_path :
  session_check_passes sample_world alice sample_update
  /\ owns_recipe sample_world alice "r-alice-1".
Proof.
  split.
  - intros sid E. discriminate.
  - exists (sample_recipe "r-alice-1" "alice" (Some "s-alice-1") true 40).
    simpl. auto.
Qed.



(** ** The empty string as an identifier *)

(** C1 at the empty identifier: on an empty store, alice's upsert with the
    empty string as [id] does not throw NOT_FOUND; it inserts a recipe row
    whose identifier is the empty string; no identifier is drawn. *)
Theorem upsertGeneratedRecipe_empty_id_inserts :
  upsertGeneratedRecipe sample_runtime (sample_create (Some EmptyString) None)
    (signed_in alice) empty_world
  = (Returned (mkEnvelope true (mkIdData EmptyString)),
     {| db :=
          {| sessions := [];
             recipes :=
               [ {| GeneratedRecipes.id := EmptyString;
                    GeneratedRecipes.sessionId := None;
                    GeneratedRecipes.userId := "alice";
                    GeneratedRecipes.title := "Soup";
                    GeneratedRecipes.description := None;
                    GeneratedRecipes.cuisine := None;
                    GeneratedRecipes.mealType := None;
                    GeneratedRecipes.tags := None;
                    GeneratedRecipes.servings := None;
                    GeneratedRecipes.prepTimeMinutes := None;
                    GeneratedRecipes.cookTimeMinutes := None;
                    GeneratedRecipes.notes := None;
                    GeneratedRecipes.isFavorite := false;
                    GeneratedRecipes.createdAt := 1700000000000;
                    GeneratedRecipes.updatedAt := 1700000000000 |} ];
             ingredients := [];
             steps := [] |};
        uuid_next := 0 |}).
Proof. reflexivity. Qed.

(** C2 at the empty session reference: on an empty store, alice's upsert
    with the empty string as [sessionId] does not throw NOT_FOUND: the
    session check is skipped, an identifier is drawn, and the insert
    statement carries the empty string as session reference; the store
    refuses it, there being no session with that identifier, and it is the
    store's error that the call throws.  No row is written. *)
Theorem upsertGeneratedRecipe_empty_sessionId_unchecked :
  check_session (sample_create None (Some EmptyString)) alice empty_world
  = (Returned tt, empty_world)
  /\ upsertGeneratedRecipe sample_runtime (sample_create None (Some EmptyString))
       (signed_in alice) empty_world
     = (Threw ForeignKeyViolation, {| db := db empty_world; uuid_next := 1 |})
  /\ GeneratedRecipes.sessionId
       (new_recipe (sample_create None (Some EmptyString)) alice "a-0000" 1700000000000)
     = Some EmptyString
  /\ ~ owns_session empty_world alice EmptyString
  /\ upsertGeneratedRecipe sample_runtime (sample_create None (Some "s-nobody"))
       (signed_in alice) empty_world
     = (Threw (ActionError NOT_FOUND "Linked recipe idea session not found."),
        empty_world).
Proof.
  repeat split. intros (s & [] & _).
Qed.

(** C7 at the empty session reference: alice owns no session with the
    empty identifier, yet her update with the empty string as [sessionId]
    does not throw NOT_FOUND: the session check is skipped, her recipe row
    is found, and the update statement carries the empty string as session
    reference; the store refuses it and it is the store's error that the
    call throws.  The world is as it was.  With an identifier of no session
    that is not the empty string, the same call throws NOT_FOUND. *)
Theorem upsertGeneratedRecipe_empty_sessionId_store_error :
  ~ owns_session sample_world alice EmptyString
  /\ check_session sample_update_unlinked alice sample_world
     = (Returned tt, sample_world)
  /\ upsertGeneratedRecipe sample_runtime sample_update_unlinked
       (signed_in alice) sample_world
     = (Threw ForeignKeyViolation, sample_world)
  /\ RecipeUpdateData.sessionId (recipeUpdateData sample_update_unlinked 1700000000000)
     = Some (Some EmptyString)
  /\ upsertGeneratedRecipe sample_runtime sample_update_foreign
       (signed_in alice) sample_world
     = (Threw (ActionError NOT_FOUND "Linked recipe idea session not found."),
        sample_world).
Proof.
  split; [|repeat split; reflexivity].
  intros (s & Hin & Hid & _). simpl in Hin.
  destruct Hin as [<-|[<-|[<-|[]]]]; discriminate.
Qed.

(** ** [upsertGeneratedRecipe] on identifiers that are not the empty string *)

Lemma has_key_false {R : Type} (T : Table R) (k : string) (l : list R) :
  has_key T k l = false <-> forall r, In r l -> pk T r <> k.
Proof.
  unfold has_key. induction l as [|a l IH]; simpl.
  - split; [intros _ r [] | reflexivity].
  - rewrite orb_false_iff, IH, String.eqb_neq. split.
    + intros [Ha Hl] r [<-|Hr]; auto.
    + intros H. split; [apply H; now left | intros r Hr; apply H; now right].
Qed.

Lemma set_recipe_id (d : RecipeUpdateData.t) (l : list GeneratedRecipes.row)
    (p : GeneratedRecipes.row -> bool) :
  map GeneratedRecipes.id (map (fun r => if p r then set_recipe d r else r) l)
  = map GeneratedRecipes.id l.
Proof.
  rewrite map_map. apply map_ext. intros r. now destruct (p r).
Qed.

(** The session check that fails stops the call before any statement. *)
Theorem upsertGeneratedRecipe_foreign_session (rt : Runtime) (input : UpsertInput.t)
    (u : User) (w : World) (sid : string) :
  UpsertInput.sessionId input = Some sid -> sid <> EmptyString ->
  ~ owns_session w u sid ->
  upsertGeneratedRecipe rt input (signed_in u) w
  = (Threw (ActionError NOT_FOUND "Linked recipe idea session not found."), w).
Proof.
  intros E Hne H. rewrite upsertGeneratedRecipe_run.
  now rewrite (check_session_fails w u input sid E Hne H).
Qed.

(** Alice names bob's session, on the create path and on the update path. *)
Lemma upsertGeneratedRecipe_foreign_session_witness :
  upsertGeneratedRecipe sample_runtime (sample_create None (Some "s-bob-1"))
    (signed_in alice) sample_world
  = (Threw (ActionError NOT_FOUND "Linked recipe idea session not found."), sample_world).
Proof.
  apply (upsertGeneratedRecipe_foreign_session sample_runtime
           (sample_create None (Some "s-bob-1")) alice sample_world "s-bob-1" eq_refl).
  - discriminate.
  - intros (s & Hin & Hid & Hu). simpl in Hin.
    destruct Hin as [<-|[<-|[<-|[]]]]; discriminate.
Defined.

(** With a non-empty identifier the call inserts no recipe row and removes
    none, whatever its outcome; when the session check has nothing to object
    to, the rows of the store hold safe integers and the caller owns no
    recipe with that identifier, it throws NOT_FOUND and leaves the world as
    it was. *)
Theorem upsertGeneratedRecipe_with_id (rt : Runtime) (input : UpsertInput.t)
    (u : User) (w : World) (rid : string) :
  UpsertInput.id input = Some rid -> rid <> EmptyString ->
  map GeneratedRecipes.id
    (recipes (db (snd (upsertGeneratedRecipe rt input (signed_in u) w))))
  = map GeneratedRecipes.id (recipes (db w))
  /\ (session_check_passes w u input -> store_readable w = true ->
      ~ owns_recipe w u rid ->
      upsertGeneratedRecipe rt input (signed_in u) w
      = (Threw (ActionError NOT_FOUND "Generated recipe not found."), w)).
Proof.
  intros Ei Hne. split.
  - rewrite upsertGeneratedRecipe_run.
    destruct (check_session input u w) as [[[]|e] w1] eqn:Ec;
      pose proof (check_session_frame _ _ _ _ _ Ec) as ->; [|reflexivity].
    rewrite Ei. simpl nullish_uuid. unfold ret.
    destruct (write_recipe rt input u rid (clock rt) w) as [o3 w3] eqn:E3.
    assert (R3 : map GeneratedRecipes.id (recipes (db w3))
                 = map GeneratedRecipes.id (recipes (db w))).
    { rewrite (write_recipe_update rt input u rid (clock rt) w Ei Hne) in E3.
      destruct (read GeneratedRecipesT _) as [existing|e];
        [destruct (length existing =? 0)%nat; [|destruct (session_missing input w)] |];
        inversion E3; subst o3 w3; try reflexivity.
      simpl. apply set_recipe_id. }
    destruct o3 as [[]|e]; [|exact R3].
    destruct (replace_ingredients rt input rid (clock rt) w3) as [[[]|e] w4] eqn:E4;
      apply replace_ingredients_frame in E4; destruct E4 as [_ R4].
    + destruct (replace_steps rt input rid (clock rt) w4) as [[[]|e] w5] eqn:E5;
        apply replace_steps_frame in E5; destruct E5 as [_ R5]; simpl;
        now rewrite R5, R4.
    + simpl. now rewrite R4.
  - intros Hs Hread Ho. rewrite upsertGeneratedRecipe_run.
    rewrite (check_session_passes _ _ _ Hs Hread). rewrite Ei. simpl nullish_uuid.
    unfold ret.
    rewrite (write_recipe_update rt input u rid (clock rt) w Ei Hne).
    apply recipe_lookup_empty in Ho. now rewrite Ho.
Qed.

(** Alice names bob's recipe: NOT_FOUND, the world as it was. *)
Lemma upsertGeneratedRecipe_with_id_witness :
  upsertGeneratedRecipe sample_runtime (sample_create (Some "r-bob-1") None)
    (signed_in alice) sample_world
  = (Threw (ActionError NOT_FOUND "Generated recipe not found."), sample_world).
Proof.
  assert (Hne : "r-bob-1" <> EmptyString) by discriminate.
  destruct (upsertGeneratedRecipe_with_id sample_runtime
              (sample_create (Some "r-bob-1") None) alice sample_world "r-bob-1"
              eq_refl Hne) as [_ H].
  apply H.
  - intros sid E. discriminate.
  - reflexivity.
  - intros (r & Hin & Hid & Hu). simpl in Hin.
    destruct Hin as [<-|[<-|[<-|[<-|[]]]]]; discriminate.
Defined.



Lemma truthy_string_true (s : option string) :
  truthy_string s = true <-> exists x, s = Some x /\ x <> EmptyString.
Proof.
  destruct s as [x|]; simpl.
  - rewrite negb_true_iff, String.eqb_neq. split.
    + intros H. now exists x.
    + intros (y & E & H). now inversion E.
  - split; [discriminate | intros (y & E & _); discriminate].
Qed.

(** A call that returns on a non-empty session reference was made by a user
    who owns that session, and it leaves every recipe row with the returned
    identifier and that owner (there is one) referring to it. *)
Theorem upsertGeneratedRecipe_links_owned_session (rt : Runtime)
    (input : UpsertInput.t) (context : ActionAPIContext) (w w' : World)
    (resp : Envelope IdData) (sid : string) :
  upsertGeneratedRecipe rt input context w = (Returned resp, w') ->
  UpsertInput.sessionId input = Some sid -> sid <> EmptyString ->
  exists u,
    current_user context = Some u
    /\ owns_session w u sid
    /\ owns_session w' u sid
    /\ owns_recipe w' u (id (data resp))
    /\ forall r, In r (recipes (db w')) ->
                 GeneratedRecipes.id r = id (data resp) ->
                 GeneratedRecipes.userId r = user_id u ->
                 GeneratedRecipes.sessionId r = Some sid.
Proof.
  intros H Es Hne.
  destruct (upsertGeneratedRecipe_signed_in _ _ _ _ _ _ H) as [u ->].
  apply upsertGeneratedRecipe_returned in H.
  destruct H as (rid & w2 & w3 & w4 & -> & Hs & E2 & E3 & E4 & E5). simpl.
  exists u. split; [reflexivity|].
  pose proof (Hs sid Es Hne) as Ho. split; [exact Ho|].
  pose proof (write_recipe_frame _ _ _ _ _ _ _ _ E3) as (S3 & _).
  apply replace_ingredients_returned in E4. destruct E4 as (S4 & R4 & _).
  apply replace_steps_returned in E5. destruct E5 as (S5 & R5 & _).
  pose proof (nullish_uuid_returned _ _ _ _ _ E2) as [D2 _].
  split.
  { destruct Ho as (s & Hin & Hi & Hu). exists s.
    rewrite S5, S4, S3, D2. repeat split; assumption. }
  unfold owns_recipe. rewrite R5, R4. clear S3 S4 S5 R4 R5.
  destruct (truthy_string (UpsertInput.id input)) eqn:Et.
  - apply truthy_string_true in Et. destruct Et as (x & Ex & Hx).
    rewrite Ex in E2. simpl in E2. unfold ret in E2. inversion E2; subst rid w2.
    apply (write_recipe_updated rt input u x (clock rt) w w3 Ex Hx) in E3.
    destruct E3 as (_ & _ & (r0 & Hin0 & Hm0) & ->). simpl.
    split.
    + exists (set_recipe (recipeUpdateData input (clock rt)) r0). split.
      * apply in_map_iff. exists r0. now rewrite Hm0.
      * apply recipe_where_true in Hm0. exact Hm0.
    + intros r Hin Hi Hu. apply in_map_iff in Hin. destruct Hin as (r1 & <- & _).
      destruct (recipe_where (Some x) u r1) eqn:Em.
      * unfold set_recipe, recipeUpdateData; simpl. now rewrite Es.
      * assert (recipe_where (Some x) u r1 = true)
          by (apply recipe_where_true; now split).
        congruence.
  - apply (write_recipe_inserted rt input u rid (clock rt) w2 w3 Et) in E3.
    destruct E3 as (Hk & _ & ->). simpl.
    rewrite has_key_false in Hk. split.
    + exists (new_recipe input u rid (clock rt)). split.
      * apply in_or_app. right. now left.
      * split; reflexivity.
    + intros r Hin Hi Hu. apply in_app_or in Hin. destruct Hin as [Hin|[<-|[]]].
      * exfalso. exact (Hk r Hin Hi).
      * exact Es.
Qed.

(** Alice creates a recipe in her first session: the new row refers to it. *)
Lemma upsertGeneratedRecipe_links_owned_session_witness :
  exists u,
    current_user (signed_in alice) = Some u
    /\ owns_session sample_world u "s-alice-1"
    /\ owns_session
         (snd (upsertGeneratedRecipe sample_runtime
                 (sample_create None (Some "s-alice-1")) (signed_in alice) sample_world))
         u "s-alice-1"
    /\ owns_recipe
         (snd (upsertGeneratedRecipe sample_runtime
                 (sample_create None (Some "s-alice-1")) (signed_in alice) sample_world))
         u "a-0000"
    /\ forall r,
         In r (recipes (db (snd (upsertGeneratedRecipe sample_runtime
                                   (sample_create None (Some "s-alice-1"))
                                   (signed_in alice) sample_world)))) ->
         GeneratedRecipes.id r = "a-0000" ->
         GeneratedRecipes.userId r = user_id u ->
         GeneratedRecipes.sessionId r = Some "s-alice-1".
Proof.
  assert (Hne : "s-alice-1" <> EmptyString) by discriminate.
  exact (upsertGeneratedRecipe_links_owned_session sample_runtime
           (sample_create None (Some "s-alice-1")) (signed_in alice) sample_world
           (snd (upsertGeneratedRecipe sample_runtime
                   (sample_create None (Some "s-alice-1")) (signed_in alice) sample_world))
           (mkEnvelope true (mkIdData "a-0000")) "s-alice-1" eq_refl eq_refl Hne).
Defined.

(** [updateRecipeIdeaSession] on a session the caller owns, in a store
    whose session rows hold safe integers, returns its identifier. *)
Theorem updateRecipeIdeaSession_owned_returns (rt : Runtime)
    (input : RecipeSessionInput.t) (u : User) (w : World) :
  owns_session w u (RecipeSessionInput.id input) ->
  store_readable w = true ->
  exists w',
    updateRecipeIdeaSession rt input (signed_in u) w
    = (Returned (mkEnvelope true (mkIdData (RecipeSessionInput.id input))), w').
Proof.
  intros Ho Hread. rewrite updateRecipeIdeaSession_run.
  rewrite (store_readable_sessions w _ Hread).
  destruct (length _ =? 0)%nat eqn:E.
  - apply length_eqb_0, session_lookup_empty in E. contradiction.
  - eexists. reflexivity.
Qed.

Lemma updateRecipeIdeaSession_owned_returns_witness :
  exists w',
    updateRecipeIdeaSession sample_runtime
      (RecipeSessionInput.mk "s-alice-2" None None None None (Some 4))
      (signed_in alice) sample_world
    = (Returned (mkEnvelope true (mkIdData "s-alice-2")), w').
Proof.
  apply (updateRecipeIdeaSession_owned_returns sample_runtime
           (RecipeSessionInput.mk "s-alice-2" None None None None (Some 4))
           alice sample_world).
  - exists (sample_session "s-alice-2" "alice" 10). simpl. auto.
  - reflexivity.
Defined.

(** ** [createRecipeIdeaSession] *)

(** When the drawn identifier is carried by no session row, the call of a
    signed-in user appends one session row under it, owned by the caller,
    holding the input's fields and both timestamps now, and returns it. *)
Theorem createRecipeIdeaSession_inserts (rt : Runtime) (input : NewSessionInput.t)
    (u : User) (w : World) :
  (forall s, In s (sessions (db w)) ->
             RecipeIdeaSessions.id s <> uuid_stream rt (uuid_next w)) ->
  createRecipeIdeaSession rt input (signed_in u) w
  = (Returned (mkEnvelope true (mkIdData (uuid_stream rt (uuid_next w)))),
     {| db :=
          {| sessions :=
               (sessions (db w)
                ++ [ {| RecipeIdeaSessions.id := uuid_stream rt (uuid_next w);
                        RecipeIdeaSessions.userId := user_id u;
                        RecipeIdeaSessions.title := NewSessionInput.title input;
                        RecipeIdeaSessions.prompt := NewSessionInput.prompt input;
                        RecipeIdeaSessions.cuisinePreference :=
                          NewSessionInput.cuisinePreference input;
                        RecipeIdeaSessions.dietaryPreference :=
                          NewSessionInput.dietaryPreference input;
                        RecipeIdeaSessions.servingCount :=
                          NewSessionInput.servingCount input;
                        RecipeIdeaSessions.createdAt := clock rt;
                        RecipeIdeaSessions.updatedAt := clock rt |} ])%list;
             recipes := recipes (db w);
             ingredients := ingredients (db w);
             steps := steps (db w) |};
        uuid_next := S (uuid_next w) |}).
Proof.
  intros Hfresh. apply (has_key_false RecipeIdeaSessionsT) in Hfresh.
  unfold createRecipeIdeaSession, bind. rewrite requireUser_signed_in.
  unfold randomUUID, db_insert. simpl. simpl in Hfresh. rewrite Hfresh. reflexivity.
Qed.

(** Bob opens a session; alice's list does not change, bob's list gains it. *)
Lemma createRecipeIdeaSession_inserts_witness :
  fst (createRecipeIdeaSession sample_runtime
         (NewSessionInput.mk (Some "Brunch") None None None None)
         (signed_in bob) sample_world)
  = Returned (mkEnvelope true (mkIdData "a-0000"))
  /\ map RecipeIdeaSessions.id
       (sessions (db (snd (createRecipeIdeaSession sample_runtime
                             (NewSessionInput.mk (Some "Brunch") None None None None)
                             (signed_in bob) sample_world))))
     = [ "s-alice-1"; "s-bob-1"; "s-alice-2"; "a-0000" ].
Proof.
  rewrite (createRecipeIdeaSession_inserts sample_runtime
             (NewSessionInput.mk (Some "Brunch") None None None None) bob sample_world).
  - split; reflexivity.
  - simpl. intros s [<-|[<-|[<-|[]]]]; discriminate.
Defined.

(** ** The identity gate in front of every handler *)

Lemma requireUser_anonymous (context : ActionAPIContext) (w : World) :
  current_user context = None -> requireUser context w = (Threw unauthorized, w).
Proof.
  destruct context as [[[[v|]]|]]; unfold current_user; simpl; intros E;
    [discriminate | reflexivity | reflexivity].
Qed.

(** The gate throws before the first statement of a handler. *)
Lemma anonymous_calls_throw (rt : Runtime) (context : ActionAPIContext) (w : World) :
  current_user context = None ->
  (forall input,
     createRecipeIdeaSession rt input context w = (Threw unauthorized, w))
  /\ (forall input,
        updateRecipeIdeaSession rt input context w = (Threw unauthorized, w))
  /\ (forall input,
        listRecipeIdeaSessions rt input context w = (Threw unauthorized, w))
  /\ (forall input,
        upsertGeneratedRecipe rt input context w = (Threw unauthorized, w))
  /\ (forall input,
        listGeneratedRecipes rt input context w = (Threw unauthorized, w)).
Proof.
  intros H. apply (requireUser_anonymous context w) in H.
  repeat split; intros input.
  - unfold createRecipeIdeaSession. now apply bind_threw.
  - unfold updateRecipeIdeaSession. now apply bind_threw.
  - unfold listRecipeIdeaSessions. now apply bind_threw.
  - unfold upsertGeneratedRecipe. now apply bind_threw.
  - unfold listGeneratedRecipes. now apply bind_threw.
Qed.

(** With no user in the request context, each of the five handlers throws
    UNAUTHORIZED and leaves the world as it was, whatever the input. *)
Theorem handlers_require_user (rt : Runtime) (context : ActionAPIContext) (w : World) :
  current_user context = None ->
  (forall input,
     createRecipeIdeaSession rt input context w = (Threw unauthorized, w))
  /\ (forall input,
        updateRecipeIdeaSession rt input context w = (Threw unauthorized, w))
  /\ (forall input,
        listRecipeIdeaSessions rt input context w = (Threw unauthorized, w))
  /\ (forall input,
        upsertGeneratedRecipe rt input context w = (Threw unauthorized, w))
  /\ (forall input,
        listGeneratedRecipes rt input context w = (Threw unauthorized, w)).
Proof. intros H. exact (anonymous_calls_throw rt context w H). Qed.

(** A context without [locals], and one whose [locals] hold no user. *)
Lemma handlers_require_user_witness :
  upsertGeneratedRecipe sample_runtime sample_update (mkContext None) sample_world
  = (Threw unauthorized, sample_world)
  /\ listGeneratedRecipes sample_runtime (ListRecipesInput.mk 1 20 None None)
       (mkContext (Some (mkLocals None))) sample_world
     = (Threw unauthorized, sample_world).
Proof.
  split.
  - apply (handlers_require_user sample_runtime (mkContext None) sample_world eq_refl).
  - apply (handlers_require_user sample_runtime (mkContext (Some (mkLocals None)))
             sample_world eq_refl).
Defined.

(** Every context is that of a signed-in user or has no user. *)
Lemma context_cases (context : ActionAPIContext) :
  (exists u, context = signed_in u) \/ current_user context = None.
Proof.
  destruct (current_user context) as [u|] eqn:E.
  - left. exists u. now apply current_user_signed_in.
  - now right.
Qed.

(** ** Every handler call is a run of statements *)

Lemma run_one (c : bool) (v : User) (w w' : World) :
  statement c v w w' -> run c v w w'.
Proof. intros H. eapply run_step; [exact H | apply run_done]. Qed.

Lemma run_app (c : bool) (v : User) (w1 w2 w3 : World) :
  run c v w1 w2 -> run c v w2 w3 -> run c v w1 w3.
Proof.
  induction 1 as [|w w1 w2 Hs _ IH]; intros H3; [exact H3|].
  eapply run_step; [exact Hs | now apply IH].
Qed.

(** What holds at the start of a run and survives each statement holds at
    its end. *)
Lemma run_invariant (c : bool) (v : User) (P : World -> Prop) :
  (forall w w', statement c v w w' -> P w -> P w') ->
  forall w w', run c v w w' -> P w -> P w'.
Proof.
  intros Hstep w w'. induction 1 as [|w w1 w2 Hs _ IH]; intros Hw; [exact Hw|].
  apply IH. exact (Hstep _ _ Hs Hw).
Qed.

Lemma set_session_key (d : SessionUpdateData.t)
    (r : RecipeIdeaSessions.row) :
  session_key (set_session d r) = session_key r.
Proof. reflexivity. Qed.

Lemma set_recipe_key (d : RecipeUpdateData.t) (r : GeneratedRecipes.row) :
  recipe_key (set_recipe d r) = recipe_key r.
Proof. reflexivity. Qed.

(** ** What the store refuses of an insert *)

Lemma has_key_app {R : Type} (T : Table R) (k : string) (l l' : list R) :
  has_key T k (l ++ l') = has_key T k l || has_key T k l'.
Proof. unfold has_key. apply existsb_app. Qed.

Lemma keys_free_snoc {R : Type} (T : Table R) (old new : list R) (r : R) :
  keys_free T (old ++ [r]) new
  = keys_free T old new && negb (has_key T (pk T r) new).
Proof.
  induction new as [|x new IH]; [reflexivity|].
  cbn [keys_free]. rewrite IH, has_key_app. unfold has_key. cbn [existsb].
  rewrite (String.eqb_sym (pk T x) (pk T r)).
  destruct (pk T r =? pk T x)%string;
    repeat match goal with
           | |- context [existsb ?f ?l] => destruct (existsb f l)
           end;
    destruct (keys_free T old new); reflexivity.
Qed.

(** Rows the store accepts repeat no primary key, and what they reference
    is there. *)
Lemma insert_refused_none {R : Type} (T : Table R) (d : Db) (new old : list R) :
  insert_refused T d old new = None ->
  keys_free T old new = true /\ forallb (references_ok T d) new = true.
Proof.
  revert old. induction new as [|r new IH]; intros old; [now split|].
  cbn [insert_refused keys_free forallb].
  destruct (has_key T (pk T r) old); [discriminate|].
  destruct (references_ok T d r); [|discriminate].
  intros H. destruct (IH _ H) as [K F]. rewrite keys_free_snoc in K.
  apply andb_true_iff in K. destruct K as [K1 K2]. now rewrite K1, K2, F.
Qed.

(** When what the rows reference is there, the store refuses them for a
    repeated primary key only. *)
Lemma insert_refused_keys {R : Type} (T : Table R) (d : Db) (new old : list R) :
  forallb (references_ok T d) new = true ->
  insert_refused T d old new
  = if keys_free T old new then None else Some UniqueViolation.
Proof.
  revert old. induction new as [|r new IH]; intros old; [reflexivity|].
  cbn [insert_refused keys_free forallb]. rewrite andb_true_iff. intros [Hr F].
  rewrite Hr. destruct (has_key T (pk T r) old); [reflexivity|].
  rewrite (IH _ F), keys_free_snoc. cbn [negb andb].
  destruct (has_key T (pk T r) new), (keys_free T old new); reflexivity.
Qed.

Lemma createRecipeIdeaSession_runs (c : bool) (rt : Runtime) (input : NewSessionInput.t)
    (v : User) (w w' : World) (o : Outcome (Envelope IdData)) :
  createRecipeIdeaSession rt input (signed_in v) w = (o, w') -> run c v w w'.
Proof.
  unfold createRecipeIdeaSession, bind. rewrite requireUser_signed_in.
  unfold randomUUID, db_insert. cbv zeta. cbn [db uuid_next rows RecipeIdeaSessionsT].
  destruct (insert_refused RecipeIdeaSessionsT _ _ _) eqn:K; intros H; inversion H; subst.
  - apply run_one. now apply st_same.
  - apply insert_refused_none in K. destruct K as [K _].
    apply run_one. eapply st_insert_session; [| exact K | reflexivity]. reflexivity.
Qed.

Lemma updateRecipeIdeaSession_runs (c : bool) (rt : Runtime)
    (input : RecipeSessionInput.t) (v : User) (w w' : World)
    (o : Outcome (Envelope IdData)) :
  updateRecipeIdeaSession rt input (signed_in v) w = (o, w') -> run c v w w'.
Proof.
  rewrite updateRecipeIdeaSession_run.
  destruct (read RecipeIdeaSessionsT _) as [existing|e];
    [destruct (length existing =? 0)%nat|]; intros H; inversion H; subst.
  - apply run_done.
  - apply run_one.
    apply (st_update_sessions c v w _
             (session_where (Some (RecipeSessionInput.id input)) v)
             (set_session (sessionUpdateData input (clock rt)))).
    + intros r Hr. now apply session_where_true in Hr.
    + intros r. apply set_session_key.
    + reflexivity.
  - apply run_done.
Qed.

(** The recipe stage is one statement, after which, when it returns, the
    store holds a recipe under the identifier the call works on. *)
Lemma write_recipe_step (rt : Runtime) (input : UpsertInput.t) (v : User)
    (rid : string) (now : Z) (w w' : World) (o : Outcome unit) :
  session_check_passes w v input ->
  (forall x, UpsertInput.id input = Some x -> rid = x) ->
  write_recipe rt input v rid now w = (o, w') ->
  statement (session_checked input) v w w'
  /\ (o = Returned tt -> has_recipe w' rid).
Proof.
  intros Hs Hid E. destruct o as [[]|e].
  2:{ apply write_recipe_threw in E. subst w'.
      split; [now apply st_same | discriminate]. }
  destruct (truthy_string (UpsertInput.id input)) eqn:Et.
  - apply truthy_string_true in Et. destruct Et as (x & Ex & Hx).
    pose proof (Hid x Ex) as Hrx. subst x.
    apply (write_recipe_updated rt input v rid now w w' Ex Hx) in E.
    destruct E as (_ & _ & (r0 & Hin0 & Hm0) & ->). split.
    + apply (st_update_recipes _ v w _ (recipe_where (Some rid) v)
               (set_recipe (recipeUpdateData input now))).
      * intros r Hr. now apply recipe_where_true in Hr.
      * intros r. apply set_recipe_key.
      * intros Hc r sid. unfold set_recipe, recipeUpdateData; simpl.
        unfold session_checked in Hc.
        destruct (UpsertInput.sessionId input) as [s|] eqn:Es; simpl.
        -- intros E. inversion E; subst s. right. apply Hs; [exact Es|].
           apply negb_true_iff, String.eqb_neq in Hc. exact Hc.
        -- now left.
      * reflexivity.
    + intros _. exists (set_recipe (recipeUpdateData input now) r0). split.
      * simpl. apply in_map_iff. exists r0. now rewrite Hm0.
      * apply recipe_where_true in Hm0. apply Hm0.
  - apply (write_recipe_inserted rt input v rid now w w' Et) in E.
    destruct E as (K & _ & ->). split.
    + apply (st_insert_recipe _ v w _ (new_recipe input v rid now)).
      * reflexivity.
      * cbn [keys_free].
        change (pk GeneratedRecipesT (new_recipe input v rid now)) with rid.
        now rewrite K.
      * intros Hc sid E. simpl in E. unfold session_checked in Hc. rewrite E in Hc.
        apply Hs; [exact E|]. apply negb_true_iff, String.eqb_neq in Hc. exact Hc.
      * reflexivity.
    + intros _. exists (new_recipe input v rid now). split; [|reflexivity].
      simpl. apply in_or_app. right. now left.
Qed.

Lemma ingredient_made_recipeId (rt : Runtime) (rid : string) (now : Z) (lo hi : nat)
    (l : list IngredientInput.t) (new : list GeneratedRecipeIngredients.row) :
  Forall2 (ingredient_made rt rid now lo hi) l new ->
  Forall (fun r => GeneratedRecipeIngredients.recipeId r = rid) new.
Proof.
  induction 1 as [|i r l new Hm _ IH]; constructor; [|exact IH]. apply Hm.
Qed.

Lemma step_made_recipeId (rt : Runtime) (rid : string) (now : Z) (lo hi : nat)
    (l : list StepInput.t) (new : list GeneratedRecipeSteps.row) :
  Forall2 (step_made rt rid now lo hi) l new ->
  Forall (fun r => GeneratedRecipeSteps.recipeId r = rid) new.
Proof.
  induction 1 as [|i r l new Hm _ IH]; constructor; [|exact IH]. apply Hm.
Qed.

(** A child stage is a run of at most two statements, the delete and the
    insert; it leaves the recipes alone. *)
Lemma replace_ingredients_runs (c : bool) (rt : Runtime) (input : UpsertInput.t)
    (v : User) (rid : string) (now : Z) (w w' : World) (o : Outcome unit) :
  has_recipe w rid ->
  replace_ingredients rt input rid now w = (o, w') ->
  run c v w w' /\ has_recipe w' rid.
Proof.
  intros Hr. unfold replace_ingredients.
  destruct (UpsertInput.ingredients input) as [l|].
  - unfold bind at 1. unfold db_delete at 1. simpl.
    set (w1 := mkWorld _ _).
    assert (S1 : statement c v w w1) by (now apply (st_delete_ingredients c v w w1 rid)).
    assert (H1 : has_recipe w1 rid) by exact Hr.
    destruct (0 <? length l)%nat.
    + destruct (mapM_ingredient_row rt rid now l w1) as (new & n & E & _ & F).
      unfold bind. rewrite E. unfold db_insert. simpl db.
      destruct (insert_refused GeneratedRecipeIngredientsT _ _ new) eqn:K;
        intros H; inversion H; subst.
      * split; [|exact Hr].
        eapply run_step; [exact S1|]. apply run_one. now apply st_same.
      * apply insert_refused_none in K. destruct K as [K _].
        split; [|exact Hr].
        eapply run_step; [exact S1|]. apply run_one.
        apply (st_insert_ingredients c v w1 _ rid new); auto.
        apply (ingredient_made_recipeId _ _ _ _ _ _ _ F).
    + intros H. inversion H; subst. split; [now apply run_one | exact Hr].
  - intros H. inversion H; subst. split; [apply run_done | exact Hr].
Qed.

Lemma replace_steps_runs (c : bool) (rt : Runtime) (input : UpsertInput.t)
    (v : User) (rid : string) (now : Z) (w w' : World) (o : Outcome unit) :
  has_recipe w rid ->
  replace_steps rt input rid now w = (o, w') ->
  run c v w w' /\ has_recipe w' rid.
Proof.
  intros Hr. unfold replace_steps.
  destruct (UpsertInput.steps input) as [l|].
  - unfold bind at 1. unfold db_delete at 1. simpl.
    set (w1 := mkWorld _ _).
    assert (S1 : statement c v w w1) by (now apply (st_delete_steps c v w w1 rid)).
    assert (H1 : has_recipe w1 rid) by exact Hr.
    destruct (0 <? length l)%nat.
    + destruct (mapM_step_row rt rid now l w1) as (new & n & E & _ & F).
      unfold bind. rewrite E. unfold db_insert. simpl db.
      destruct (insert_refused GeneratedRecipeStepsT _ _ new) eqn:K;
        intros H; inversion H; subst.
      * split; [|exact Hr].
        eapply run_step; [exact S1|]. apply run_one. now apply st_same.
      * apply insert_refused_none in K. destruct K as [K _].
        split; [|exact Hr].
        eapply run_step; [exact S1|]. apply run_one.
        apply (st_insert_steps c v w1 _ rid new); auto.
        apply (step_made_recipeId _ _ _ _ _ _ _ F).
    + intros H. inversion H; subst. split; [now apply run_one | exact Hr].
  - intros H. inversion H; subst. split; [apply run_done | exact Hr].
Qed.

Lemma upsertGeneratedRecipe_runs (rt : Runtime) (input : UpsertInput.t)
    (v : User) (w w' : World) (o : Outcome (Envelope IdData)) :
  upsertGeneratedRecipe rt input (signed_in v) w = (o, w') ->
  run (session_checked input) v w w'.
Proof.
  rewrite upsertGeneratedRecipe_run.
  destruct (check_session input v w) as [[[]|e] w1] eqn:E1.
  2:{ apply check_session_frame in E1. intros H. inversion H; subst. apply run_done. }
  apply check_session_returned in E1. destruct E1 as [-> Hs].
  destruct (nullish_uuid_run rt (UpsertInput.id input) w) as (rid & n & E2 & _ & C2).
  rewrite E2.
  assert (Hid : forall x, UpsertInput.id input = Some x -> rid = x).
  { intros x Ex. rewrite Ex in C2. exact C2. }
  set (w2 := mkWorld (db w) n).
  assert (S2 : statement (session_checked input) v w w2) by (now apply st_same).
  destruct (write_recipe rt input v rid (clock rt) w2) as [o3 w3] eqn:E3.
  apply (write_recipe_step rt input v rid (clock rt) w2 w3 o3 Hs Hid) in E3.
  destruct E3 as [S3 H3].
  destruct o3 as [[]|e].
  2:{ intros H. inversion H; subst.
      eapply run_step; [exact S2|]. now apply run_one. }
  specialize (H3 eq_refl).
  destruct (replace_ingredients rt input rid (clock rt) w3) as [o4 w4] eqn:E4.
  apply (replace_ingredients_runs (session_checked input) rt input v rid _ _ _ _ H3) in E4.
  destruct E4 as [R4 H4].
  destruct o4 as [[]|e].
  2:{ intros H. inversion H; subst.
      eapply run_step; [exact S2|]. eapply run_step; [exact S3|]. exact R4. }
  destruct (replace_steps rt input rid (clock rt) w4) as [o5 w5] eqn:E5.
  apply (replace_steps_runs (session_checked input) rt input v rid _ _ _ _ H4) in E5.
  destruct E5 as [R5 _].
  assert (R : run (session_checked input) v w w5).
  { eapply run_step; [exact S2|]. eapply run_step; [exact S3|].
    eapply run_app; [exact R4 | exact R5]. }
  destruct o5 as [[]|e]; intros H; inversion H; subst; exact R.
Qed.

(** What holds after every run from [w] holds after every handler call
    made in [w]. *)
Lemma after_any_handler_run (rt : Runtime) (context : ActionAPIContext) (w : World)
    (P : World -> Prop) :
  (forall c v w', run c v w w' -> P w') -> after_any_handler rt context w P.
Proof.
  intros H.
  assert (Hw : P w) by exact (H true (mkUser EmptyString) w (run_done _ _ w)).
  destruct (context_cases context) as [[v ->]|Hn].
  - repeat split; intros input.
    + destruct (createRecipeIdeaSession rt input (signed_in v) w) as [o w'] eqn:E.
      exact (H true v w' (createRecipeIdeaSession_runs true _ _ _ _ _ _ E)).
    + destruct (updateRecipeIdeaSession rt input (signed_in v) w) as [o w'] eqn:E.
      exact (H true v w' (updateRecipeIdeaSession_runs true _ _ _ _ _ _ E)).
    + rewrite listRecipeIdeaSessions_run. exact Hw.
    + destruct (upsertGeneratedRecipe rt input (signed_in v) w) as [o w'] eqn:E.
      exact (H _ v w' (upsertGeneratedRecipe_runs _ _ _ _ _ _ E)).
    + rewrite listGeneratedRecipes_run. exact Hw.
  - destruct (anonymous_calls_throw rt context w Hn) as (H1 & H2 & H3 & H4 & H5).
    repeat split; intros input;
      [rewrite H1 | rewrite H2 | rewrite H3 | rewrite H4 | rewrite H5]; exact Hw.
Qed.

(** ** Primary keys stay unique *)

Section Keys.
Context {R : Type} (T : Table R).

Lemma has_key_In (k : string) (l : list R) :
  has_key T k l = false <-> ~ In k (map (pk T) l).
Proof.
  rewrite has_key_false. split.
  - intros H Hin. apply in_map_iff in Hin. destruct Hin as (r & E & Hr).
    exact (H r Hr E).
  - intros H r Hr E. apply H. apply in_map_iff. now exists r.
Qed.

Lemma keys_free_spec (old new : list R) :
  keys_free T old new = true ->
  NoDup (map (pk T) new) /\ forall k, In k (map (pk T) old) -> ~ In k (map (pk T) new).
Proof.
  induction new as [|r new IH]; simpl.
  - intros _. split; [constructor | intros k _ []].
  - rewrite !andb_true_iff, !negb_true_iff, !has_key_In.
    intros [[Ho Hn] Hf]. destruct (IH Hf) as [Hd Hdis]. split.
    + now constructor.
    + intros k Hk [<-|Hin]; [contradiction | exact (Hdis k Hk Hin)].
Qed.

Lemma keys_free_NoDup (old new : list R) :
  NoDup (map (pk T) old) -> keys_free T old new = true ->
  NoDup (map (pk T) (old ++ new)).
Proof.
  intros Hold Hf. destruct (keys_free_spec old new Hf) as [Hnew Hdis].
  rewrite map_app. now apply NoDup_app.
Qed.

Lemma filter_keys_NoDup (p : R -> bool) (l : list R) :
  NoDup (map (pk T) l) -> NoDup (map (pk T) (filter p l)).
Proof.
  induction l as [|r l IH]; simpl; intros H; [constructor|].
  inversion H as [|? ? Hn Hd]; subst. destruct (p r); simpl.
  - constructor; [|now apply IH]. intros Hin. apply Hn.
    apply in_map_iff in Hin. destruct Hin as (x & E & Hx).
    apply filter_In in Hx. apply in_map_iff. exists x. tauto.
  - now apply IH.
Qed.

Lemma update_keys (p : R -> bool) (f : R -> R) (l : list R) :
  (forall r, pk T (f r) = pk T r) ->
  map (pk T) (map (fun r => if p r then f r else r) l) = map (pk T) l.
Proof.
  intros H. rewrite map_map. apply map_ext. intros r. destruct (p r); auto.
Qed.

End Keys.

Lemma statement_keys_unique (c : bool) (v : User) (w w' : World) :
  statement c v w w' -> db_keys_unique w -> db_keys_unique w'.
Proof.
  unfold db_keys_unique, keys_unique.
  intros H (Hs & Hr & Hi & Ht).
  destruct H as [w w' E | w w' r _ K E | w w' p f _ Hk E | w w' r _ K _ E
                | w w' p f _ Hk _ E | w w' rid E | w w' rid new _ _ K E
                | w w' rid E | w w' rid new _ _ K E];
    rewrite E; simpl; repeat split; auto.
  - now apply (keys_free_NoDup RecipeIdeaSessionsT).
  - rewrite (update_keys RecipeIdeaSessionsT); [exact Hs|].
    intros r. specialize (Hk r). unfold session_key in Hk. simpl. congruence.
  - now apply (keys_free_NoDup GeneratedRecipesT).
  - rewrite (update_keys GeneratedRecipesT); [exact Hr|].
    intros r. specialize (Hk r). unfold recipe_key in Hk. simpl. congruence.
  - now apply (filter_keys_NoDup GeneratedRecipeIngredientsT).
  - now apply (keys_free_NoDup GeneratedRecipeIngredientsT).
  - now apply (filter_keys_NoDup GeneratedRecipeStepsT).
  - now apply (keys_free_NoDup GeneratedRecipeStepsT).
Qed.

(** In a store whose four primary keys are unique, they are still unique
    after any call of any of the five handlers, whatever the context, the
    input and the outcome of the call. *)
Theorem handlers_keep_keys_unique (rt : Runtime) (context : ActionAPIContext)
    (w : World) :
  db_keys_unique w -> after_any_handler rt context w db_keys_unique.
Proof.
  intros Hw. apply after_any_handler_run. intros c v w' Hrun.
  exact (run_invariant c v db_keys_unique (statement_keys_unique c v) w w' Hrun Hw).
Qed.

Lemma sample_world_keys_unique : db_keys_unique sample_world.
Proof.
  unfold db_keys_unique, keys_unique; simpl.
  repeat split;
    repeat (constructor; [simpl; intuition discriminate|]); constructor.
Qed.

(** Alice's update of her first recipe keeps the keys of the sample store
    unique. *)
Lemma handlers_keep_keys_unique_witness :
  db_keys_unique
    (snd (upsertGeneratedRecipe sample_runtime sample_update (signed_in alice)
            sample_world)).
Proof.
  apply (handlers_keep_keys_unique sample_runtime (signed_in alice) sample_world
           sample_world_keys_unique).
Defined.

(** ** No session or recipe row is removed, moved or given away *)

Lemma keeps_rows_refl (w w' : World) : db w' = db w -> keeps_rows w w'.
Proof.
  intros E. unfold keeps_rows. rewrite E.
  split; exists []; now rewrite app_nil_r.
Qed.

Lemma keeps_rows_trans (w1 w2 w3 : World) :
  keeps_rows w1 w2 -> keeps_rows w2 w3 -> keeps_rows w1 w3.
Proof.
  intros [[a Ha] [b Hb]] [[a' Ha'] [b' Hb']]. split.
  - exists (a ++ a')%list. now rewrite Ha', Ha, app_assoc.
  - exists (b ++ b')%list. now rewrite Hb', Hb, app_assoc.
Qed.

Lemma update_same_keys {R K : Type} (key : R -> K) (p : R -> bool) (f : R -> R)
    (l : list R) :
  (forall r, key (f r) = key r) ->
  map key (map (fun r => if p r then f r else r) l) = map key l.
Proof.
  intros H. rewrite map_map. apply map_ext. intros r. destruct (p r); auto.
Qed.

Lemma statement_keeps_rows (c : bool) (v : User) (w w' : World) :
  statement c v w w' -> keeps_rows w w'.
Proof.
  intros H.
  destruct H as [w w' E | w w' r _ _ E | w w' p f _ Hk E | w w' r _ _ _ E
                | w w' p f _ Hk _ E | w w' rid E | w w' rid new _ _ _ E
                | w w' rid E | w w' rid new _ _ _ E];
    try (now apply keeps_rows_refl); unfold keeps_rows; rewrite E; simpl.
  - split; [exists [session_key r]; now rewrite map_app
           | exists []; now rewrite app_nil_r].
  - split; [exists []; now rewrite app_nil_r, (update_same_keys session_key)
           | exists []; now rewrite app_nil_r].
  - split; [exists []; now rewrite app_nil_r
           | exists [recipe_key r]; now rewrite map_app].
  - split; [exists []; now rewrite app_nil_r
           | exists []; now rewrite app_nil_r, (update_same_keys recipe_key)].
  - split; exists []; now rewrite app_nil_r.
  - split; exists []; now rewrite app_nil_r.
  - split; exists []; now rewrite app_nil_r.
  - split; exists []; now rewrite app_nil_r.
Qed.

(** After any call of any handler, the session rows and the recipe rows
    the store held are still there, in the same order, each under the same
    identifier, owner and creation time; rows are only ever added after
    them.  No handler deletes a session or a recipe or hands it to another
    user. *)
Theorem handlers_keep_rows (rt : Runtime) (context : ActionAPIContext) (w : World) :
  after_any_handler rt context w (keeps_rows w).
Proof.
  apply after_any_handler_run. intros c v w' Hrun.
  apply (run_invariant c v (keeps_rows w)) with (w := w); [|exact Hrun|].
  - intros w1 w2 Hs Hk. exact (keeps_rows_trans _ _ _ Hk (statement_keeps_rows _ _ _ _ Hs)).
  - now apply keeps_rows_refl.
Qed.

(** ** No ingredient or step is left without its recipe *)

Lemma has_recipe_keeps (w w' : World) (rid : string) :
  keeps_rows w w' -> has_recipe w rid -> has_recipe w' rid.
Proof.
  intros [_ [more E]] (r & Hin & Hid).
  assert (Hk : In (recipe_key r) (map recipe_key (recipes (db w'))))
    by (rewrite E; apply in_or_app; left; now apply in_map).
  apply in_map_iff in Hk. destruct Hk as (r' & Ek & Hin').
  exists r'. split; [exact Hin'|]. unfold recipe_key in Ek. congruence.
Qed.

Lemma statement_no_orphans (c : bool) (v : User) (w w' : World) :
  statement c v w w' -> no_orphans w -> no_orphans w'.
Proof.
  intros H [Hi Ht].
  pose proof (statement_keeps_rows c v w w' H) as Hk.
  assert (Hold : (forall i, In i (ingredients (db w)) ->
                            has_recipe w' (GeneratedRecipeIngredients.recipeId i))
                 /\ (forall s, In s (steps (db w)) ->
                               has_recipe w' (GeneratedRecipeSteps.recipeId s))).
  { split; intros x Hx; apply (has_recipe_keeps w w' _ Hk); auto. }
  destruct Hold as [Hi' Ht'].
  destruct H as [w w' E | w w' r _ _ E | w w' p f _ _ E | w w' r _ _ _ E
                | w w' p f _ _ _ E | w w' rid E | w w' rid new Hr Hn _ E
                | w w' rid E | w w' rid new Hr Hn _ E];
    unfold no_orphans; rewrite E; simpl; split; auto.
  - intros i Hin. apply filter_In in Hin. now apply Hi'.
  - intros i Hin. apply in_app_or in Hin. destruct Hin as [Hin|Hin]; [now apply Hi'|].
    rewrite Forall_forall in Hn. rewrite (Hn i Hin).
    now apply (has_recipe_keeps w w' _ Hk).
  - intros s Hin. apply filter_In in Hin. now apply Ht'.
  - intros s Hin. apply in_app_or in Hin. destruct Hin as [Hin|Hin]; [now apply Ht'|].
    rewrite Forall_forall in Hn. rewrite (Hn s Hin).
    now apply (has_recipe_keeps w w' _ Hk).
Qed.

(** In a store where every ingredient row and every step row names a
    recipe row of the store, that is still so after any call of any
    handler, also when the call throws between two of its statements. *)
Theorem handlers_leave_no_orphans (rt : Runtime) (context : ActionAPIContext)
    (w : World) :
  no_orphans w -> after_any_handler rt context w no_orphans.
Proof.
  intros Hw. apply after_any_handler_run. intros c v w' Hrun.
  exact (run_invariant c v no_orphans (statement_no_orphans c v) w w' Hrun Hw).
Qed.

Lemma sample_world_no_orphans : no_orphans sample_world.
Proof.
  split; simpl; intros x Hx.
  - destruct Hx as [<-|[<-|[<-|[]]]]; simpl;
      [ exists (sample_recipe "r-alice-1" "alice" (Some "s-alice-1") true 40)
      | exists (sample_recipe "r-alice-1" "alice" (Some "s-alice-1") true 40)
      | exists (sample_recipe "r-bob-1" "bob" (Some "s-bob-1") true 35) ];
      simpl; auto.
  - destruct Hx as [<-|[<-|[]]]; simpl;
      [ exists (sample_recipe "r-alice-1" "alice" (Some "s-alice-1") true 40)
      | exists (sample_recipe "r-bob-1" "bob" (Some "s-bob-1") true 35) ];
      simpl; auto.
Qed.

(** Alice's update of her first recipe leaves no child row without recipe. *)
Lemma handlers_leave_no_orphans_witness :
  no_orphans
    (snd (upsertGeneratedRecipe sample_runtime sample_update (signed_in alice)
            sample_world)).
Proof.
  apply (handlers_leave_no_orphans sample_runtime (signed_in alice) sample_world
           sample_world_no_orphans).
Defined.

(** ** What one user does leaves what another user lists alone *)

Lemma filter_update_others {R : Type} (q p : R -> bool) (f : R -> R) (l : list R) :
  (forall r, p r = true -> q r = false /\ q (f r) = false) ->
  filter q (map (fun r => if p r then f r else r) l) = filter q l.
Proof.
  intros H. induction l as [|r l IH]; simpl; [reflexivity|].
  destruct (p r) eqn:Ep.
  - destruct (H r Ep) as [-> ->]. exact IH.
  - destruct (q r); now rewrite IH.
Qed.

Lemma filter_insert_other {R : Type} (q : R -> bool) (l : list R) (r : R) :
  q r = false -> filter q (l ++ [r]) = filter q l.
Proof. intros H. rewrite filter_app. simpl. rewrite H. apply app_nil_r. Qed.

Lemma recipe_filters_owner (input : ListRecipesInput.t) (u : User)
    (r : GeneratedRecipes.row) :
  GeneratedRecipes.userId r <> user_id u -> recipe_filters input u r = false.
Proof.
  intros H. destruct (recipe_filters input u r) eqn:E; [|reflexivity].
  apply recipe_filters_listed in E. destruct E as [E _]. contradiction.
Qed.

Lemma session_owner_filter (u : User) (r : RecipeIdeaSessions.row) :
  RecipeIdeaSessions.userId r <> user_id u ->
  eq_text (RecipeIdeaSessions.userId r) (Some (user_id u)) = false.
Proof.
  intros H. destruct (eq_text _ _) eqn:E; [|reflexivity].
  apply eq_text_true in E. contradiction.
Qed.

Lemma same_listing_tables (u : User) (w w' : World) :
  filter (fun r => eq_text (RecipeIdeaSessions.userId r) (Some (user_id u)))
    (sessions (db w'))
  = filter (fun r => eq_text (RecipeIdeaSessions.userId r) (Some (user_id u)))
      (sessions (db w)) ->
  (forall ri, filter (recipe_filters ri u) (recipes (db w'))
              = filter (recipe_filters ri u) (recipes (db w))) ->
  same_listing u w w'.
Proof.
  intros Hs Hr rt si ri.
  rewrite !listRecipeIdeaSessions_run, !listGeneratedRecipes_run. cbv zeta.
  cbn [fst]. now rewrite Hs, Hr.
Qed.

Lemma same_listing_trans (u : User) (w1 w2 w3 : World) :
  same_listing u w1 w2 -> same_listing u w2 w3 -> same_listing u w1 w3.
Proof.
  intros H12 H23 rt si ri. destruct (H12 rt si ri) as [A B].
  destruct (H23 rt si ri) as [A' B']. split; congruence.
Qed.

Lemma statement_same_listing (c : bool) (u v : User) (w w' : World) :
  user_id u <> user_id v -> statement c v w w' -> same_listing u w w'.
Proof.
  intros Huv H. apply same_listing_tables;
    destruct H as [w w' E | w w' r Hu _ E | w w' p f Hp Hk E | w w' r Hu _ _ E
                  | w w' p f Hp Hk _ E | w w' rid E | w w' rid new _ _ _ E
                  | w w' rid E | w w' rid new _ _ _ E];
    try intros ri; rewrite E; simpl; try reflexivity.
  - apply filter_insert_other. apply session_owner_filter. congruence.
  - apply filter_update_others. intros r Hr.
    specialize (Hk r). unfold session_key in Hk.
    split; apply session_owner_filter; specialize (Hp r Hr); congruence.
  - apply filter_insert_other. apply recipe_filters_owner. congruence.
  - apply filter_update_others. intros r Hr.
    specialize (Hk r). unfold recipe_key in Hk.
    split; apply recipe_filters_owner; specialize (Hp r Hr); congruence.
Qed.

(** Whatever any handler called by [v] does, with whatever input and
    outcome, another user [u] gets from both list handlers, on any page and
    with any filter, the response [u] would have got before the call. *)
Theorem handlers_do_not_interfere (rt : Runtime) (u v : User) (w : World) :
  user_id u <> user_id v ->
  after_any_handler rt (signed_in v) w (same_listing u w).
Proof.
  intros Huv.
  assert (Hrefl : forall w1 w2, db w2 = db w1 -> same_listing u w1 w2).
  { intros w1 w2 E. apply same_listing_tables; [now rewrite E | intros ri; now rewrite E]. }
  assert (Hall : forall c v' w', user_id u <> user_id v' -> run c v' w w' ->
                                 same_listing u w w').
  { intros c v' w' Hne Hrun.
    apply (run_invariant c v' (same_listing u w)) with (w := w); [|exact Hrun|].
    - intros w1 w2 Hs H1.
      exact (same_listing_trans _ _ _ _ H1 (statement_same_listing c u v' w1 w2 Hne Hs)).
    - now apply Hrefl. }
  unfold after_any_handler.
  refine (conj _ (conj _ (conj _ (conj _ _)))); intros input.
  - destruct (createRecipeIdeaSession rt input (signed_in v) w) as [o w'] eqn:E.
    exact (Hall true v w' Huv (createRecipeIdeaSession_runs true _ _ _ _ _ _ E)).
  - destruct (updateRecipeIdeaSession rt input (signed_in v) w) as [o w'] eqn:E.
    exact (Hall true v w' Huv (updateRecipeIdeaSession_runs true _ _ _ _ _ _ E)).
  - rewrite listRecipeIdeaSessions_run. now apply Hrefl.
  - destruct (upsertGeneratedRecipe rt input (signed_in v) w) as [o w'] eqn:E.
    exact (Hall _ v w' Huv (upsertGeneratedRecipe_runs _ _ _ _ _ _ E)).
  - rewrite listGeneratedRecipes_run. now apply Hrefl.
Qed.

(** Bob rewrites a recipe with alice's first recipe identifier in hand (he
    gets NOT_FOUND), then creates one: alice's lists do not move. *)
Lemma handlers_do_not_interfere_witness :
  same_listing alice sample_world
    (snd (upsertGeneratedRecipe sample_runtime sample_update (signed_in bob) sample_world))
  /\ same_listing alice sample_world
       (snd (upsertGeneratedRecipe sample_runtime (sample_create None (Some "s-bob-1"))
               (signed_in bob) sample_world)).
Proof.
  assert (Hne : user_id alice <> user_id bob) by discriminate.
  split; apply (handlers_do_not_interfere sample_runtime alice bob sample_world Hne).
Defined.

(** ** Session references stay within the owner's sessions *)

Lemma owns_session_keeps (w w' : World) (v : User) (sid : string) :
  keeps_rows w w' -> owns_session w v sid -> owns_session w' v sid.
Proof.
  intros [[more E] _] (s & Hin & Hid & Hu).
  assert (Hk : In (session_key s) (map session_key (sessions (db w'))))
    by (rewrite E; apply in_or_app; left; now apply in_map).
  apply in_map_iff in Hk. destruct Hk as (s' & Ek & Hin').
  exists s'. unfold session_key in Ek. repeat split; [exact Hin' | congruence | congruence].
Qed.

Lemma statement_links_ok (v : User) (w w' : World) :
  statement true v w w' -> links_ok w -> links_ok w'.
Proof.
  intros H Hl.
  pose proof (statement_keeps_rows true v w w' H) as Hk.
  assert (Hold : forall r sid, In r (recipes (db w)) ->
                   GeneratedRecipes.sessionId r = Some sid ->
                   exists s, In s (sessions (db w'))
                             /\ RecipeIdeaSessions.id s = sid
                             /\ RecipeIdeaSessions.userId s = GeneratedRecipes.userId r).
  { intros r sid Hin Hs.
    apply (owns_session_keeps w w' (mkUser (GeneratedRecipes.userId r)) sid Hk).
    exact (Hl r Hin sid Hs). }
  assert (Hown : forall sid, owns_session w v sid ->
                   exists s, In s (sessions (db w'))
                             /\ RecipeIdeaSessions.id s = sid
                             /\ RecipeIdeaSessions.userId s = user_id v).
  { intros sid Ho. exact (owns_session_keeps w w' v sid Hk Ho). }
  destruct H as [w w' E | w w' r _ _ E | w w' p f _ _ E | w w' r Hu _ Hc E
                | w w' p f Hp Hkey Hc E | w w' rid E | w w' rid new _ _ _ E
                | w w' rid E | w w' rid new _ _ _ E];
    intros x Hx sid Hs; rewrite E in Hx; simpl in Hx;
    try (now apply Hold).
  - apply in_app_or in Hx. destruct Hx as [Hx|[<-|[]]]; [now apply Hold|].
    rewrite Hu. apply Hown. now apply (Hc eq_refl).
  - apply in_map_iff in Hx. destruct Hx as (r & Er & Hin).
    destruct (p r) eqn:Ep; subst x; [|now apply Hold].
    pose proof (Hkey r) as Ek. unfold recipe_key in Ek.
    assert (Eu : GeneratedRecipes.userId (f r) = GeneratedRecipes.userId r) by congruence.
    rewrite Eu. destruct (Hc eq_refl r sid Hs) as [Hsame|Ho].
    + now apply Hold.
    + rewrite (Hp r Ep). now apply Hown.
Qed.

(** In a store where every session reference of a recipe row names a
    session of the recipe's owner, that is still so after any call of
    [createRecipeIdeaSession], of [updateRecipeIdeaSession], and of
    [upsertGeneratedRecipe] on an input whose [sessionId] is absent or not
    the empty string. *)
Theorem handlers_keep_links (rt : Runtime) (context : ActionAPIContext) (w : World) :
  links_ok w ->
  (forall input, links_ok (snd (createRecipeIdeaSession rt input context w)))
  /\ (forall input, links_ok (snd (updateRecipeIdeaSession rt input context w)))
  /\ (forall input, session_checked input = true ->
                    links_ok (snd (upsertGeneratedRecipe rt input context w))).
Proof.
  intros Hw.
  assert (Hall : forall v w', run true v w w' -> links_ok w').
  { intros v w' Hrun.
    exact (run_invariant true v links_ok (statement_links_ok v) w w' Hrun Hw). }
  destruct (context_cases context) as [[v ->]|Hn].
  - repeat split.
    + intros input.
      destruct (createRecipeIdeaSession rt input (signed_in v) w) as [o w'] eqn:E.
      exact (Hall v w' (createRecipeIdeaSession_runs true _ _ _ _ _ _ E)).
    + intros input.
      destruct (updateRecipeIdeaSession rt input (signed_in v) w) as [o w'] eqn:E.
      exact (Hall v w' (updateRecipeIdeaSession_runs true _ _ _ _ _ _ E)).
    + intros input Hc.
      destruct (upsertGeneratedRecipe rt input (signed_in v) w) as [o w'] eqn:E.
      apply upsertGeneratedRecipe_runs in E. rewrite Hc in E. exact (Hall v w' E).
  - destruct (anonymous_calls_throw rt context w Hn) as (H1 & H2 & _ & H4 & _).
    repeat split; intros input; [rewrite H1 | rewrite H2 | intros _; rewrite H4];
      exact Hw.
Qed.

Lemma sample_world_links_ok : links_ok sample_world.
Proof.
  intros r Hr sid Hs. simpl in Hr.
  destruct Hr as [<-|[<-|[<-|[<-|[]]]]]; simpl in Hs; inversion Hs; subst sid.
  - exists (sample_session "s-alice-1" "alice" 20). simpl. auto.
  - exists (sample_session "s-bob-1" "bob" 15). simpl. auto.
  - exists (sample_session "s-alice-2" "alice" 10). simpl. auto 6.
Qed.

(** Alice moves nothing but her recipe; the links of the sample store hold
    after her update. *)
Lemma handlers_keep_links_witness :
  links_ok
    (snd (upsertGeneratedRecipe sample_runtime sample_update (signed_in alice)
            sample_world)).
Proof.
  destruct (handlers_keep_links sample_runtime (signed_in alice) sample_world
              sample_world_links_ok) as (_ & _ & H).
  apply H. reflexivity.
Defined.

(** ** Pages tile the ordered rows *)

Lemma page_of_nth {R : Type} (pg ps : Z) (l : list R) (j : nat) :
  valid_paging pg ps -> (j < Z.to_nat ps)%nat ->
  nth_error (page_of pg ps l) j = nth_error l (Z.to_nat (pg - 1) * Z.to_nat ps + j).
Proof.
  intros V Hj. destruct (page_of_nat pg ps l V) as [-> _].
  rewrite nth_error_firstn, nth_error_skipn.
  apply Nat.ltb_lt in Hj. now rewrite Hj.
Qed.

Lemma page_of_length {R : Type} (pg ps : Z) (l : list R) :
  valid_paging pg ps ->
  length (page_of pg ps l)
  = Nat.min (Z.to_nat ps) (length l - Z.to_nat (pg - 1) * Z.to_nat ps).
Proof.
  intros V. destruct (page_of_nat pg ps l V) as [-> _].
  now rewrite length_firstn, length_skipn.
Qed.

(** The row at position [k] of the ordered rows is on page [k / ps + 1],
    at position [k mod ps]. *)
Lemma page_of_covers {R : Type} (ps : Z) (l : list R) (k : nat) :
  1 <= ps <= 100 ->
  valid_paging (Z.of_nat (k / Z.to_nat ps) + 1) ps
  /\ (k mod Z.to_nat ps < Z.to_nat ps)%nat
  /\ nth_error (page_of (Z.of_nat (k / Z.to_nat ps) + 1) ps l) (k mod Z.to_nat ps)
     = nth_error l k.
Proof.
  intros Hps.
  assert (V : valid_paging (Z.of_nat (k / Z.to_nat ps) + 1) ps)
    by (unfold valid_paging; lia).
  assert (Hn : Z.to_nat ps <> 0%nat) by lia.
  assert (Hm : (k mod Z.to_nat ps < Z.to_nat ps)%nat) by (now apply Nat.mod_upper_bound).
  split; [exact V|]. split; [exact Hm|].
  rewrite (page_of_nth _ _ _ _ V Hm). f_equal.
  replace (Z.of_nat (k / Z.to_nat ps) + 1 - 1) with (Z.of_nat (k / Z.to_nat ps)) by lia.
  rewrite Nat2Z.id. rewrite (Nat.div_mod_eq k (Z.to_nat ps)) at 3. lia.
Qed.

(** The page of the row at position [k] is one JavaScript counts exactly
    when the rows are fewer than it counts exactly, less a page. *)
Lemma page_of_rank_exact (ps : Z) (k n : nat) :
  1 <= ps <= 100 -> (k < n)%nat -> Z.of_nat n <= 9007199254740892 ->
  exact_paging (Z.of_nat (k / Z.to_nat ps) + 1) ps.
Proof.
  intros Hps Hk Hn. unfold exact_paging.
  pose proof (Nat.div_mod_eq k (Z.to_nat ps)) as E.
  assert (Hq : Z.of_nat (k / Z.to_nat ps) * ps <= Z.of_nat k).
  { rewrite <- (Z2Nat.id ps) at 2 by lia. rewrite <- Nat2Z.inj_mul. lia. }
  lia.
Qed.

Lemma filter_shorter {R : Type} (p : R -> bool) (l : list R) :
  (length (filter p l) <= length l)%nat.
Proof.
  induction l as [|a l IH]; simpl; [lia|]. destruct (p a); simpl; lia.
Qed.

Lemma store_countable_bounds (w : World) :
  store_countable w = true ->
  Z.of_nat (length (sessions (db w))) <= 9007199254740892
  /\ Z.of_nat (length (recipes (db w))) <= 9007199254740892.
Proof.
  unfold store_countable. rewrite andb_true_iff, !Z.leb_le. tauto.
Qed.

Lemma store_readable_rows (w : World) :
  store_readable w = true ->
  forallb (readable RecipeIdeaSessionsT) (sessions (db w)) = true
  /\ forallb (readable GeneratedRecipesT) (recipes (db w)) = true.
Proof. unfold store_readable. now rewrite andb_true_iff. Qed.

(** In a store whose session rows and recipe rows hold safe integers and
    were created at plain dates, for a page size the schemas admit, the
    pages of each list handler are consecutive slices of one list of rows,
    the caller's rows that pass the filters in ascending creation time: on
    every page whose offset JavaScript counts exactly the call returns,
    item [j] of page [pg] is row [(pg - 1) * pageSize + j] of that list and
    [total] is the length of the slice (zero past the end); when the tables
    have fewer rows than JavaScript counts exactly, every row of the list
    is met on exactly the page and position its rank gives.  The calls
    leave the world as it was. *)
Theorem list_pages_tile (rt : Runtime) (u : User) (w : World) (ps : Z)
    (sid : option string) (fav : option bool) :
  1 <= ps <= 100 ->
  store_readable w = true ->
  plain_dates w = true ->
  exists (sordered : list RecipeIdeaSessions.row) (rordered : list GeneratedRecipes.row),
    selects (fun r => RecipeIdeaSessions.userId r = user_id u) (sessions (db w)) sordered
    /\ Sorted session_older sordered
    /\ selects (recipe_listed (ListRecipesInput.mk 1 ps sid fav) u) (recipes (db w))
         rordered
    /\ Sorted recipe_older rordered
    /\ (forall pg, 1 <= pg -> exact_paging pg ps ->
        exists sresp rresp,
          listRecipeIdeaSessions rt (ListSessionsInput.mk pg ps) (signed_in u) w
          = (Returned sresp, w)
          /\ listGeneratedRecipes rt (ListRecipesInput.mk pg ps sid fav) (signed_in u) w
             = (Returned rresp, w)
          /\ (forall j, (j < Z.to_nat ps)%nat ->
                nth_error (items (data sresp)) j
                = nth_error sordered (Z.to_nat (pg - 1) * Z.to_nat ps + j)
                /\ nth_error (items (data rresp)) j
                   = nth_error rordered (Z.to_nat (pg - 1) * Z.to_nat ps + j))
          /\ total (data sresp)
             = Z.of_nat (Nat.min (Z.to_nat ps)
                           (length sordered - Z.to_nat (pg - 1) * Z.to_nat ps))
          /\ total (data rresp)
             = Z.of_nat (Nat.min (Z.to_nat ps)
                           (length rordered - Z.to_nat (pg - 1) * Z.to_nat ps)))
    /\ (store_countable w = true ->
        (forall k r, nth_error sordered k = Some r ->
           exists resp,
             listRecipeIdeaSessions rt
               (ListSessionsInput.mk (Z.of_nat (k / Z.to_nat ps) + 1) ps) (signed_in u) w
             = (Returned resp, w)
             /\ nth_error (items (data resp)) (k mod Z.to_nat ps) = Some r)
        /\ (forall k r, nth_error rordered k = Some r ->
              exists resp,
                listGeneratedRecipes rt
                  (ListRecipesInput.mk (Z.of_nat (k / Z.to_nat ps) + 1) ps sid fav)
                  (signed_in u) w
                = (Returned resp, w)
                /\ nth_error (items (data resp)) (k mod Z.to_nat ps) = Some r)).
Proof.
  intros Hps Hread _.
  destruct (store_readable_rows w Hread) as [Hrs Hrr].
  set (sl := filter (fun r => eq_text (RecipeIdeaSessions.userId r) (Some (user_id u)))
               (sessions (db w))).
  set (rl := filter (recipe_filters (ListRecipesInput.mk 1 ps sid fav) u)
               (recipes (db w))).
  assert (Hsl : forallb (readable RecipeIdeaSessionsT) sl = true)
    by (now apply forallb_filter).
  assert (Hrl : forallb (readable GeneratedRecipesT) rl = true)
    by (now apply forallb_filter).
  assert (Srun : forall pg, valid_paging pg ps -> exact_paging pg ps ->
            listRecipeIdeaSessions rt (ListSessionsInput.mk pg ps) (signed_in u) w
            = (Returned
                 (mkEnvelope true
                    (mkPageData
                       (page_of pg ps (orderBy RecipeIdeaSessions.createdAt sl))
                       (Z.of_nat
                          (length (page_of pg ps
                                     (orderBy RecipeIdeaSessions.createdAt sl))))
                       pg ps)), w)).
  { intros pg V X. rewrite listRecipeIdeaSessions_run.
    cbn [ListSessionsInput.page ListSessionsInput.pageSize]. fold sl.
    now rewrite (read_page_readable _ _ _ _ _ V X Hsl). }
  assert (Rrun : forall pg, valid_paging pg ps -> exact_paging pg ps ->
            listGeneratedRecipes rt (ListRecipesInput.mk pg ps sid fav) (signed_in u) w
            = (Returned
                 (mkEnvelope true
                    (mkPageData
                       (page_of pg ps (orderBy GeneratedRecipes.createdAt rl))
                       (Z.of_nat
                          (length (page_of pg ps
                                     (orderBy GeneratedRecipes.createdAt rl))))
                       pg ps)), w)).
  { intros pg V X. rewrite listGeneratedRecipes_run.
    cbn [ListRecipesInput.page ListRecipesInput.pageSize].
    change (filter (recipe_filters (ListRecipesInput.mk pg ps sid fav) u)
              (recipes (db w))) with rl.
    now rewrite (read_page_readable _ _ _ _ _ V X Hrl). }
  exists (orderBy RecipeIdeaSessions.createdAt sl).
  exists (orderBy GeneratedRecipes.createdAt rl).
  refine (conj _ (conj _ (conj _ (conj _ (conj _ _))))).
  - exists (fun r => eq_text (RecipeIdeaSessions.userId r) (Some (user_id u))).
    split; [intros r; apply eq_text_true | apply orderBy_perm].
  - apply orderBy_sorted.
  - exists (recipe_filters (ListRecipesInput.mk 1 ps sid fav) u).
    split; [intros r; apply recipe_filters_listed | apply orderBy_perm].
  - apply orderBy_sorted.
  - intros pg Hpg X.
    assert (V : valid_paging pg ps) by (unfold valid_paging; lia).
    eexists. eexists.
    split; [exact (Srun pg V X)|]. split; [exact (Rrun pg V X)|].
    cbn [data items total]. split; [|split].
    + intros j Hj. split; now apply page_of_nth.
    + now rewrite page_of_length.
    + now rewrite page_of_length.
  - intros Hcount. destruct (store_countable_bounds w Hcount) as [Cs Cr]. split.
    + intros k r Hk.
      destruct (page_of_covers ps (orderBy RecipeIdeaSessions.createdAt sl) k Hps)
        as (V & _ & E).
      assert (X : exact_paging (Z.of_nat (k / Z.to_nat ps) + 1) ps).
      { apply (page_of_rank_exact ps k (length (sessions (db w))) Hps); [|exact Cs].
        assert (Hlt : (k < length (orderBy RecipeIdeaSessions.createdAt sl))%nat)
          by (apply nth_error_Some; congruence).
        rewrite (Permutation_length (orderBy_perm _ sl)) in Hlt.
        pose proof (filter_shorter
                      (fun r => eq_text (RecipeIdeaSessions.userId r) (Some (user_id u)))
                      (sessions (db w))). fold sl in H. lia. }
      eexists. split; [exact (Srun _ V X)|]. cbn [data items].
      exact (eq_trans E Hk).
    + intros k r Hk.
      destruct (page_of_covers ps (orderBy GeneratedRecipes.createdAt rl) k Hps)
        as (V & _ & E).
      assert (X : exact_paging (Z.of_nat (k / Z.to_nat ps) + 1) ps).
      { apply (page_of_rank_exact ps k (length (recipes (db w))) Hps); [|exact Cr].
        assert (Hlt : (k < length (orderBy GeneratedRecipes.createdAt rl))%nat)
          by (apply nth_error_Some; congruence).
        rewrite (Permutation_length (orderBy_perm _ rl)) in Hlt.
        pose proof (filter_shorter
                      (recipe_filters (ListRecipesInput.mk 1 ps sid fav) u)
                      (recipes (db w))). fold rl in H. lia. }
      eexists. split; [exact (Rrun _ V X)|]. cbn [data items].
      exact (eq_trans E Hk).
Qed.

(** Alice's recipes on pages of two: the third in creation order opens the
    second page. *)
Lemma list_pages_tile_witness :
  exists (sordered : list RecipeIdeaSessions.row) (rordered : list GeneratedRecipes.row),
    selects (fun r => RecipeIdeaSessions.userId r = user_id alice)
      (sessions (db sample_world)) sordered
    /\ selects (recipe_listed (ListRecipesInput.mk 1 2 None None) alice)
         (recipes (db sample_world)) rordered
    /\ Sorted recipe_older rordered
    /\ nth_error rordered 2
       = Some (sample_recipe "r-alice-1" "alice" (Some "s-alice-1") true 40).
Proof.
  assert (Hps : 1 <= 2 <= 100) by lia.
  destruct (list_pages_tile sample_runtime alice sample_world 2 None None Hps
              eq_refl eq_refl)
    as (so & ro & Hs & _ & Hr & Hsorted & Hpages & _).
  exists so, ro. split; [exact Hs|]. split; [exact Hr|]. split; [exact Hsorted|].
  destruct (Hpages 2 ltac:(lia) ltac:(unfold exact_paging; lia))
    as (sresp & rresp & _ & Er & Hn & _).
  destruct (Hn 0%nat ltac:(lia)) as [_ H0].
  change (Z.to_nat (2 - 1) * Z.to_nat 2 + 0)%nat with 2%nat in H0. rewrite <- H0.
  inversion Er. reflexivity.
Defined.

(** ** A row written is a row listed *)

Lemma In_limit_rows {R : Type} (n : Z) (l : list R) (r : R) :
  In r (limit_rows n l) -> In r l.
Proof.
  unfold limit_rows. destruct (n <? 0); [auto|]. intros H.
  rewrite <- (firstn_skipn (Z.to_nat n) l). apply in_or_app. now left.
Qed.

Lemma In_offset_rows {R : Type} (k : Z) (l : list R) (r : R) :
  In r (offset_rows k l) -> In r l.
Proof.
  unfold offset_rows. intros H.
  rewrite <- (firstn_skipn (Z.to_nat k) l). apply in_or_app. now right.
Qed.

(** Whatever the limit and the offset, a row of a page that reaches the
    handler is one of the rows selected. *)
Lemma read_page_In {R : Type} (T : Table R) (key : R -> Z) (n k : Z)
    (l items : list R) (r : R) :
  read_page T key n k l = Returned items -> In r items -> In r l.
Proof.
  unfold read_page. destruct (fits_int64 n && fits_int64 k); [|discriminate].
  intros H. apply read_returned in H. destruct H as [-> _]. intros Hin.
  apply In_limit_rows, In_offset_rows in Hin.
  exact (Permutation_in r (orderBy_perm key l) Hin).
Qed.

Lemma on_some_page {R : Type} (key : R -> Z) (ps : Z) (l : list R) (r : R) :
  1 <= ps <= 100 -> Z.of_nat (length l) <= 9007199254740892 -> In r l ->
  exists pg j,
    valid_paging pg ps /\ exact_paging pg ps
    /\ nth_error (page_of pg ps (orderBy key l)) j = Some r.
Proof.
  intros Hps Hl Hin.
  assert (Hin' : In r (orderBy key l))
    by (apply (Permutation_in r (Permutation_sym (orderBy_perm key l))), Hin).
  apply In_nth_error in Hin'. destruct Hin' as [k Hk].
  destruct (page_of_covers ps (orderBy key l) k Hps) as (V & _ & E).
  exists (Z.of_nat (k / Z.to_nat ps) + 1), (k mod Z.to_nat ps)%nat.
  split; [exact V|]. split; [|exact (eq_trans E Hk)].
  apply (page_of_rank_exact ps k (length l) Hps); [|exact Hl].
  rewrite <- (Permutation_length (orderBy_perm key l)).
  apply nth_error_Some. congruence.
Qed.

(** Every session row of [u] is on some page of [u]'s list. *)
Lemma session_on_some_page (rt : Runtime) (u : User) (w : World) (ps : Z)
    (r : RecipeIdeaSessions.row) :
  1 <= ps <= 100 ->
  store_readable w = true -> store_countable w = true ->
  In r (sessions (db w)) -> RecipeIdeaSessions.userId r = user_id u ->
  exists pg j resp,
    1 <= pg
    /\ listRecipeIdeaSessions rt (ListSessionsInput.mk pg ps) (signed_in u) w
       = (Returned resp, w)
    /\ nth_error (items (data resp)) j = Some r.
Proof.
  intros Hps Hread Hcount Hin Hu.
  destruct (store_readable_rows w Hread) as [Hrs _].
  destruct (store_countable_bounds w Hcount) as [Cs _].
  destruct (on_some_page RecipeIdeaSessions.createdAt ps
              (filter (fun r => eq_text (RecipeIdeaSessions.userId r) (Some (user_id u)))
                 (sessions (db w))) r Hps) as (pg & j & V & X & E).
  { pose proof (filter_shorter
                  (fun r => eq_text (RecipeIdeaSessions.userId r) (Some (user_id u)))
                  (sessions (db w))). lia. }
  { apply filter_In. split; [exact Hin | now apply eq_text_true]. }
  exists pg, j. eexists. rewrite listRecipeIdeaSessions_run.
  cbn [ListSessionsInput.page ListSessionsInput.pageSize].
  rewrite (read_page_readable _ _ _ _ _ V X) by (now apply forallb_filter).
  split; [apply V|]. split; [reflexivity | exact E].
Qed.

(** Every recipe row of [u] that passes the filters is on some page of
    [u]'s filtered list. *)
Lemma recipe_on_some_page (rt : Runtime) (u : User) (w : World) (ps : Z)
    (sid : option string) (fav : option bool) (r : GeneratedRecipes.row) :
  1 <= ps <= 100 ->
  store_readable w = true -> store_countable w = true ->
  In r (recipes (db w)) -> recipe_listed (ListRecipesInput.mk 1 ps sid fav) u r ->
  exists pg j resp,
    1 <= pg
    /\ listGeneratedRecipes rt (ListRecipesInput.mk pg ps sid fav) (signed_in u) w
       = (Returned resp, w)
    /\ nth_error (items (data resp)) j = Some r.
Proof.
  intros Hps Hread Hcount Hin Hl.
  destruct (store_readable_rows w Hread) as [_ Hrr].
  destruct (store_countable_bounds w Hcount) as [_ Cr].
  destruct (on_some_page GeneratedRecipes.createdAt ps
              (filter (recipe_filters (ListRecipesInput.mk 1 ps sid fav) u)
                 (recipes (db w))) r Hps) as (pg & j & V & X & E).
  { pose proof (filter_shorter (recipe_filters (ListRecipesInput.mk 1 ps sid fav) u)
                  (recipes (db w))). lia. }
  { apply filter_In. split; [exact Hin | now apply recipe_filters_listed]. }
  exists pg, j. eexists. rewrite listGeneratedRecipes_run.
  cbn [ListRecipesInput.page ListRecipesInput.pageSize].
  change (filter (recipe_filters (ListRecipesInput.mk pg ps sid fav) u) (recipes (db w)))
    with (filter (recipe_filters (ListRecipesInput.mk 1 ps sid fav) u) (recipes (db w))).
  rewrite (read_page_readable _ _ _ _ _ V X) by (now apply forallb_filter).
  split; [apply V|]. split; [reflexivity | exact E].
Qed.

(** The session row a returning [createRecipeIdeaSession] call has written. *)
Lemma createRecipeIdeaSession_returned (rt : Runtime) (input : NewSessionInput.t)
    (context : ActionAPIContext) (w w' : World) (resp : Envelope IdData) :
  createRecipeIdeaSession rt input context w = (Returned resp, w') ->
  exists u,
    context = signed_in u
    /\ sessions (db w')
       = (sessions (db w)
          ++ [ {| RecipeIdeaSessions.id := id (data resp);
                  RecipeIdeaSessions.userId := user_id u;
                  RecipeIdeaSessions.title := NewSessionInput.title input;
                  RecipeIdeaSessions.prompt := NewSessionInput.prompt input;
                  RecipeIdeaSessions.cuisinePreference :=
                    NewSessionInput.cuisinePreference input;
                  RecipeIdeaSessions.dietaryPreference :=
                    NewSessionInput.dietaryPreference input;
                  RecipeIdeaSessions.servingCount := NewSessionInput.servingCount input;
                  RecipeIdeaSessions.createdAt := clock rt;
                  RecipeIdeaSessions.updatedAt := clock rt |} ])%list
    /\ forall s, In s (sessions (db w)) -> RecipeIdeaSessions.id s <> id (data resp).
Proof.
  intros H. destruct (context_cases context) as [[u ->]|Hn].
  - exists u. split; [reflexivity|]. revert H.
    unfold createRecipeIdeaSession, bind. rewrite requireUser_signed_in.
    unfold randomUUID, db_insert. cbv zeta. cbn [db uuid_next rows RecipeIdeaSessionsT].
    destruct (insert_refused RecipeIdeaSessionsT _ _ _) eqn:K; intros H; inversion H; subst.
    simpl. split; [reflexivity|].
    apply insert_refused_none in K. destruct K as [K _].
    cbn [keys_free] in K. rewrite !andb_true_iff, !negb_true_iff in K.
    destruct K as [[K _] _].
    exact (proj1 (has_key_false RecipeIdeaSessionsT _ _) K).
  - destruct (anonymous_calls_throw rt context w Hn) as (H1 & _).
    rewrite H1 in H. discriminate.
Qed.

(** The session a returning [createRecipeIdeaSession] call has made is, in
    a store it leaves with safe integers in its rows and fewer rows than
    JavaScript counts exactly, on a page of its maker's list, whatever the
    page size, under the returned identifier and with the input's fields;
    no other user's list shows a row under that identifier. *)
Theorem created_session_is_listed (rt : Runtime) (input : NewSessionInput.t)
    (context : ActionAPIContext) (w w' : World) (resp : Envelope IdData) :
  createRecipeIdeaSession rt input context w = (Returned resp, w') ->
  exists u,
    current_user context = Some u
    /\ (store_readable w' = true -> store_countable w' = true ->
        forall rt' ps, 1 <= ps <= 100 ->
        exists pg j lresp r,
          1 <= pg
          /\ listRecipeIdeaSessions rt' (ListSessionsInput.mk pg ps) (signed_in u) w'
             = (Returned lresp, w')
          /\ nth_error (items (data lresp)) j = Some r
          /\ RecipeIdeaSessions.id r = id (data resp)
          /\ RecipeIdeaSessions.title r = NewSessionInput.title input
          /\ RecipeIdeaSessions.prompt r = NewSessionInput.prompt input
          /\ RecipeIdeaSessions.cuisinePreference r
             = NewSessionInput.cuisinePreference input
          /\ RecipeIdeaSessions.dietaryPreference r
             = NewSessionInput.dietaryPreference input
          /\ RecipeIdeaSessions.servingCount r = NewSessionInput.servingCount input)
    /\ (forall rt' v li lresp w'',
          user_id v <> user_id u ->
          listRecipeIdeaSessions rt' li (signed_in v) w' = (Returned lresp, w'') ->
          forall r, In r (items (data lresp)) ->
                    RecipeIdeaSessions.id r <> id (data resp)).
Proof.
  intros H. apply createRecipeIdeaSession_returned in H.
  destruct H as (u & -> & Es & Hfresh). exists u. split; [reflexivity|]. split.
  - intros Hread Hcount rt' ps Hps.
    match type of Es with _ = (_ ++ [?row])%list => set (r0 := row) in * end.
    destruct (session_on_some_page rt' u w' ps r0 Hps Hread Hcount)
      as (pg & j & lresp & Hpg & El & En).
    + rewrite Es. apply in_or_app. right. now left.
    + reflexivity.
    + exists pg, j, lresp, r0. repeat split; assumption.
  - intros rt' v li lresp w'' Hne El r Hin.
    rewrite listRecipeIdeaSessions_run in El.
    destruct (read_page RecipeIdeaSessionsT _ _ _ _) as [its|e] eqn:Ep;
      inversion El; subst lresp w''. cbn [data items] in Hin.
    apply (read_page_In _ _ _ _ _ _ _ Ep) in Hin.
    apply filter_In in Hin. destruct Hin as [Hin Hv]. apply eq_text_true in Hv.
    rewrite Es in Hin. apply in_app_or in Hin. destruct Hin as [Hin|[<-|[]]].
    + now apply Hfresh.
    + simpl in Hv. congruence.
Qed.

(** Bob opens a session in the sample store and finds it when he pages
    through his list one row at a time. *)
Lemma created_session_is_listed_witness :
  exists u,
    current_user (signed_in bob) = Some u
    /\ exists pg j lresp r,
         1 <= pg
         /\ listRecipeIdeaSessions sample_runtime (ListSessionsInput.mk pg 1) (signed_in u)
              (snd (createRecipeIdeaSession sample_runtime
                      (NewSessionInput.mk (Some "Brunch") None None None None)
                      (signed_in bob) sample_world))
            = (Returned lresp,
               snd (createRecipeIdeaSession sample_runtime
                      (NewSessionInput.mk (Some "Brunch") None None None None)
                      (signed_in bob) sample_world))
         /\ nth_error (items (data lresp)) j = Some r
         /\ RecipeIdeaSessions.id r = "a-0000"
         /\ RecipeIdeaSessions.title r = Some "Brunch".
Proof.
  destruct (created_session_is_listed sample_runtime
              (NewSessionInput.mk (Some "Brunch") None None None None)
              (signed_in bob) sample_world
              (snd (createRecipeIdeaSession sample_runtime
                      (NewSessionInput.mk (Some "Brunch") None None None None)
                      (signed_in bob) sample_world))
              (mkEnvelope true (mkIdData "a-0000")) eq_refl)
    as (u & Hu & Hl & _).
  exists u. split; [exact Hu|].
  destruct (Hl eq_refl eq_refl sample_runtime 1 ltac:(lia))
    as (pg & j & lresp & r & Hpg & El & En & Hi & Ht & _).
  exists pg, j, lresp, r. repeat split; assumption.
Defined.

(** The recipe row a returning recipe stage leaves under the identifier the
    call works on. *)
Lemma write_recipe_row (rt : Runtime) (input : UpsertInput.t) (v : User)
    (rid : string) (now : Z) (w w' : World) :
  (forall x, UpsertInput.id input = Some x -> rid = x) ->
  write_recipe rt input v rid now w = (Returned tt, w') ->
  exists r,
    In r (recipes (db w'))
    /\ GeneratedRecipes.id r = rid
    /\ GeneratedRecipes.userId r = user_id v
    /\ GeneratedRecipes.title r = UpsertInput.title input
    /\ GeneratedRecipes.updatedAt r = now
    /\ (forall sid, UpsertInput.sessionId input = Some sid ->
                    GeneratedRecipes.sessionId r = Some sid)
    /\ (forall b, UpsertInput.isFavorite input = Some b ->
                  GeneratedRecipes.isFavorite r = b).
Proof.
  intros Hid E. destruct (truthy_string (UpsertInput.id input)) eqn:Et.
  - apply truthy_string_true in Et. destruct Et as (x & Ex & Hx).
    pose proof (Hid x Ex) as Hrx. subst x.
    apply (write_recipe_updated rt input v rid now w w' Ex Hx) in E.
    destruct E as (_ & _ & (r0 & Hin0 & Hm0) & ->).
    exists (set_recipe (recipeUpdateData input now) r0). simpl.
    split; [apply in_map_iff; exists r0; now rewrite Hm0|].
    apply recipe_where_true in Hm0. destruct Hm0 as [Hi Hu].
    repeat split; auto.
    + intros sid Es. now rewrite Es.
    + intros b Eb. now rewrite Eb.
  - apply (write_recipe_inserted rt input v rid now w w' Et) in E.
    destruct E as (_ & _ & ->).
    exists (new_recipe input v rid now). simpl.
    split; [apply in_or_app; right; now left|].
    repeat split; auto. intros b Eb. now rewrite Eb.
Qed.

(** The recipe a returning [upsertGeneratedRecipe] call has written is in
    the store under the returned identifier (the input's, when the input
    has one), owned by the caller, with the input's title, the input's
    session reference and favorite flag when the input has them, and
    [updatedAt] now; in a store the call leaves with safe integers in its
    rows and fewer rows than JavaScript counts exactly, the caller finds it
    on a page of the unfiltered list, whatever the page size, and, when the
    input carries a session reference that is not the empty string, on a
    page of the list filtered by that reference. *)
Theorem upserted_recipe_is_listed (rt : Runtime) (input : UpsertInput.t)
    (context : ActionAPIContext) (w w' : World) (resp : Envelope IdData) :
  upsertGeneratedRecipe rt input context w = (Returned resp, w') ->
  exists u r,
    current_user context = Some u
    /\ In r (recipes (db w'))
    /\ (forall x, UpsertInput.id input = Some x -> id (data resp) = x)
    /\ GeneratedRecipes.id r = id (data resp)
    /\ GeneratedRecipes.userId r = user_id u
    /\ GeneratedRecipes.title r = UpsertInput.title input
    /\ GeneratedRecipes.updatedAt r = clock rt
    /\ (forall sid, UpsertInput.sessionId input = Some sid ->
                    GeneratedRecipes.sessionId r = Some sid)
    /\ (forall b, UpsertInput.isFavorite input = Some b ->
                  GeneratedRecipes.isFavorite r = b)
    /\ (store_readable w' = true -> store_countable w' = true ->
        forall rt' ps, 1 <= ps <= 100 ->
        exists pg j lresp,
          1 <= pg
          /\ listGeneratedRecipes rt' (ListRecipesInput.mk pg ps None None)
               (signed_in u) w' = (Returned lresp, w')
          /\ nth_error (items (data lresp)) j = Some r)
    /\ (store_readable w' = true -> store_countable w' = true ->
        forall rt' ps sid, 1 <= ps <= 100 ->
        UpsertInput.sessionId input = Some sid -> sid <> EmptyString ->
        exists pg j lresp,
          1 <= pg
          /\ listGeneratedRecipes rt' (ListRecipesInput.mk pg ps (Some sid) None)
               (signed_in u) w' = (Returned lresp, w')
          /\ nth_error (items (data lresp)) j = Some r).
Proof.
  intros H.
  destruct (upsertGeneratedRecipe_signed_in _ _ _ _ _ _ H) as [u ->].
  apply upsertGeneratedRecipe_returned in H.
  destruct H as (rid & w2 & w3 & w4 & -> & _ & E2 & E3 & E4 & E5). simpl.
  assert (Hid : forall x, UpsertInput.id input = Some x -> rid = x).
  { intros x Ex. rewrite Ex in E2. simpl in E2. unfold ret in E2. now inversion E2. }
  destruct (write_recipe_row rt input u rid (clock rt) w2 w3 Hid E3)
    as (r & Hin & Hi & Hu & Ht & Hup & Hs & Hf).
  apply replace_ingredients_frame in E4. destruct E4 as [_ R4].
  apply replace_steps_frame in E5. destruct E5 as [_ R5].
  assert (Hin' : In r (recipes (db w'))) by (now rewrite R5, R4).
  exists u, r. repeat split; auto.
  - intros Hread Hcount rt' ps Hps.
    apply (recipe_on_some_page rt' u w' ps None None r Hps Hread Hcount Hin').
    repeat split; [exact Hu | discriminate | discriminate].
  - intros Hread Hcount rt' ps sid Hps Es Hne.
    apply (recipe_on_some_page rt' u w' ps (Some sid) None r Hps Hread Hcount Hin').
    repeat split; [exact Hu | | discriminate].
    intros s E _. inversion E; subst s. now apply Hs.
Qed.

(** Alice creates a recipe in her first session and finds it in the list
    filtered by that session. *)
Lemma upserted_recipe_is_listed_witness :
  exists u r,
    current_user (signed_in alice) = Some u
    /\ GeneratedRecipes.id r = "a-0000"
    /\ GeneratedRecipes.title r = "Soup"
    /\ exists pg j lresp,
         1 <= pg
         /\ listGeneratedRecipes sample_runtime
              (ListRecipesInput.mk pg 20 (Some "s-alice-1") None) (signed_in u)
              (snd (upsertGeneratedRecipe sample_runtime
                      (sample_create None (Some "s-alice-1"))
                      (signed_in alice) sample_world))
            = (Returned lresp,
               snd (upsertGeneratedRecipe sample_runtime
                      (sample_create None (Some "s-alice-1"))
                      (signed_in alice) sample_world))
         /\ nth_error (items (data lresp)) j = Some r.
Proof.
  destruct (upserted_recipe_is_listed sample_runtime
              (sample_create None (Some "s-alice-1")) (signed_in alice) sample_world
              (snd (upsertGeneratedRecipe sample_runtime
                      (sample_create None (Some "s-alice-1"))
                      (signed_in alice) sample_world))
              (mkEnvelope true (mkIdData "a-0000")) eq_refl)
    as (u & r & Hu & _ & _ & Hi & _ & Ht & _ & _ & _ & _ & Hl).
  exists u, r. repeat split; try assumption.
  apply (Hl eq_refl eq_refl sample_runtime 20 "s-alice-1");
    [lia | reflexivity | discriminate].
Defined.

(** ** Calling twice *)

Lemma set_optional_twice {A : Type} (a : Assigned A) (old : option A) :
  set_optional a (set_optional a old) = set_optional a old.
Proof. now destruct a as [[x|]|]. Qed.

Lemma set_required_twice {A : Type} (a : option A) (old : A) :
  set_required a (set_required a old) = set_required a old.
Proof. now destruct a. Qed.

Lemma set_session_twice (d : SessionUpdateData.t)
    (r : RecipeIdeaSessions.row) :
  set_session d (set_session d r) = set_session d r.
Proof.
  unfold set_session; simpl. now rewrite !set_optional_twice, set_required_twice.
Qed.

Lemma set_recipe_twice (d : RecipeUpdateData.t)
    (r : GeneratedRecipes.row) :
  set_recipe d (set_recipe d r) = set_recipe d r.
Proof.
  unfold set_recipe; simpl. now rewrite !set_optional_twice, !set_required_twice.
Qed.

(** Updating the matching rows twice is updating them once, when the
    update keeps what the filter reads. *)
Lemma update_twice {R : Type} (p : R -> bool) (f : R -> R) (l : list R) :
  (forall r, p (f r) = p r) -> (forall r, f (f r) = f r) ->
  let g := fun r => if p r then f r else r in
  map g (map g l) = map g l /\ filter p (map g l) = map g (filter p l).
Proof.
  intros Hp Hf g. split.
  - rewrite map_map. apply map_ext. intros r. unfold g.
    destruct (p r) eqn:E; [now rewrite Hp, E, Hf | now rewrite E].
  - rewrite filter_map_swap. f_equal. apply filter_ext. intros r. unfold g.
    destruct (p r) eqn:E; [now rewrite Hp | exact E].
Qed.

(** Rows that could be read can be read after an update that writes safe
    integers. *)
Lemma readable_updated {R : Type} (T : Table R) (p : R -> bool) (f : R -> R)
    (l : list R) :
  (forall r, readable T r = true -> readable T (f r) = true) ->
  forallb (readable T) l = true ->
  forallb (readable T) (map (fun r => if p r then f r else r) l) = true.
Proof.
  intros Hf. induction l as [|a l IH]; [reflexivity|].
  cbn [forallb map]. rewrite !andb_true_iff. intros [Ha Hl]. split; [|now apply IH].
  destruct (p a); [now apply Hf | exact Ha].
Qed.

Lemma set_optional_safe (v : option Z) (old : option Z) :
  safe_optional v = true -> safe_optional old = true ->
  safe_optional (set_optional (assign v) old) = true
  /\ safe_optional (set_optional (assign_if_defined v) old) = true.
Proof. now destruct v. Qed.

Lemma set_session_readable (input : RecipeSessionInput.t) (now : Z)
    (r : RecipeIdeaSessions.row) :
  safe_optional (RecipeSessionInput.servingCount input) = true ->
  readable RecipeIdeaSessionsT r = true ->
  readable RecipeIdeaSessionsT (set_session (sessionUpdateData input now) r) = true.
Proof.
  intros Hi Hr. cbn [readable RecipeIdeaSessionsT] in *.
  unfold set_session, sessionUpdateData; cbn.
  now apply set_optional_safe.
Qed.

Lemma set_recipe_readable (input : UpsertInput.t) (now : Z)
    (r : GeneratedRecipes.row) :
  safe_recipe_input input = true ->
  readable GeneratedRecipesT r = true ->
  readable GeneratedRecipesT (set_recipe (recipeUpdateData input now) r) = true.
Proof.
  unfold safe_recipe_input. cbn [readable GeneratedRecipesT].
  rewrite !andb_true_iff. intros [[I1 I2] I3] [[R1 R2] R3].
  unfold set_recipe, recipeUpdateData; cbn.
  repeat split; now apply set_optional_safe.
Qed.

Lemma session_where_set (d : SessionUpdateData.t) (i : option string)
    (u : User) (r : RecipeIdeaSessions.row) :
  session_where i u (set_session d r) = session_where i u r.
Proof. reflexivity. Qed.

Lemma recipe_where_set (d : RecipeUpdateData.t) (i : option string)
    (u : User) (r : GeneratedRecipes.row) :
  recipe_where i u (set_recipe d r) = recipe_where i u r.
Proof. reflexivity. Qed.

(** [updateRecipeIdeaSession] with a serving count that is a safe integer
    (or none), called again with the same input at the same clock reading
    in the world the first call left, has the outcome of the first call and
    leaves that world as it is. *)
Theorem updateRecipeIdeaSession_twice (rt : Runtime) (input : RecipeSessionInput.t)
    (context : ActionAPIContext) (w : World) :
  safe_optional (RecipeSessionInput.servingCount input) = true ->
  updateRecipeIdeaSession rt input context
    (snd (updateRecipeIdeaSession rt input context w))
  = updateRecipeIdeaSession rt input context w.
Proof.
  intros Hsafe.
  destruct (context_cases context) as [[u ->]|Hn].
  - rewrite (updateRecipeIdeaSession_run rt input u w).
    destruct (read RecipeIdeaSessionsT _) as [existing|e] eqn:Er.
    2:{ cbn [snd]. rewrite updateRecipeIdeaSession_run, Er. reflexivity. }
    pose proof (read_returned _ _ _ Er) as [-> Hread].
    destruct (filter (session_where (Some (RecipeSessionInput.id input)) u)
                (sessions (db w))) as [|r0 l0] eqn:F; cbn [length Nat.eqb snd].
    + rewrite updateRecipeIdeaSession_run, F. reflexivity.
    + rewrite updateRecipeIdeaSession_run. cbn [db sessions recipes ingredients steps
                                                  uuid_next].
      destruct (update_twice (session_where (Some (RecipeSessionInput.id input)) u)
                  (set_session (sessionUpdateData input (clock rt)))
                  (sessions (db w))
                  (session_where_set _ _ u)
                  (set_session_twice _)) as [Em Ef].
      cbv zeta in Em, Ef. rewrite Ef, Em, F.
      rewrite read_readable.
      * reflexivity.
      * apply readable_updated; [|exact Hread].
        intros r. now apply set_session_readable.
  - destruct (anonymous_calls_throw rt context w Hn) as (_ & H2 & _).
    rewrite (H2 input). simpl.
    exact (H2 input).
Qed.

(** Alice sends the same session update twice. *)
Lemma updateRecipeIdeaSession_twice_witness :
  updateRecipeIdeaSession sample_runtime
    (RecipeSessionInput.mk "s-alice-2" None None None None (Some 4)) (signed_in alice)
    (snd (updateRecipeIdeaSession sample_runtime
            (RecipeSessionInput.mk "s-alice-2" None None None None (Some 4))
            (signed_in alice) sample_world))
  = updateRecipeIdeaSession sample_runtime
      (RecipeSessionInput.mk "s-alice-2" None None None None (Some 4)) (signed_in alice)
      sample_world.
Proof.
  exact (updateRecipeIdeaSession_twice sample_runtime
           (RecipeSessionInput.mk "s-alice-2" None None None None (Some 4))
           (signed_in alice) sample_world eq_refl).
Defined.

Lemma world_eta (w : World) :
  mkWorld (mkDb (sessions (db w)) (recipes (db w)) (ingredients (db w)) (steps (db w)))
    (uuid_next w) = w.
Proof. now destruct w as [[? ? ? ?] ?]. Qed.

Lemma filter_twice {R : Type} (p : R -> bool) (l : list R) :
  filter p (filter p l) = filter p l.
Proof.
  induction l as [|r l IH]; simpl; [reflexivity|].
  destruct (p r) eqn:E; simpl; [now rewrite E, IH | exact IH].
Qed.

Lemma filter_none {R : Type} (p : R -> bool) (l : list R) :
  Forall (fun r => p r = false) l -> filter p l = [].
Proof. intros H. apply filter_nil_iff. now apply Forall_forall. Qed.

(** The session check reads the sessions only. *)
Lemma check_session_again (input : UpsertInput.t) (u : User) (w w1 W : World)
    (o : Outcome unit) :
  check_session input u w = (o, w1) ->
  sessions (db W) = sessions (db w1) ->
  check_session input u W = (o, W).
Proof.
  intros H E. pose proof (check_session_frame _ _ _ _ _ H) as ->.
  revert H. rewrite !check_session_run. destruct (truthy_string _).
  - rewrite E. destruct (read RecipeIdeaSessionsT _) as [session|e];
      [destruct (length session =? 0)%nat|]; intros H; inversion H; reflexivity.
  - intros H; inversion H; reflexivity.
Qed.

Lemma session_missing_again (input : UpsertInput.t) (w W : World) :
  sessions (db W) = sessions (db w) ->
  session_missing input W = session_missing input w.
Proof.
  intros E. unfold session_missing, session_exists. now rewrite E.
Qed.

(** The update branch run on its own result changes nothing. *)
Lemma write_recipe_again (rt : Runtime) (input : UpsertInput.t) (u : User)
    (rid : string) (now : Z) (w w1 W : World) (o : Outcome unit) :
  UpsertInput.id input = Some rid -> rid <> EmptyString ->
  safe_recipe_input input = true ->
  write_recipe rt input u rid now w = (o, w1) ->
  recipes (db W) = recipes (db w1) ->
  sessions (db W) = sessions (db w) ->
  write_recipe rt input u rid now W = (o, W).
Proof.
  intros Ei Hne Hsafe H E Es.
  rewrite (write_recipe_update rt input u rid now w Ei Hne) in H.
  rewrite (write_recipe_update rt input u rid now W Ei Hne).
  rewrite (session_missing_again input w W Es).
  destruct (update_twice (recipe_where (Some rid) u)
              (set_recipe (recipeUpdateData input now)) (recipes (db w))
              (recipe_where_set _ _ u) (set_recipe_twice _)) as [Em Ef].
  cbv zeta in Em, Ef.
  destruct (read GeneratedRecipesT (filter _ (recipes (db w)))) as [existing|e] eqn:Er.
  2:{ inversion H; subst o w1. now rewrite E, Er. }
  pose proof (read_returned _ _ _ Er) as [-> Hread].
  destruct (filter (recipe_where (Some rid) u) (recipes (db w))) as [|r0 l0] eqn:F.
  { simpl in H. inversion H; subst o w1. rewrite E, F. reflexivity. }
  cbn [length Nat.eqb] in H.
  destruct (session_missing input w).
  { inversion H; subst o w1. rewrite E, F, Er. reflexivity. }
  inversion H; subst o w1; clear H. simpl in E. rewrite E, Ef, Em.
  rewrite read_readable.
  - cbn [length map Nat.eqb]. rewrite <- E. now rewrite world_eta.
  - apply readable_updated; [|exact Hread].
    intros r. now apply set_recipe_readable.
Qed.

Lemma mapM_ingredient_supplied (rt : Runtime) (rid : string) (now : Z)
    (l : list IngredientInput.t) :
  Forall (fun i => IngredientInput.id i <> None) l ->
  exists new,
    Forall (fun r => GeneratedRecipeIngredients.recipeId r = rid) new
    /\ forall w, mapM (ingredient_row rt rid now) l w = (Returned new, w).
Proof.
  induction 1 as [|i l Hi _ (new & Hn & IH)].
  - exists []. split; [constructor | reflexivity].
  - destruct (IngredientInput.id i) as [x|] eqn:Ex; [|contradiction].
    exists ({| GeneratedRecipeIngredients.id := x;
               GeneratedRecipeIngredients.recipeId := rid;
               GeneratedRecipeIngredients.orderIndex := IngredientInput.orderIndex i;
               GeneratedRecipeIngredients.name := IngredientInput.name i;
               GeneratedRecipeIngredients.quantity := IngredientInput.quantity i;
               GeneratedRecipeIngredients.notes := IngredientInput.notes i;
               GeneratedRecipeIngredients.createdAt := now |} :: new).
    split.
    + constructor; [reflexivity | exact Hn].
    + intros w. simpl. unfold ingredient_row, bind. rewrite Ex. simpl.
      rewrite IH. reflexivity.
Qed.

Lemma mapM_step_supplied (rt : Runtime) (rid : string) (now : Z)
    (l : list StepInput.t) :
  Forall (fun s => StepInput.id s <> None) l ->
  exists new,
    Forall (fun r => GeneratedRecipeSteps.recipeId r = rid) new
    /\ forall w, mapM (step_row rt rid now) l w = (Returned new, w).
Proof.
  induction 1 as [|i l Hi _ (new & Hn & IH)].
  - exists []. split; [constructor | reflexivity].
  - destruct (StepInput.id i) as [x|] eqn:Ex; [|contradiction].
    exists ({| GeneratedRecipeSteps.id := x;
               GeneratedRecipeSteps.recipeId := rid;
               GeneratedRecipeSteps.orderIndex := StepInput.orderIndex i;
               GeneratedRecipeSteps.instruction := StepInput.instruction i;
               GeneratedRecipeSteps.tip := StepInput.tip i;
               GeneratedRecipeSteps.createdAt := now |} :: new).
    split.
    + constructor; [reflexivity | exact Hn].
    + intros w. simpl. unfold step_row, bind. rewrite Ex. simpl.
      rewrite IH. reflexivity.
Qed.

(** Deleting the rows of [rid] from a table the stage has just left gives
    the table the stage's own delete gave. *)
Lemma other_ingredients_again (rid : string)
    (old new : list GeneratedRecipeIngredients.row) :
  Forall (fun r => GeneratedRecipeIngredients.recipeId r = rid) new ->
  other_ingredients rid (other_ingredients rid old ++ new) = other_ingredients rid old.
Proof.
  intros H. unfold other_ingredients. rewrite filter_app, filter_twice.
  rewrite (filter_none _ new); [apply app_nil_r|].
  eapply Forall_impl; [|exact H]. intros r ->. simpl.
  now rewrite String.eqb_refl.
Qed.

Lemma other_steps_again (rid : string) (old new : list GeneratedRecipeSteps.row) :
  Forall (fun r => GeneratedRecipeSteps.recipeId r = rid) new ->
  other_steps rid (other_steps rid old ++ new) = other_steps rid old.
Proof.
  intros H. unfold other_steps. rewrite filter_app, filter_twice.
  rewrite (filter_none _ new); [apply app_nil_r|].
  eapply Forall_impl; [|exact H]. intros r ->. simpl.
  now rewrite String.eqb_refl.
Qed.

Lemma other_ingredients_twice (rid : string)
    (old : list GeneratedRecipeIngredients.row) :
  other_ingredients rid (other_ingredients rid old) = other_ingredients rid old.
Proof. unfold other_ingredients. apply filter_twice. Qed.

Lemma other_steps_twice (rid : string) (old : list GeneratedRecipeSteps.row) :
  other_steps rid (other_steps rid old) = other_steps rid old.
Proof. unfold other_steps. apply filter_twice. Qed.

(** What the store refuses of an insert depends on the store through the
    references only. *)
Lemma insert_refused_ext {R : Type} (T : Table R) (d d' : Db) (new old : list R) :
  (forall r, references_ok T d r = references_ok T d' r) ->
  insert_refused T d old new = insert_refused T d' old new.
Proof.
  intros H. revert old. induction new as [|r new IH]; intros old; [reflexivity|].
  cbn [insert_refused]. now rewrite H, IH.
Qed.

Lemma ingredient_references (d d' : Db) (r : GeneratedRecipeIngredients.row) :
  recipes d = recipes d' ->
  references_ok GeneratedRecipeIngredientsT d r
  = references_ok GeneratedRecipeIngredientsT d' r.
Proof. intros E. cbn. unfold recipe_exists. now rewrite E. Qed.

Lemma step_references (d d' : Db) (r : GeneratedRecipeSteps.row) :
  recipes d = recipes d' ->
  references_ok GeneratedRecipeStepsT d r = references_ok GeneratedRecipeStepsT d' r.
Proof. intros E. cbn. unfold recipe_exists. now rewrite E. Qed.

(** The ingredient stage on an input that identifies its ingredients. *)
Lemma replace_ingredients_supplied (rt : Runtime) (input : UpsertInput.t)
    (rid : string) (now : Z) (l : list IngredientInput.t) :
  UpsertInput.ingredients input = Some l ->
  Forall (fun i => IngredientInput.id i <> None) l ->
  exists new,
    Forall (fun r => GeneratedRecipeIngredients.recipeId r = rid) new
    /\ forall w,
         replace_ingredients rt input rid now w =
           if (0 <? length l)%nat
           then
             match insert_refused GeneratedRecipeIngredientsT (db w)
                     (other_ingredients rid (ingredients (db w))) new with
             | None =>
                 (Returned tt,
                  mkWorld (mkDb (sessions (db w)) (recipes (db w))
                             (other_ingredients rid (ingredients (db w)) ++ new)
                             (steps (db w)))
                    (uuid_next w))
             | Some e =>
                 (Threw e,
                  mkWorld (mkDb (sessions (db w)) (recipes (db w))
                             (other_ingredients rid (ingredients (db w)))
                             (steps (db w)))
                    (uuid_next w))
             end
           else
             (Returned tt,
              mkWorld (mkDb (sessions (db w)) (recipes (db w))
                         (other_ingredients rid (ingredients (db w)))
                         (steps (db w)))
                (uuid_next w)).
Proof.
  intros El Hc.
  destruct (mapM_ingredient_supplied rt rid now l Hc) as (new & Hn & Hm).
  exists new. split; [exact Hn|]. intros w.
  unfold replace_ingredients. rewrite El.
  unfold bind at 1. unfold db_delete at 1. cbn [rows put_rows GeneratedRecipeIngredientsT].
  destruct (0 <? length l)%nat; [|reflexivity].
  unfold bind. rewrite Hm. unfold db_insert.
  cbn [db uuid_next rows put_rows GeneratedRecipeIngredientsT
       sessions recipes ingredients steps].
  rewrite (insert_refused_ext GeneratedRecipeIngredientsT _ (db w));
    [|intros r; now apply ingredient_references].
  now destruct (insert_refused _ _ _ _).
Qed.

(** The step stage on an input that identifies its steps. *)
Lemma replace_steps_supplied (rt : Runtime) (input : UpsertInput.t)
    (rid : string) (now : Z) (l : list StepInput.t) :
  UpsertInput.steps input = Some l ->
  Forall (fun s => StepInput.id s <> None) l ->
  exists new,
    Forall (fun r => GeneratedRecipeSteps.recipeId r = rid) new
    /\ forall w,
         replace_steps rt input rid now w =
           if (0 <? length l)%nat
           then
             match insert_refused GeneratedRecipeStepsT (db w)
                     (other_steps rid (steps (db w))) new with
             | None =>
                 (Returned tt,
                  mkWorld (mkDb (sessions (db w)) (recipes (db w)) (ingredients (db w))
                             (other_steps rid (steps (db w)) ++ new))
                    (uuid_next w))
             | Some e =>
                 (Threw e,
                  mkWorld (mkDb (sessions (db w)) (recipes (db w)) (ingredients (db w))
                             (other_steps rid (steps (db w))))
                    (uuid_next w))
             end
           else
             (Returned tt,
              mkWorld (mkDb (sessions (db w)) (recipes (db w)) (ingredients (db w))
                         (other_steps rid (steps (db w))))
                (uuid_next w)).
Proof.
  intros El Hc.
  destruct (mapM_step_supplied rt rid now l Hc) as (new & Hn & Hm).
  exists new. split; [exact Hn|]. intros w.
  unfold replace_steps. rewrite El.
  unfold bind at 1. unfold db_delete at 1. cbn [rows put_rows GeneratedRecipeStepsT].
  destruct (0 <? length l)%nat; [|reflexivity].
  unfold bind. rewrite Hm. unfold db_insert.
  cbn [db uuid_next rows put_rows GeneratedRecipeStepsT
       sessions recipes ingredients steps].
  rewrite (insert_refused_ext GeneratedRecipeStepsT _ (db w));
    [|intros r; now apply step_references].
  now destruct (insert_refused _ _ _ _).
Qed.

Lemma replace_ingredients_again (rt : Runtime) (input : UpsertInput.t)
    (rid : string) (now : Z) (w w1 W : World) (o : Outcome unit) :
  children_identified input ->
  replace_ingredients rt input rid now w = (o, w1) ->
  ingredients (db W) = ingredients (db w1) ->
  recipes (db W) = recipes (db w) ->
  replace_ingredients rt input rid now W = (o, W).
Proof.
  intros [Hc _].
  destruct (UpsertInput.ingredients input) as [l|] eqn:El.
  2:{ unfold replace_ingredients. rewrite El. intros H _ _. now inversion H. }
  destruct (replace_ingredients_supplied rt input rid now l El (Hc l eq_refl))
    as (new & Hn & Hrun).
  rewrite !Hrun. intros H E Er.
  rewrite (insert_refused_ext GeneratedRecipeIngredientsT (db W) (db w));
    [|intros r; now apply ingredient_references].
  destruct (0 <? length l)%nat.
  - destruct (insert_refused GeneratedRecipeIngredientsT (db w)
                (other_ingredients rid (ingredients (db w))) new) eqn:K;
      inversion H; subst o w1; clear H; simpl in E; rewrite E.
    + rewrite !other_ingredients_twice, K. rewrite <- E. now rewrite world_eta.
    + rewrite (other_ingredients_again rid _ new Hn), K. rewrite <- E.
      now rewrite world_eta.
  - inversion H; subst o w1; clear H; simpl in E. rewrite E.
    rewrite !other_ingredients_twice. rewrite <- E. now rewrite world_eta.
Qed.

Lemma replace_steps_again (rt : Runtime) (input : UpsertInput.t)
    (rid : string) (now : Z) (w w1 W : World) (o : Outcome unit) :
  children_identified input ->
  replace_steps rt input rid now w = (o, w1) ->
  steps (db W) = steps (db w1) ->
  recipes (db W) = recipes (db w) ->
  replace_steps rt input rid now W = (o, W).
Proof.
  intros [_ Hc].
  destruct (UpsertInput.steps input) as [l|] eqn:El.
  2:{ unfold replace_steps. rewrite El. intros H _ _. now inversion H. }
  destruct (replace_steps_supplied rt input rid now l El (Hc l eq_refl))
    as (new & Hn & Hrun).
  rewrite !Hrun. intros H E Er.
  rewrite (insert_refused_ext GeneratedRecipeStepsT (db W) (db w));
    [|intros r; now apply step_references].
  destruct (0 <? length l)%nat.
  - destruct (insert_refused GeneratedRecipeStepsT (db w)
                (other_steps rid (steps (db w))) new) eqn:K;
      inversion H; subst o w1; clear H; simpl in E; rewrite E.
    + rewrite !other_steps_twice, K. rewrite <- E. now rewrite world_eta.
    + rewrite (other_steps_again rid _ new Hn), K. rewrite <- E.
      now rewrite world_eta.
  - inversion H; subst o w1; clear H; simpl in E. rewrite E.
    rewrite !other_steps_twice. rewrite <- E. now rewrite world_eta.
Qed.

Lemma replace_steps_frame_ingredients (rt : Runtime) (input : UpsertInput.t)
    (rid : string) (now : Z) (w w' : World) (o : Outcome unit) :
  replace_steps rt input rid now w = (o, w') ->
  ingredients (db w') = ingredients (db w).
Proof.
  child_stage replace_steps (UpsertInput.steps input)
    (mapM_step_row rt rid now) frame_only.
Qed.

(** The stages of a call whose input carries an identifier. *)
Lemma upsertGeneratedRecipe_run_id (rt : Runtime) (input : UpsertInput.t) (u : User)
    (w : World) (rid : string) :
  UpsertInput.id input = Some rid ->
  upsertGeneratedRecipe rt input (signed_in u) w =
    match check_session input u w with
    | (Threw e, w1) => (Threw e, w1)
    | (Returned _, w1) =>
        match write_recipe rt input u rid (clock rt) w1 with
        | (Threw e, w3) => (Threw e, w3)
        | (Returned _, w3) =>
            match replace_ingredients rt input rid (clock rt) w3 with
            | (Threw e, w4) => (Threw e, w4)
            | (Returned _, w4) =>
                match replace_steps rt input rid (clock rt) w4 with
                | (Threw e, w5) => (Threw e, w5)
                | (Returned _, w5) => (Returned (mkEnvelope true (mkIdData rid)), w5)
                end
            end
        end
    end.
Proof.
  intros Ei. rewrite upsertGeneratedRecipe_run, Ei.
  destruct (check_session input u w) as [[?|e] w1]; reflexivity.
Qed.

(** [upsertGeneratedRecipe] with a non-empty identifier, an identifier
    for every ingredient and step, and numbers that are safe integers,
    called again with the same input at the same clock reading in the world
    the first call left, has the outcome of the first call and leaves that
    world as it is: a retry after success or after any error changes
    nothing more. *)
Theorem upsertGeneratedRecipe_twice (rt : Runtime) (input : UpsertInput.t)
    (context : ActionAPIContext) (w : World) (rid : string) :
  UpsertInput.id input = Some rid -> rid <> EmptyString ->
  children_identified input ->
  safe_recipe_input input = true ->
  upsertGeneratedRecipe rt input context
    (snd (upsertGeneratedRecipe rt input context w))
  = upsertGeneratedRecipe rt input context w.
Proof.
  intros Ei Hne Hc Hsafe.
  destruct (context_cases context) as [[u ->]|Hn].
  2:{ destruct (anonymous_calls_throw rt context w Hn) as (_ & _ & _ & H4 & _).
      rewrite (H4 input). simpl. exact (H4 input). }
  rewrite (upsertGeneratedRecipe_run_id rt input u w rid Ei).
  destruct (check_session input u w) as [o1 w1] eqn:E1.
  pose proof (check_session_frame _ _ _ _ _ E1) as ->.
  destruct o1 as [[]|e].
  2:{ cbn [snd]. rewrite (upsertGeneratedRecipe_run_id rt input u w rid Ei), E1.
      reflexivity. }
  destruct (write_recipe rt input u rid (clock rt) w) as [o3 w3] eqn:E3.
  pose proof (write_recipe_frame _ _ _ _ _ _ _ _ E3) as (S3 & _).
  assert (A3 : write_recipe rt input u rid (clock rt) w3 = (o3, w3))
    by (exact (write_recipe_again rt input u rid (clock rt) w w3 w3 o3 Ei Hne Hsafe E3
                 eq_refl S3)).
  destruct o3 as [[]|e].
  2:{ cbn [snd]. rewrite (upsertGeneratedRecipe_run_id rt input u _ rid Ei).
      rewrite (check_session_again input u w w w3 (Returned tt) E1 S3).
      rewrite A3. reflexivity. }
  destruct (replace_ingredients rt input rid (clock rt) w3) as [o4 w4] eqn:E4.
  pose proof (replace_ingredients_frame _ _ _ _ _ _ _ E4) as [S4 R4].
  assert (A4 : replace_ingredients rt input rid (clock rt) w4 = (o4, w4))
    by (exact (replace_ingredients_again rt input rid (clock rt) w3 w4 w4 o4 Hc E4
                 eq_refl R4)).
  destruct o4 as [[]|e].
  2:{ cbn [snd]. rewrite (upsertGeneratedRecipe_run_id rt input u _ rid Ei).
      rewrite (check_session_again input u w w w4 (Returned tt) E1
                 (eq_trans S4 S3)).
      rewrite (write_recipe_again rt input u rid (clock rt) w w3 w4 (Returned tt)
                 Ei Hne Hsafe E3 R4 (eq_trans S4 S3)).
      rewrite A4. reflexivity. }
  destruct (replace_steps rt input rid (clock rt) w4) as [o5 w5] eqn:E5.
  pose proof (replace_steps_frame _ _ _ _ _ _ _ E5) as [S5 R5].
  pose proof (replace_steps_frame_ingredients _ _ _ _ _ _ _ E5) as I5.
  assert (A5 : replace_steps rt input rid (clock rt) w5 = (o5, w5))
    by (exact (replace_steps_again rt input rid (clock rt) w4 w5 w5 o5 Hc E5
                 eq_refl R5)).
  assert (Second : upsertGeneratedRecipe rt input (signed_in u) w5
                   = match o5 with
                     | Returned _ => (Returned (mkEnvelope true (mkIdData rid)), w5)
                     | Threw e => (Threw e, w5)
                     end).
  { rewrite (upsertGeneratedRecipe_run_id rt input u _ rid Ei).
    rewrite (check_session_again input u w w w5 (Returned tt) E1
               (eq_trans S5 (eq_trans S4 S3))).
    rewrite (write_recipe_again rt input u rid (clock rt) w w3 w5 (Returned tt)
               Ei Hne Hsafe E3 (eq_trans R5 R4) (eq_trans S5 (eq_trans S4 S3))).
    rewrite (replace_ingredients_again rt input rid (clock rt) w3 w4 w5 (Returned tt)
               Hc E4 I5 (eq_trans R5 R4)).
    rewrite A5. reflexivity. }
  destruct o5 as [[]|e]; cbn [snd]; exact Second.
Qed.

Lemma sample_retry_identified : children_identified sample_retry.
Proof.
  split; intros l E; inversion E; subst l; repeat constructor; discriminate.
Qed.

(** Alice sends the same update twice. *)
Lemma upsertGeneratedRecipe_twice_witness :
  upsertGeneratedRecipe sample_runtime sample_retry (signed_in alice)
    (snd (upsertGeneratedRecipe sample_runtime sample_retry (signed_in alice)
            sample_world))
  = upsertGeneratedRecipe sample_runtime sample_retry (signed_in alice) sample_world.
Proof.
  apply (upsertGeneratedRecipe_twice sample_runtime sample_retry (signed_in alice)
           sample_world "r-alice-1" eq_refl).
  - discriminate.
  - exact sample_retry_identified.
  - reflexivity.
Defined.

(** ** A call that throws between its statements *)

Lemma Forall2_In_left {A B : Type} (P : A -> B -> Prop) (l : list A) (l' : list B)
    (a : A) :
  Forall2 P l l' -> In a l -> exists b, In b l' /\ P a b.
Proof.
  induction 1 as [|x y l l' Hxy _ IH]; intros Hin; [destruct Hin|].
  destruct Hin as [<-|Hin].
  - exists y. split; [now left | exact Hxy].
  - destruct (IH Hin) as (b & Hb & Hp). exists b. split; [now right | exact Hp].
Qed.

(** The ingredient stage on a recipe of the store, given an identifier that
    another recipe's ingredient row carries: the delete runs, the insert
    throws. *)
Lemma replace_ingredients_collision (rt : Runtime) (input : UpsertInput.t)
    (rid k : string) (now : Z) (w : World) (l : list IngredientInput.t) :
  UpsertInput.ingredients input = Some l ->
  (exists i, In i l /\ IngredientInput.id i = Some k) ->
  (exists r, In r (ingredients (db w))
             /\ GeneratedRecipeIngredients.id r = k
             /\ GeneratedRecipeIngredients.recipeId r <> rid) ->
  recipe_exists (db w) rid = true ->
  exists n,
    replace_ingredients rt input rid now w
    = (Threw UniqueViolation,
       mkWorld (mkDb (sessions (db w)) (recipes (db w))
                  (other_ingredients rid (ingredients (db w))) (steps (db w))) n).
Proof.
  intros El (i & Hi & Hik) (r & Hr & Hrk & Hrr) Hex.
  unfold replace_ingredients. rewrite El.
  unfold bind at 1. unfold db_delete at 1. simpl.
  assert (Hl : (0 <? length l)%nat = true).
  { destruct l; [destruct Hi | reflexivity]. }
  rewrite Hl.
  match goal with
  | |- exists n, bind _ _ ?w1 = _ =>
      destruct (mapM_ingredient_row rt rid now l w1) as (new & n & Em & _ & F)
  end.
  exists n. unfold bind. rewrite Em. unfold db_insert. simpl.
  fold (other_ingredients rid (ingredients (db w))).
  rewrite insert_refused_keys.
  - destruct (keys_free GeneratedRecipeIngredientsT
                (other_ingredients rid (ingredients (db w))) new) eqn:K; [|reflexivity].
    exfalso.
    destruct (keys_free_spec GeneratedRecipeIngredientsT _ _ K) as [_ Hdis].
    destruct (Forall2_In_left _ _ _ _ F Hi) as (b & Hb & Hmade).
    destruct Hmade as (Hcid & _). rewrite Hik in Hcid. simpl in Hcid.
    apply (Hdis k).
    + apply in_map_iff. exists r. split; [exact Hrk|].
      apply filter_In. split; [exact Hr|].
      apply negb_true_iff. now apply String.eqb_neq.
    + apply in_map_iff. exists b. split; [exact Hcid | exact Hb].
  - apply forallb_forall. intros x Hx.
    pose proof (ingredient_made_recipeId _ _ _ _ _ _ _ F) as Hrid.
    rewrite Forall_forall in Hrid. cbn [references_ok GeneratedRecipeIngredientsT].
    rewrite (Hrid x Hx). exact Hex.
Qed.

(** On the update path (a session reference that is absent or names a
    session the caller owns, a recipe the caller owns, rows that hold safe
    integers), when an ingredient of the input comes with the identifier of
    an ingredient row of another recipe, the call throws the store's
    uniqueness error after two of its statements have run: the recipe row
    is updated and every prior ingredient row of the recipe is deleted,
    none is inserted; sessions and steps are as before. *)
Theorem upsertGeneratedRecipe_ingredient_collision (rt : Runtime)
    (input : UpsertInput.t) (u : User) (w : World) (rid k : string)
    (l : list IngredientInput.t) :
  UpsertInput.id input = Some rid -> rid <> EmptyString ->
  session_checked input = true ->
  session_check_passes w u input ->
  owns_recipe w u rid ->
  store_readable w = true ->
  UpsertInput.ingredients input = Some l ->
  (exists i, In i l /\ IngredientInput.id i = Some k) ->
  (exists r, In r (ingredients (db w))
             /\ GeneratedRecipeIngredients.id r = k
             /\ GeneratedRecipeIngredients.recipeId r <> rid) ->
  fst (upsertGeneratedRecipe rt input (signed_in u) w) = Threw UniqueViolation
  /\ sessions (db (snd (upsertGeneratedRecipe rt input (signed_in u) w)))
     = sessions (db w)
  /\ recipes (db (snd (upsertGeneratedRecipe rt input (signed_in u) w)))
     = map (fun r => if recipe_where (Some rid) u r
                     then set_recipe (recipeUpdateData input (clock rt)) r
                     else r)
         (recipes (db w))
  /\ ingredients (db (snd (upsertGeneratedRecipe rt input (signed_in u) w)))
     = other_ingredients rid (ingredients (db w))
  /\ steps (db (snd (upsertGeneratedRecipe rt input (signed_in u) w)))
     = steps (db w).
Proof.
  intros Ei Hne Hc Hs Ho Hread El Hi Hr.
  rewrite (upsertGeneratedRecipe_run_id rt input u w rid Ei).
  rewrite (check_session_passes _ _ _ Hs Hread).
  rewrite (write_recipe_update rt input u rid (clock rt) w Ei Hne).
  rewrite (store_readable_recipes w _ Hread).
  rewrite (checked_session_exists input u w Hc Hs).
  destruct (length _ =? 0)%nat eqn:E.
  { apply length_eqb_0, recipe_lookup_empty in E. contradiction. }
  match goal with
  | |- context [replace_ingredients rt input rid (clock rt) ?w3] =>
      destruct (replace_ingredients_collision rt input rid k (clock rt) w3 l El Hi Hr)
        as [n ->]
  end.
  - apply recipe_exists_true. destruct Ho as (r0 & Hin & Hid & Hu).
    exists (set_recipe (recipeUpdateData input (clock rt)) r0). split.
    + cbn [db recipes]. apply in_map_iff. exists r0. split; [|exact Hin].
      assert (Hm : recipe_where (Some rid) u r0 = true)
        by (apply recipe_where_true; now split).
      now rewrite Hm.
    + exact Hid.
  - simpl. repeat split; reflexivity.
Qed.

(** Alice resends her first recipe with an ingredient under the identifier
    of bob's ingredient: she loses her two ingredient rows. *)
Lemma upsertGeneratedRecipe_ingredient_collision_witness :
  fst (upsertGeneratedRecipe sample_runtime sample_collision (signed_in alice)
         sample_world) = Threw UniqueViolation
  /\ ingredients (db (snd (upsertGeneratedRecipe sample_runtime sample_collision
                             (signed_in alice) sample_world)))
     = [ sample_ingredient "i-3" "r-bob-1" "rice" ].
Proof.
  assert (Hne : "r-alice-1" <> EmptyString) by discriminate.
  destruct sample_update_on_update_path as [_ Ho].
  destruct (upsertGeneratedRecipe_ingredient_collision sample_runtime sample_collision
              alice sample_world "r-alice-1" "i-3"
              [ IngredientInput.mk (Some "i-3") None "rice" None None ] eq_refl Hne
              eq_refl)
    as (Hf & _ & _ & Hi & _).
  - intros sid E. discriminate.
  - exact Ho.
  - reflexivity.
  - reflexivity.
  - exists (IngredientInput.mk (Some "i-3") None "rice" None None). simpl. auto.
  - exists (sample_ingredient "i-3" "r-bob-1" "rice"). simpl.
    repeat split; [auto | discriminate].
  - split; [exact Hf | exact Hi].
Defined.
